(** * Savings analysis of the inference optimizer

    A shallow embedding of the analysis code of [app.py] (the web variant,
    [analyze_data]) and of [analyze_local.py] (the command-line variant,
    [analyze_csv] from the point where the rows have been loaded), and of
    the loaders and entry points of both ([Loader]), followed by the
    properties of the savings report.  [analyze_data] is embedded a second
    time over a store of objects ([Mem]), for what a run reads and changes.

    Conventions of the embedding.

    - A Python [float] is an IEEE 754 binary64 number, here the primitive type
      [float] with its correctly rounded operations; [x < y], [x <= y] and
      [x == y] are [x <? y], [x <=? y] and [x =? y].  Python's [int] zero and
      [float] zero compare equal and are both written [0].
    - A Python [str] is a [string]; a character is a code point below 256.
    - A Python [list] is a [list]; a [dict] whose iteration order matters
      (a [Counter]) is an association list in insertion order.
    - A call record is a dictionary with the five keys of [CallRecord], its
      cost a [float] and its token count an [int], as the loaders of both
      variants build it.
    - A Python exception is a value of [Py.exn], carried by [Py.result]. *)

From Stdlib Require Import ZArith List String Ascii Bool Lia Floats.
From Stdlib Require Uint63.
From Stdlib Require Import Sorted Permutation.
Import ListNotations.

Set Warnings "-inexact-float".

Local Open Scope string_scope.
Local Open Scope float_scope.

(** ** Python values and built-ins *)

Module Py.

(** *** Exceptions *)

Inductive exn : Type :=
| IndexError
| StopIteration
| ZeroDivisionError.

Inductive result (A : Type) : Type :=
| Ok (a : A)
| Raise (e : exn).

Arguments Ok {A} a.
Arguments Raise {A} e.

Definition bind {A B : Type} (c : result A) (k : A -> result B) : result B :=
  match c with
  | Ok a => k a
  | Raise e => Raise e
  end.

(** A [for] loop over [l] that threads the loop's variables [acc] and stops
    at the first exception. *)
Fixpoint for_each {A S : Type} (body : A -> S -> result S) (l : list A) (acc : S)
  : result S :=
  match l with
  | [] => Ok acc
  | x :: l' => bind (body x acc) (for_each body l')
  end.

(** [l[0]] *)
Definition index0 {A : Type} (l : list A) : result A :=
  match l with
  | [] => Raise IndexError
  | x :: _ => Ok x
  end.

(** [next(x for x in l)] *)
Definition next {A : Type} (l : list A) : result A :=
  match l with
  | [] => Raise StopIteration
  | x :: _ => Ok x
  end.

(** *** Floats *)

(** [float(z)], the conversion that [x * z] applies to an integer [z], for
    [z] from 0 to 2^63 - 1, the range of a list length: the nearest float. *)
Definition float_of_int (z : Z) : float := of_uint63 (Uint63.of_Z z).

(** [x / y] *)
Definition truediv (x y : float) : result float :=
  if y =? 0 then Raise ZeroDivisionError else Ok (x / y).

(** [sum(l)]: the items are added from left to right, starting from [0],
    every addition rounded to the nearest float (the interpreter may carry a
    correction term along, which is not modelled: it can change the last
    digits of a sum of several inexact terms only). *)
Definition sum (l : list float) : float := fold_left PrimFloat.add l 0.

(** The integer nearest to [num / den], a tie going to the even one. *)
Definition round_half_even_div (num den : Z) : Z :=
  let q := (num / den)%Z in
  let r := (num mod den)%Z in
  match (2 * r ?= den)%Z with
  | Lt => q
  | Gt => (q + 1)%Z
  | Eq => if Z.even q then q else (q + 1)%Z
  end.

(** The integer nearest to [m * 2^e * 10^d]. *)
Definition scaled_round (m : positive) (e : Z) (d : Z) : Z :=
  match e with
  | Zneg p => round_half_even_div (Zpos m * 10 ^ d) (2 ^ Zpos p)
  | _ => (Zpos m * 2 ^ e * 10 ^ d)%Z
  end.

(** [round(x, d)] for [d] decimals, [d] being 1, 2 or 4 in this program: the
    exact value of [x] is rounded to the nearest multiple [n / 10^d] of
    [10^-d] (ties to the even [n]), and that decimal is converted to the
    nearest float.  Zeros, infinities and NaN round to themselves.  When [n]
    reaches [2^53] the floats around [x] are more than [10^-d] apart, and the
    float nearest to the decimal is [x]. *)
Definition round (x : float) (d : Z) : float :=
  match Prim2SF x with
  | S754_finite s m e =>
      let n := scaled_round m e d in
      if (n <? 2 ^ 53)%Z then
        let q := float_of_int n / float_of_int (10 ^ d) in
        if s then - q else q
      else x
  | _ => x
  end.

(** *** Strings *)

(** [c.lower()] on a code point below 256: the letters A-Z and the accented
    capitals 192-222 (215, the multiplication sign, apart) move up by 32. *)
Definition lower_char (c : ascii) : ascii :=
  let n := nat_of_ascii c in
  if ((65 <=? n) && (n <=? 90) ||
      (192 <=? n) && (n <=? 222) && negb (n =? 215))%nat
  then ascii_of_nat (n + 32)
  else c.

(** [s.lower()] *)
Fixpoint lower (s : string) : string :=
  match s with
  | EmptyString => EmptyString
  | String c s' => String (lower_char c) (lower s')
  end.

(** [s.startswith(q)] *)
Definition startswith (s q : string) : bool := prefix q s.

(** [sub in s] *)
Fixpoint contains (sub s : string) : bool :=
  match s with
  | EmptyString => prefix sub EmptyString
  | String _ s' => prefix sub s || contains sub s'
  end.

(** [s[:n]] *)
Definition slice_to (n : nat) (s : string) : string := substring 0 n s.

(** [len(s)] *)
Definition len (s : string) : nat := String.length s.

(** [any(f(q) for q in l)] *)
Definition any {A : Type} (f : A -> bool) (l : list A) : bool := existsb f l.

(** *** The regular expression [^[\d\+\-\*/\s]+$] *)

(** [\d] *)
Definition re_digit (c : ascii) : bool :=
  let n := nat_of_ascii c in ((48 <=? n) && (n <=? 57))%nat.

(** [\s] on a code point below 256 *)
Definition re_space (c : ascii) : bool :=
  let n := nat_of_ascii c in
  ((9 <=? n) && (n <=? 13) || (28 <=? n) && (n <=? 32) ||
   (n =? 133) || (n =? 160))%nat.

(** The class [[\d\+\-\*/\s]] *)
Definition re_arith_class (c : ascii) : bool :=
  re_digit c
  || Ascii.eqb c "+" || Ascii.eqb c "-" || Ascii.eqb c "*" || Ascii.eqb c "/"
  || re_space c.

(** [$]: the end of the string, or just before a newline that ends it. *)
Definition re_at_dollar (s : string) : bool :=
  match s with
  | EmptyString => true
  | String c EmptyString => Ascii.eqb c "010"
  | _ => false
  end.

(** [[\d\+\-\*/\s]+$] at the head of [s]: one character of the class, then
    either the end is reached or the repetition goes on. *)
Fixpoint re_arith_plus_dollar (s : string) : bool :=
  match s with
  | EmptyString => false
  | String c s' => re_arith_class c && (re_at_dollar s' || re_arith_plus_dollar s')
  end.

(** [re.match(r'^[\d\+\-\*/\s]+$', s)] as a truth value *)
Definition re_match_arith (s : string) : bool := re_arith_plus_dollar s.

(** *** Sorting *)

Section Sort.
Context {A K : Type} (lt : K -> K -> bool) (key : A -> K).

Fixpoint insert_desc (x : A) (l : list A) : list A :=
  match l with
  | [] => [x]
  | y :: l' => if lt (key x) (key y) then y :: insert_desc x l' else x :: l
  end.

(** [l.sort(key=key, reverse=True)] and [sorted(l, key=key, reverse=True)]:
    the stable sort in descending order of [key], for keys that [lt] orders
    (no NaN among float keys): an item moves behind the later items of
    strictly greater key only, so items of equal keys keep their order. *)
Fixpoint sort_desc (l : list A) : list A :=
  match l with
  | [] => []
  | x :: l' => insert_desc x (sort_desc l')
  end.
End Sort.

(** *** Counter *)

Fixpoint counter_add (k : string) (c : list (string * nat)) : list (string * nat) :=
  match c with
  | [] => [(k, 1%nat)]
  | (k', n) :: c' =>
      if String.eqb k' k then (k', S n) :: c' else (k', n) :: counter_add k c'
  end.

(** [Counter(l).items()]: every distinct item with its number of occurrences,
    in the order of first occurrence. *)
Definition Counter (l : list string) : list (string * nat) :=
  fold_left (fun c k => counter_add k c) l [].

End Py.

Notation "x <- c ;; k" := (Py.bind c (fun x => k))
  (at level 61, c at next level, right associativity).
Notation "' pat <- c ;; k" := (Py.bind c (fun x => match x with pat => k end))
  (at level 61, pat pattern, c at next level, right associativity).

(** ** Call records *)

(** A log entry [{'timestamp': .., 'prompt': .., 'model': .., 'tokens': ..,
    'cost': ..}].  With every key present, [log.get('tokens', 0)] is
    [log['tokens']], and [float(log['cost'])] is [log['cost']]. *)
Record CallRecord : Type := {
  timestamp : string;
  prompt : string;
  model : string;
  tokens : Z;
  cost : float
}.

(** The fingerprint [log['prompt'][:50]] of both variants. *)
Definition fingerprint (log : CallRecord) : string := Py.slice_to 50 (prompt log).

(** ['gpt-4' in log['model'].lower()] *)
Definition is_gpt4 (log : CallRecord) : bool :=
  Py.contains "gpt-4" (Py.lower (model log)).

(** ** The web variant: [app.py] *)

Module App.

(** An entry of [duplicate_prompts] *)
Record DuplicatePrompt : Type := {
  dup_prompt : string;
  dup_count : nat;
  dup_savings : float;
  dup_cost_per_call : float
}.

(** An entry of [downgradeable_calls] *)
Record DowngradeableCall : Type := {
  dg_prompt : string;
  dg_current_cost : float;
  dg_new_cost : float;
  dg_savings : float;
  dg_reason : string
}.

(** An entry of [verbose_prompts] *)
Record VerbosePrompt : Type := {
  vp_prompt_preview : string;
  vp_length : nat;
  vp_cost : float;
  vp_timestamp : string
}.

(** The dictionary that [analyze_data] returns. *)
Record Report : Type := {
  total_cost : float;
  total_calls : nat;
  cache_savings : float;
  routing_savings : float;
  prompt_opt_savings : float;
  batch_savings : float;
  total_savings : float;
  savings_percent : float;
  duplicate_prompts : list DuplicatePrompt;
  downgradeable_calls : list DowngradeableCall;
  verbose_prompts : list VerbosePrompt;
  batchable_calls : list unit
}.

Definition should_downgrade_to_gpt35_analysis (log : CallRecord) : bool :=
  let prompt := Py.lower (prompt log) in
  let tokens := tokens log in
  if (tokens <? 100)%Z then true
  else if Py.any (fun q => Py.startswith prompt q)
            ["what is"; "how do"; "why"; "when"; "who"; "where"] then true
  else if Py.contains "translate" prompt || Py.contains "translation" prompt then true
  else if Py.re_match_arith prompt then true
  else false.

(** The body of the loop over [prompt_counts.items()]; the loop's variables
    are [duplicate_prompts] and [cache_savings]. *)
Definition caching_body (logs : list CallRecord) (item : string * nat)
    (vars : list DuplicatePrompt * float) : Py.result (list DuplicatePrompt * float) :=
  let '(prompt, count) := item in
  let '(duplicate_prompts, cache_savings) := vars in
  if (1 <? count)%nat then
    let matching_logs := filter (fun log => String.eqb (fingerprint log) prompt) logs in
    m <- Py.index0 matching_logs ;;
    let original_cost := cost m in
    let savings := original_cost * Py.float_of_int (Z.of_nat count - 1) in
    Py.Ok ((duplicate_prompts ++
              [{| dup_prompt := prompt;
                  dup_count := count;
                  dup_savings := Py.round savings 2;
                  dup_cost_per_call := Py.round original_cost 4 |}])%list,
           cache_savings + savings)
  else Py.Ok vars.

(** Section 1, caching, up to the sort: the unsorted [duplicate_prompts] and
    the unrounded [cache_savings]. *)
Definition caching (logs : list CallRecord)
  : Py.result (list DuplicatePrompt * float) :=
  let prompts := map fingerprint logs in
  let prompt_counts := Py.Counter prompts in
  Py.for_each (caching_body logs) prompt_counts ([], 0).

(** ['gpt-4' in log['model'].lower() and should_downgrade_to_gpt35_analysis(log)] *)
Definition downgradeable (log : CallRecord) : bool :=
  is_gpt4 log && should_downgrade_to_gpt35_analysis log.

Definition routing_body (vars : list DowngradeableCall * float) (log : CallRecord)
  : list DowngradeableCall * float :=
  let '(downgradeable_calls, routing_savings) := vars in
  if downgradeable log then
    let savings := cost log * 0.9 in
    ((downgradeable_calls ++
        [{| dg_prompt := Py.slice_to 60 (prompt log);
            dg_current_cost := Py.round (cost log) 4;
            dg_new_cost := Py.round (cost log * 0.1) 4;
            dg_savings := Py.round savings 4;
            dg_reason :=
              if (tokens log <? 100)%Z then "Simple query" else "Short prompt" |}])%list,
     routing_savings + savings)
  else vars.

(** Section 2, model routing, up to the sort: the unsorted
    [downgradeable_calls] and the unrounded [routing_savings]. *)
Definition routing (logs : list CallRecord) : list DowngradeableCall * float :=
  fold_left routing_body logs ([], 0).

(** [prompt_len > 500] *)
Definition verbose (log : CallRecord) : bool := (500 <? Py.len (prompt log))%nat.

Definition verbose_body (verbose_prompts : list VerbosePrompt) (log : CallRecord)
  : list VerbosePrompt :=
  let prompt_len := Py.len (prompt log) in
  if (500 <? prompt_len)%nat then
    (verbose_prompts ++
       [{| vp_prompt_preview := (Py.slice_to 80 (prompt log) ++ "...")%string;
           vp_length := prompt_len;
           vp_cost := cost log;
           vp_timestamp := timestamp log |}])%list
  else verbose_prompts.

(** Section 3, prompt optimization, up to the sort: the unsorted
    [verbose_prompts]. *)
Definition verbosity (logs : list CallRecord) : list VerbosePrompt :=
  fold_left verbose_body logs [].

(** The report returned for [not logs]. *)
Definition empty_report : Report :=
  {| total_cost := 0;
     total_calls := 0;
     cache_savings := 0;
     routing_savings := 0;
     prompt_opt_savings := 0;
     batch_savings := 0;
     total_savings := 0;
     savings_percent := 0;
     duplicate_prompts := [];
     downgradeable_calls := [];
     verbose_prompts := [];
     batchable_calls := [] |}.

Definition analyze_data (logs : list CallRecord) : Py.result Report :=
  match logs with
  | [] => Py.Ok empty_report
  | _ :: _ =>
      let total_cost_ := Py.sum (map cost logs) in
      let total_calls_ := List.length logs in
      '(duplicate_prompts_, cache_savings_) <- caching logs ;;
      let duplicate_prompts_ := Py.sort_desc PrimFloat.ltb dup_savings duplicate_prompts_ in
      let '(downgradeable_calls_, routing_savings_) := routing logs in
      let downgradeable_calls_ := Py.sort_desc PrimFloat.ltb dg_savings downgradeable_calls_ in
      let verbose_prompts_ := Py.sort_desc PrimFloat.ltb vp_cost (verbosity logs) in
      let prompt_opt_savings_ := Py.sum (map (fun v => vp_cost v * 0.3) verbose_prompts_) in
      let batch_savings_ := total_cost_ * 0.12 in
      let total_savings_ :=
        cache_savings_ + routing_savings_ + prompt_opt_savings_ + batch_savings_ in
      savings_percent_ <-
        (if 0 <? total_cost_ then
           q <- Py.truediv total_savings_ total_cost_ ;;
           Py.Ok (Py.round (q * 100) 1)
         else Py.Ok 0) ;;
      Py.Ok
        {| total_cost := Py.round total_cost_ 2;
           total_calls := total_calls_;
           cache_savings := Py.round cache_savings_ 2;
           routing_savings := Py.round routing_savings_ 2;
           prompt_opt_savings := Py.round prompt_opt_savings_ 2;
           batch_savings := Py.round batch_savings_ 2;
           total_savings := Py.round total_savings_ 2;
           savings_percent := savings_percent_;
           duplicate_prompts := firstn 10 duplicate_prompts_;
           downgradeable_calls := firstn 10 downgradeable_calls_;
           verbose_prompts := firstn 10 verbose_prompts_;
           batchable_calls := [] |}
  end.

End App.

(** ** The command-line variant: [analyze_local.py] *)

Module AnalyzeLocal.

(** An entry of [downgradeable] *)
Record Downgradeable : Type := {
  dg_prompt : string;
  dg_cost : float;
  dg_savings : float
}.

(** The quantities [analyze_csv] computes and prints. *)
Record Summary : Type := {
  total_calls : nat;
  total_cost : float;
  duplicates : list (string * nat);
  cache_savings : float;
  sorted_dups : list (string * nat);
  downgradeable : list Downgradeable;
  routing_savings : float;
  sorted_down : list Downgradeable;
  verbose : list CallRecord;
  prompt_savings : float;
  batch_savings : float;
  total_savings : float;
  savings_percent : float;
  new_spend : float
}.

Definition should_downgrade (prompt : string) (tokens : Z) : bool :=
  let prompt_lower := Py.lower prompt in
  if (tokens <? 100)%Z then true
  else if Py.any (fun q => Py.startswith prompt_lower q)
            ["what is"; "what are"; "how do"; "why"; "when"; "who"; "where"] then true
  else if Py.contains "translate" prompt_lower
          || Py.contains "translation" prompt_lower then true
  else if Py.re_match_arith prompt_lower then true
  else false.

(** The body of the loop over [duplicates.items()]. *)
Definition caching_body (logs : list CallRecord) (item : string * nat)
    (cache_savings : float) : Py.result float :=
  let '(prompt, count) := item in
  original_cost <-
    Py.next (map cost (filter (fun log => String.eqb (fingerprint log) prompt) logs)) ;;
  Py.Ok (cache_savings + original_cost * Py.float_of_int (Z.of_nat count - 1)).

Definition routing_body (vars : list Downgradeable * float) (log : CallRecord)
  : list Downgradeable * float :=
  let '(downgradeable, routing_savings) := vars in
  if is_gpt4 log && should_downgrade (prompt log) (tokens log) then
    let savings := cost log * 0.9 in
    ((downgradeable ++
        [{| dg_prompt := Py.slice_to 60 (prompt log);
            dg_cost := cost log;
            dg_savings := savings |}])%list,
     routing_savings + savings)
  else vars.

(** [analyze_csv] once the rows of the file are loaded into [logs].  The
    result is [None] when the function prints that no data was found and
    returns; otherwise the printed quantities, or the exception that ends the
    run. *)
Definition analyze_csv (logs : list CallRecord) : Py.result (option Summary) :=
  match logs with
  | [] => Py.Ok None
  | _ :: _ =>
      let total_cost_ := Py.sum (map cost logs) in
      let total_calls_ := List.length logs in
      let prompts := map fingerprint logs in
      let prompt_counts := Py.Counter prompts in
      let duplicates_ := filter (fun pc => (1 <? snd pc)%nat) prompt_counts in
      cache_savings_ <- Py.for_each (caching_body logs) duplicates_ 0 ;;
      let sorted_dups_ := firstn 5 (Py.sort_desc Nat.ltb snd duplicates_) in
      let '(downgradeable_, routing_savings_) := fold_left routing_body logs ([], 0) in
      let sorted_down_ := firstn 5 (Py.sort_desc PrimFloat.ltb dg_savings downgradeable_) in
      let verbose_ := filter (fun log => (500 <? Py.len (prompt log))%nat) logs in
      let prompt_savings_ := Py.sum (map (fun log => cost log * 0.3) verbose_) in
      let batch_savings_ := total_cost_ * 0.12 in
      let total_savings_ :=
        cache_savings_ + routing_savings_ + prompt_savings_ + batch_savings_ in
      q <- Py.truediv total_savings_ total_cost_ ;;
      Py.Ok (Some
        {| total_calls := total_calls_;
           total_cost := total_cost_;
           duplicates := duplicates_;
           cache_savings := cache_savings_;
           sorted_dups := sorted_dups_;
           downgradeable := downgradeable_;
           routing_savings := routing_savings_;
           sorted_down := sorted_down_;
           verbose := verbose_;
           prompt_savings := prompt_savings_;
           batch_savings := batch_savings_;
           total_savings := total_savings_;
           savings_percent := q * 100;
           new_spend := total_cost_ - total_savings_ |})
  end.

End AnalyzeLocal.

(** ** Notions used in the statements *)

(** *** Classes of floats *)

(** [x >= 0] on floats *)
Definition nonneg (x : float) : bool := 0 <=? x.

(** The classes of a float, read on its specification: at least zero, not
    NaN, neither NaN nor infinite. *)
Definition sf_nonneg (x : spec_float) : bool :=
  match x with
  | S754_zero _ => true
  | S754_infinity s | S754_finite s _ _ => negb s
  | S754_nan => false
  end.

Definition sf_notnan (x : spec_float) : bool :=
  match x with
  | S754_nan => false
  | _ => true
  end.

Definition sf_finite (x : spec_float) : bool :=
  match x with
  | S754_zero _ | S754_finite _ _ _ => true
  | _ => false
  end.

(** A number, zero or infinity of sign [s]. *)
Definition sf_signed (s : bool) (x : spec_float) : Prop :=
  match x with
  | S754_zero s' | S754_infinity s' | S754_finite s' _ _ => s' = s
  | S754_nan => False
  end.

(** A finite float above zero. *)
Definition pos_finite (c : float) : bool :=
  match Prim2SF c with
  | S754_finite false _ _ => true
  | _ => false
  end.

(** *** Duplicate groups, in the words of the specification *)

(** The specification groups the records by fingerprint; a group of more
    than one record is a duplicate, and its savings are the cost of its first
    record times the number of its repeats.  These definitions follow its
    words; the loops of the code are compared with them below. *)

(** The group of [k]: the records of [logs] whose fingerprint is [k], in the
    order of [logs]. *)
Definition group (logs : list CallRecord) (k : string) : list CallRecord :=
  filter (fun log => String.eqb (fingerprint log) k) logs.

Definition group_count (logs : list CallRecord) (k : string) : nat :=
  List.length (group logs k).

(** The cost of the first record of the group. *)
Definition first_cost (logs : list CallRecord) (k : string) : float :=
  match group logs k with
  | [] => 0
  | m :: _ => cost m
  end.

Definition group_savings (logs : list CallRecord) (k : string) : float :=
  first_cost logs k * Py.float_of_int (Z.of_nat (group_count logs k) - 1).

Definition duplicate_entry (logs : list CallRecord) (k : string) : App.DuplicatePrompt :=
  {| App.dup_prompt := k;
     App.dup_count := group_count logs k;
     App.dup_savings := Py.round (group_savings logs k) 2;
     App.dup_cost_per_call := Py.round (first_cost logs k) 4 |}.

(** *** Counters *)

(** The number of occurrences of [k] in [l]. *)
Definition occurrences (l : list string) (k : string) : nat :=
  List.length (filter (fun k' => String.eqb k' k) l).

(** The keys of the entries of a counter that count more than one. *)
Definition repeated (c : list (string * nat)) : list string :=
  map fst (filter (fun pc => (1 <? snd pc)%nat) c).

(** What a counter holds once the items of [l] went in. *)
Definition counts (c : list (string * nat)) (l : list string) : Prop :=
  NoDup (map fst c) /\
  (forall k n, In (k, n) c -> n = occurrences l k /\ (1 <= n)%nat) /\
  (forall k, In k l -> In k (map fst c)).

(** *** The passes of [analyze_data], as functions of the log *)

(** The fingerprints of the groups of more than one record, in the order in
    which the counter met them. *)
Definition duplicate_keys (logs : list CallRecord) : list string :=
  repeated (Py.Counter (map fingerprint logs)).

Definition downgradeable_entry (log : CallRecord) : App.DowngradeableCall :=
  {| App.dg_prompt := Py.slice_to 60 (prompt log);
     App.dg_current_cost := Py.round (cost log) 4;
     App.dg_new_cost := Py.round (cost log * 0.1) 4;
     App.dg_savings := Py.round (cost log * 0.9) 4;
     App.dg_reason :=
       if (tokens log <? 100)%Z then "Simple query" else "Short prompt" |}.

Definition verbose_entry (log : CallRecord) : App.VerbosePrompt :=
  {| App.vp_prompt_preview := (Py.slice_to 80 (prompt log) ++ "...")%string;
     App.vp_length := Py.len (prompt log);
     App.vp_cost := cost log;
     App.vp_timestamp := timestamp log |}.

(** The unrounded sums. *)
Definition total_cost_of (logs : list CallRecord) : float := Py.sum (map cost logs).

Definition cache_savings_of (logs : list CallRecord) : float :=
  Py.sum (map (group_savings logs) (duplicate_keys logs)).

Definition routing_savings_of (logs : list CallRecord) : float :=
  Py.sum (map (fun log => cost log * 0.9) (filter App.downgradeable logs)).

(** [verbose_prompts] after its sort, before the cut to ten entries. *)
Definition sorted_verbose (logs : list CallRecord) : list App.VerbosePrompt :=
  Py.sort_desc PrimFloat.ltb App.vp_cost (map verbose_entry (filter App.verbose logs)).

Definition prompt_opt_savings_of (logs : list CallRecord) : float :=
  Py.sum (map (fun v => App.vp_cost v * 0.3) (sorted_verbose logs)).

Definition batch_savings_of (logs : list CallRecord) : float := total_cost_of logs * 0.12.

Definition total_savings_of (logs : list CallRecord) : float :=
  cache_savings_of logs + routing_savings_of logs + prompt_opt_savings_of logs
  + batch_savings_of logs.

(** The report in terms of the passes. *)
Definition report_of (logs : list CallRecord) : App.Report :=
  {| App.total_cost := Py.round (total_cost_of logs) 2;
     App.total_calls := List.length logs;
     App.cache_savings := Py.round (cache_savings_of logs) 2;
     App.routing_savings := Py.round (routing_savings_of logs) 2;
     App.prompt_opt_savings := Py.round (prompt_opt_savings_of logs) 2;
     App.batch_savings := Py.round (batch_savings_of logs) 2;
     App.total_savings := Py.round (total_savings_of logs) 2;
     App.savings_percent :=
       if 0 <? total_cost_of logs
       then Py.round (total_savings_of logs / total_cost_of logs * 100) 1
       else 0;
     App.duplicate_prompts :=
       firstn 10 (Py.sort_desc PrimFloat.ltb App.dup_savings
                    (map (duplicate_entry logs) (duplicate_keys logs)));
     App.downgradeable_calls :=
       firstn 10 (Py.sort_desc PrimFloat.ltb App.dg_savings
                    (map downgradeable_entry (filter App.downgradeable logs)));
     App.verbose_prompts := firstn 10 (sorted_verbose logs);
     App.batchable_calls := [] |}.

(** *** The passes of [analyze_csv], as functions of the log *)

(** The test of the routing loop of [analyze_csv]. *)
Definition cli_downgradeable (log : CallRecord) : bool :=
  is_gpt4 log && AnalyzeLocal.should_downgrade (prompt log) (tokens log).

Definition cli_downgradeable_entry (log : CallRecord) : AnalyzeLocal.Downgradeable :=
  {| AnalyzeLocal.dg_prompt := Py.slice_to 60 (prompt log);
     AnalyzeLocal.dg_cost := cost log;
     AnalyzeLocal.dg_savings := cost log * 0.9 |}.

Definition cli_routing_savings_of (logs : list CallRecord) : float :=
  Py.sum (map (fun log => cost log * 0.9) (filter cli_downgradeable logs)).

Definition cli_prompt_savings_of (logs : list CallRecord) : float :=
  Py.sum (map (fun log => cost log * 0.3) (filter App.verbose logs)).

Definition cli_total_savings_of (logs : list CallRecord) : float :=
  cache_savings_of logs + cli_routing_savings_of logs + cli_prompt_savings_of logs
  + batch_savings_of logs.

(** The printed quantities in terms of the passes. *)
Definition summary_of (logs : list CallRecord) : AnalyzeLocal.Summary :=
  let duplicates :=
    filter (fun pc => (1 <? snd pc)%nat) (Py.Counter (map fingerprint logs)) in
  let downgradeable := map cli_downgradeable_entry (filter cli_downgradeable logs) in
  {| AnalyzeLocal.total_calls := List.length logs;
     AnalyzeLocal.total_cost := total_cost_of logs;
     AnalyzeLocal.duplicates := duplicates;
     AnalyzeLocal.cache_savings := cache_savings_of logs;
     AnalyzeLocal.sorted_dups := firstn 5 (Py.sort_desc Nat.ltb snd duplicates);
     AnalyzeLocal.downgradeable := downgradeable;
     AnalyzeLocal.routing_savings := cli_routing_savings_of logs;
     AnalyzeLocal.sorted_down :=
       firstn 5 (Py.sort_desc PrimFloat.ltb AnalyzeLocal.dg_savings downgradeable);
     AnalyzeLocal.verbose := filter App.verbose logs;
     AnalyzeLocal.prompt_savings := cli_prompt_savings_of logs;
     AnalyzeLocal.batch_savings := batch_savings_of logs;
     AnalyzeLocal.total_savings := cli_total_savings_of logs;
     AnalyzeLocal.savings_percent :=
       cli_total_savings_of logs / total_cost_of logs * 100;
     AnalyzeLocal.new_spend := total_cost_of logs - cli_total_savings_of logs |}.

(** *** Inputs of the examples *)

Definition log_of (p m : string) (t : Z) (c : float) : CallRecord :=
  {| timestamp := "2024-01-01"; prompt := p; model := m; tokens := t; cost := c |}.

(** One short GPT-4 call of 13 cents. *)
Definition thirteen_cents : list CallRecord := [log_of "hi" "gpt-4" 50 0.13].

(** One call whose cost is zero, as for a file without a cost column. *)
Definition free_call : list CallRecord := [log_of "hi" "gpt-3.5-turbo" 150 0].

(** The sum of the four category fields of a report. *)
Definition sum_of_categories (r : App.Report) : float :=
  App.cache_savings r + App.routing_savings r + App.prompt_opt_savings r
  + App.batch_savings r.

(** *** Arithmetic prompts *)

(** A character of an arithmetic expression: a digit, one of [+ - * /], a
    space, a tab, a newline, a carriage return, a form feed or a vertical
    tab. *)
Definition arith_char (c : ascii) : bool :=
  let n := nat_of_ascii c in
  ((48 <=? n) && (n <=? 57)
   || (n =? 43) || (n =? 45) || (n =? 42) || (n =? 47)
   || (n =? 32) || (9 <=? n) && (n <=? 13))%nat.

(** [all(f(c) for c in s)] *)
Fixpoint all_chars (f : ascii -> bool) (s : string) : bool :=
  match s with
  | EmptyString => true
  | String c s' => f c && all_chars f s'
  end.

(** A GPT-4 call of 50 cents with an empty prompt and 100 tokens. *)
Definition empty_prompt_call : CallRecord := log_of "" "gpt-4" 100 0.5.

(** A GPT-4 call that asks for "2 + 2", with [t] tokens. *)
Definition two_plus_two (t : Z) : CallRecord := log_of "2 + 2" "gpt-4" t 0.5.

(** *** Verbose prompts *)

(** A prompt of [n] characters. *)
Definition prompt_of_length (n : nat) : string := string_of_list_ascii (repeat "a"%char n).

Definition call_of_length (n : nat) : CallRecord :=
  log_of (prompt_of_length n) "gpt-3.5-turbo" 150 0.01.

(** *** Downgradeable calls *)

(** The GPT-4 call of 5 cents of the specification. *)
Definition capital_of_france : CallRecord :=
  log_of "What is the capital of France?" "gpt-4" 50 0.05.

(** The same call at a cost of 0.004 cent. *)
Definition tiny_call : CallRecord :=
  log_of "What is the capital of France?" "gpt-4" 50 0.00004.

(** *** Duplicate prompts *)

(** "Hello world" three times at 1 cent and "Goodbye" once at 2 cents. *)
Definition hello_goodbye : list CallRecord :=
  [log_of "Hello world" "gpt-3.5-turbo" 150 0.01;
   log_of "Hello world" "gpt-3.5-turbo" 150 0.01;
   log_of "Goodbye" "gpt-3.5-turbo" 150 0.02;
   log_of "Hello world" "gpt-3.5-turbo" 150 0.01].

(** The same prompt twice at 0.4 cent. *)
Definition sub_cent_pair : list CallRecord :=
  [log_of "Hello world" "gpt-3.5-turbo" 150 0.004;
   log_of "Hello world" "gpt-3.5-turbo" 150 0.004].

(** Two prompts of 51 characters that differ in the last one only. *)
Definition long_pair : list CallRecord :=
  [log_of (prompt_of_length 50 ++ "x") "gpt-3.5-turbo" 150 0.01;
   log_of (prompt_of_length 50 ++ "y") "gpt-3.5-turbo" 150 0.03].

(** *** Descending order *)



(** The place of a float that is not NaN in the order of floats: its class
    with its sign, then its exponent, then its mantissa. *)
Definition sf_rank (x : spec_float) : Z * Z * Z :=
  match x with
  | S754_nan => (0, 0, 0)%Z
  | S754_zero _ => (0, 0, 0)%Z
  | S754_infinity s => (if s then -2 else 2, 0, 0)%Z
  | S754_finite s m e => if s then (-1, - e, - Zpos m)%Z else (1, e, Zpos m)%Z
  end.

Definition rank_le (p q : Z * Z * Z) : Prop :=
  let '(a1, b1, c1) := p in
  let '(a2, b2, c2) := q in
  (a1 < a2 \/ (a1 = a2 /\ (b1 < b2 \/ (b1 = b2 /\ c1 <= c2))))%Z.

(** *** Logs of the examples for the ranking *)

(** Twelve flagged GPT-4 calls of rising cost, the first two with the same
    prompt, the last two with long prompts. *)
Definition twelve_calls : list CallRecord :=
  [log_of "What is 1?" "gpt-4" 50 0.01; log_of "What is 1?" "gpt-4" 50 0.02;
   log_of "What is 3?" "gpt-4" 50 0.03; log_of "What is 4?" "gpt-4" 50 0.04;
   log_of "What is 5?" "gpt-4" 50 0.05; log_of "What is 6?" "gpt-4" 50 0.06;
   log_of "What is 7?" "gpt-4" 50 0.07; log_of "What is 8?" "gpt-4" 50 0.08;
   log_of "What is 9?" "gpt-4" 50 0.09; log_of "What is 10?" "gpt-4" 50 0.10;
   log_of (prompt_of_length 501) "gpt-4" 50 0.11;
   log_of (prompt_of_length 502) "gpt-4" 50 0.12].

(** *** An overflowing total *)

(** Two calls whose costs are finite and add up beyond the largest float. *)
Definition two_huge : list CallRecord :=
  [log_of "a" "gpt-3.5-turbo" 150 1e308; log_of "b" "gpt-3.5-turbo" 150 1e308].

(** The numbers of a web report. *)
Definition report_numbers (r : App.Report) : list float :=
  [App.total_cost r; App.cache_savings r; App.routing_savings r;
   App.prompt_opt_savings r; App.batch_savings r; App.total_savings r;
   App.savings_percent r].

(** The numbers of a printed summary that the web report has too. *)
Definition summary_numbers (s : AnalyzeLocal.Summary) : list float :=
  [AnalyzeLocal.total_cost s; AnalyzeLocal.cache_savings s;
   AnalyzeLocal.routing_savings s; AnalyzeLocal.prompt_savings s;
   AnalyzeLocal.batch_savings s; AnalyzeLocal.total_savings s;
   AnalyzeLocal.savings_percent s].

(** ** The loaders and the entry points *)

Module Loader.

(** [s.endswith(q)] *)
Definition endswith (s q : string) : bool :=
  (String.length q <=? String.length s)%nat
  && String.eqb (substring (String.length s - String.length q) (String.length q) s) q.

Section Rows.

(** A cell of the data frame that [pd.read_csv] returns, with the
    conversions that the loaders apply to it: [str(x)], and [int(x)] and
    [float(x)], which are [None] when the conversion raises. *)
Context {cell : Type}.
Variable py_str : cell -> string.
Variable py_int : cell -> option Z.
Variable py_float : cell -> option float.

(** A row of the frame: [row k] is the cell of column [k], [None] when the
    frame has no such column, where [row.get(k, default)] is [default]. *)
Definition Row : Type := string -> option cell.

(** [str(row.get(k, default))] for a string [default] *)
Definition get_str (row : Row) (k default : string) : string :=
  match row k with
  | Some x => py_str x
  | None => default
  end.

(** [int(row.get(k, 0))] *)
Definition get_int (row : Row) (k : string) : option Z :=
  match row k with
  | Some x => py_int x
  | None => Some 0%Z
  end.

(** [float(row.get(k, 0))] *)
Definition get_float (row : Row) (k : string) : option float :=
  match row k with
  | Some x => py_float x
  | None => Some 0
  end.

(** The dictionary that both loaders append for a row. *)
Definition load_row (row : Row) : option CallRecord :=
  let timestamp_ := get_str row "timestamp" "" in
  let prompt_ := Py.slice_to 200 (get_str row "prompt" "") in
  let model_ := get_str row "model" "gpt-3.5-turbo" in
  match get_int row "n_context_tokens_total" with
  | None => None
  | Some context_tokens =>
      match get_int row "n_generated_tokens_total" with
      | None => None
      | Some generated_tokens =>
          match get_float row "cost" with
          | None => None
          | Some cost_ =>
              Some {| timestamp := timestamp_;
                      prompt := prompt_;
                      model := model_;
                      tokens := context_tokens + generated_tokens;
                      cost := cost_ |}
          end
      end
  end.

(** The loop [for _, row in df.iterrows(): logs.append({...})]: the logs of
    the rows, in their order, or [None] when a conversion raises. *)
Fixpoint load_rows (rows : list Row) : option (list CallRecord) :=
  match rows with
  | [] => Some []
  | row :: rows' =>
      match load_row row with
      | None => None
      | Some log =>
          match load_rows rows' with
          | None => None
          | Some logs => Some (log :: logs)
          end
      end
  end.

(** *** [analyze_upload] of [app.py] *)

(** The body of an upload, with [pd.read_csv] on it ([None] when it raises)
    and the answer of the branch for ".json" files, whose lines are parsed
    into arbitrary dictionaries and which is left abstract ([None] when it
    raises). *)
Context {content : Type}.
Variable read_csv : content -> option (list Row).
Variable analyze_json : content -> option App.Report.

(** The exception of a result, forgotten. *)
Definition returned {A : Type} (r : Py.result A) : option A :=
  match r with
  | Py.Ok a => Some a
  | Py.Raise _ => None
  end.

(** The data that [analyze_upload] hands to [JSONResponse], [None] when an
    exception ends the request before.  The name of the file is a string. *)
Definition analyze_upload (filename : string) (body : content) : option App.Report :=
  if endswith filename ".csv" then
    match read_csv body with
    | None => None
    | Some rows =>
        match load_rows rows with
        | None => None
        | Some logs => returned (App.analyze_data logs)
        end
    end
  else if endswith filename ".json" then analyze_json body
  else returned (App.analyze_data []).

(** *** [analyze_csv] and the script of [analyze_local.py] *)

(** How a run of the script ends. *)
Inductive Run : Type :=
| Usage                                 (* no file given: [sys.exit(1)] *)
| ReadError                             (* the file cannot be read: return *)
| NoData                                (* no row: return *)
| Printed (s : AnalyzeLocal.Summary)    (* the report is printed: return *)
| Uncaught.                             (* an exception ends the script *)

(** [pd.read_csv(filename)] on the file system, [None] when it raises. *)
Variable read_csv_file : string -> option (list Row).

(** [analyze_csv(filename)] *)
Definition analyze_csv_file (filename : string) : Run :=
  match read_csv_file filename with
  | None => ReadError
  | Some rows =>
      match load_rows rows with
      | None => Uncaught
      | Some logs =>
          match AnalyzeLocal.analyze_csv logs with
          | Py.Ok None => NoData
          | Py.Ok (Some s) => Printed s
          | Py.Raise _ => Uncaught
          end
      end
  end.

(** The script: [sys.argv] holds the script's name and its arguments. *)
Definition main (argv : list string) : Run :=
  match argv with
  | _ :: filename :: _ => analyze_csv_file filename
  | _ => Usage
  end.

(** The exit status of the interpreter. *)
Definition exit_status (r : Run) : Z :=
  match r with
  | Usage | Uncaught => 1
  | ReadError | NoData | Printed _ => 0
  end.

End Rows.

End Loader.

(** *** The rules of the downgrade predicates *)

(** The prompt begins, letter case apart, with one of the question words of
    the web variant. *)
Definition question_web (p : string) : bool :=
  Py.any (fun q => Py.startswith (Py.lower p) q)
    ["what is"; "how do"; "why"; "when"; "who"; "where"].

(** The prompt speaks, letter case apart, of a translation. *)
Definition translation (p : string) : bool :=
  Py.contains "translate" (Py.lower p) || Py.contains "translation" (Py.lower p).

(** The prompt is not empty and made of characters of the class
    [[\d\+\-\*/\s]] only. *)
Definition arithmetic (p : string) : bool :=
  negb (String.eqb p "") && all_chars Py.re_arith_class p.

(** A call the two variants may flag differently. *)
Definition what_are_call : CallRecord :=
  log_of "What are the planets?" "gpt-4" 250 0.05.

(** *** Sums of counts *)

(** [sum(l)] on integers *)
Definition sum_nat (l : list nat) : nat := fold_right Nat.add 0%nat l.

(** *** The first items of a ranking *)

(** [x <= y] on floats, as a proposition *)
Definition float_le (x y : float) : Prop := (x <=? y) = true.

(** [kept] holds the [n] items of [all] of greatest key, or all of them when
    there are fewer: the items left out, [rest], make up [all] with [kept],
    and none of them has a key above the key of an item kept. *)
Definition top_of {A K : Type} (le : K -> K -> Prop) (key : A -> K) (n : nat)
    (all kept : list A) : Prop :=
  exists rest,
    Permutation (kept ++ rest) all /\
    (rest = [] \/ List.length kept = n) /\
    forall x y, In x rest -> In y kept -> le (key x) (key y).

(** *** A file of the examples *)

(** The cells of the example are the texts of the file; [int] and [float]
    are given on the texts that its numeric columns hold. *)
Definition text_int (s : string) : option Z :=
  if String.eqb s "120" then Some 120%Z
  else if String.eqb s "30" then Some 30%Z
  else None.

Definition text_float (s : string) : option float :=
  if String.eqb s "0.05" then Some 0.05 else None.

(** A row with a prompt of 600 characters, token counts and a cost, of a
    file without a model column. *)
Definition long_row : Loader.Row :=
  fun k =>
    if String.eqb k "prompt" then Some (prompt_of_length 600)
    else if String.eqb k "n_context_tokens_total" then Some "120"
    else if String.eqb k "n_generated_tokens_total" then Some "30"
    else if String.eqb k "cost" then Some "0.05"
    else None.

(** A row of a file with a prompt and token counts, and neither a model nor
    a cost column. *)
Definition bare_row : Loader.Row :=
  fun k =>
    if String.eqb k "prompt" then Some "What is the capital of France?"
    else if String.eqb k "n_context_tokens_total" then Some "120"
    else if String.eqb k "n_generated_tokens_total" then Some "30"
    else None.

(** A row whose cost is not a number. *)
Definition broken_row : Loader.Row :=
  fun k => if String.eqb k "cost" then Some "n/a" else None.

(** The file system of the examples: one file, "usage.csv", of the given
    rows.  The body of an upload is named in the same way. *)
Definition file_of (rows : list (@Loader.Row string)) (filename : string)
  : option (list (@Loader.Row string)) :=
  if String.eqb filename "usage.csv" then Some rows else None.

(** No ".json" upload is answered in the examples. *)
Definition no_json (body : string) : option App.Report := None.

(** The pair of [long_pair] with other models, times and ends of prompts. *)
Definition long_pair' : list CallRecord :=
  [{| timestamp := "monday"; prompt := prompt_of_length 50 ++ "a question";
      model := "gpt-4"; tokens := 10; cost := 0.01 |};
   {| timestamp := "friday"; prompt := prompt_of_length 50;
      model := "gpt-4o"; tokens := 700; cost := 0.03 |}].

(** The fingerprint and the cost of a record. *)
Definition fingerprint_cost (log : CallRecord) : string * float :=
  (fingerprint log, cost log).

(** ** The store of the interpreter *)

(** [analyze_data] is handed a reference to a list that its caller owns, and
    works by reading it and by changing lists of its own in place.  This
    model of it keeps the objects in a store, so that what a run reads and
    what it changes can be stated. *)

Module Mem.

(** A reference to an object of the store. *)
Definition ref : Type := nat.

(** The objects that a run of [analyze_data] meets: the dictionaries of the
    calls and the list of references to them, which the caller owns, and
    the three lists that the function builds.  The dictionaries that the
    function appends to its own lists are new and nothing changes them:
    they are held by value. *)
Inductive object : Type :=
| Dict (log : CallRecord)
| Calls (items : list ref)
| Duplicates (items : list App.DuplicatePrompt)
| Downgradeables (items : list App.DowngradeableCall)
| Verboses (items : list App.VerbosePrompt).

(** How a computation ends: with a value, with an exception, or stuck on a
    reference that holds no object of the kind that the code expects (in
    Python a [TypeError] or a [KeyError], which a list of call records does
    not give). *)
Inductive outcome (A : Type) : Type :=
| Value (a : A)
| Raised (e : Py.exn)
| Stuck.

Arguments Value {A} a.
Arguments Raised {A} e.
Arguments Stuck {A}.

(** The three lists of the function, as kinds of objects. *)
Record kind (A : Type) : Type := {
  inj : list A -> object;
  prj : object -> option (list A)
}.

Arguments inj {A} k l.
Arguments prj {A} k o.

Definition duplicates : kind App.DuplicatePrompt :=
  {| inj := Duplicates;
     prj := fun o => match o with Duplicates l => Some l | _ => None end |}.

Definition downgradeables : kind App.DowngradeableCall :=
  {| inj := Downgradeables;
     prj := fun o => match o with Downgradeables l => Some l | _ => None end |}.

Definition verboses : kind App.VerbosePrompt :=
  {| inj := Verboses;
     prj := fun o => match o with Verboses l => Some l | _ => None end |}.

(** [h] with the object at [r] replaced by [o] *)
Fixpoint update (r : ref) (o : object) (h : list object) : list object :=
  match h, r with
  | [], _ => []
  | _ :: h', O => o :: h'
  | x :: h', S r' => x :: update r' o h'
  end.

Section World.

(** What the interpreter holds beside the objects: the globals of the
    modules, the clock, the state of the random generator, the hash seed. *)
Context {World : Type}.

Record state : Type := {
  heap : list object;
  world : World
}.

(** A computation runs in a state and leaves one. *)
Definition M (A : Type) : Type := state -> outcome A * state.

Definition ret {A : Type} (a : A) : M A := fun s => (Value a, s).

Definition stuck {A : Type} : M A := fun s => (Stuck, s).

Definition bind {A B : Type} (c : M A) (k : A -> M B) : M B :=
  fun s =>
    match c s with
    | (Value a, s') => k a s'
    | (Raised e, s') => (Raised e, s')
    | (Stuck, s') => (Stuck, s')
    end.

(** An expression that reads and changes no object. *)
Definition lift {A : Type} (r : Py.result A) : M A :=
  fun s =>
    match r with
    | Py.Ok a => (Value a, s)
    | Py.Raise e => (Raised e, s)
    end.

(** A new object, at a reference that held none. *)
Definition alloc (o : object) : M ref :=
  fun s =>
    (Value (List.length (heap s)),
     {| heap := (heap s ++ [o])%list; world := world s |}).

Definition load (r : ref) : M object :=
  fun s =>
    match nth_error (heap s) r with
    | Some o => (Value o, s)
    | None => (Stuck, s)
    end.

Definition store (r : ref) (o : object) : M unit :=
  fun s =>
    if (r <? List.length (heap s))%nat
    then (Value tt, {| heap := update r o (heap s); world := world s |})
    else (Stuck, s).

Notation "x <~ c ;; k" := (bind c (fun x => k))
  (at level 61, c at next level, right associativity).
Notation "c ;;; k" := (bind c (fun _ => k))
  (at level 61, right associativity).

(** [log[..]] reads the dictionary at [log]. *)
Definition get_dict (log : ref) : M CallRecord :=
  o <~ load log ;;
  match o with Dict d => ret d | _ => stuck end.

(** The items of the list of calls at [logs]. *)
Definition get_calls (logs : ref) : M (list ref) :=
  o <~ load logs ;;
  match o with Calls l => ret l | _ => stuck end.

(** [x = []] *)
Definition new_list {A : Type} (k : kind A) : M ref := alloc (inj k []).

(** The items of the list at [x]. *)
Definition items {A : Type} (k : kind A) (x : ref) : M (list A) :=
  o <~ load x ;;
  match prj k o with Some l => ret l | None => stuck end.

(** [x.append(a)] changes the list at [x]. *)
Definition append {A : Type} (k : kind A) (x : ref) (a : A) : M unit :=
  l <~ items k x ;;
  store x (inj k (l ++ [a])%list).

(** [x.sort(key=.., reverse=True)] changes the list at [x]. *)
Definition sort {A : Type} (k : kind A) (x : ref) (key : A -> float) : M unit :=
  l <~ items k x ;;
  store x (inj k (Py.sort_desc PrimFloat.ltb key l)).

(** [x[:n]] is a new list. *)
Definition slice_to {A : Type} (k : kind A) (n : nat) (x : ref) : M (list A) :=
  l <~ items k x ;;
  ret (firstn n l).

(** A [for] loop over the items [l] that threads the loop's variable. *)
Fixpoint for_each {A S : Type} (body : A -> S -> M S) (l : list A) (acc : S) : M S :=
  match l with
  | [] => ret acc
  | a :: l' => acc' <~ body a acc ;; for_each body l' acc'
  end.

(** [for log in logs]: the loop runs over the items that the list at [logs]
    holds when it starts, and reads each dictionary when its turn comes. *)
Definition for_in {S : Type} (logs : ref) (body : ref -> S -> M S) (acc : S) : M S :=
  l <~ get_calls logs ;;
  for_each body l acc.

(** [[f(log) for log in logs]] and [(f(log) for log in logs)] *)
Definition comprehension {A : Type} (logs : ref) (f : CallRecord -> A) : M (list A) :=
  for_in logs (fun log acc => d <~ get_dict log ;; ret (acc ++ [f d])%list) [].

(** [[log for log in logs if f(log)]]: references to the same dictionaries *)
Definition select (logs : ref) (f : CallRecord -> bool) : M (list ref) :=
  for_in logs
    (fun log acc => d <~ get_dict log ;; ret (if f d then (acc ++ [log])%list else acc))
    [].

(** The body of the loop over [prompt_counts.items()]; the loop's variable
    is [cache_savings]. *)
Definition caching_body (logs duplicate_prompts : ref) (item : string * nat)
    (cache_savings : float) : M float :=
  let '(prompt, count) := item in
  if (1 <? count)%nat then
    matching_logs <~ select logs (fun log => String.eqb (fingerprint log) prompt) ;;
    first <~ lift (Py.index0 matching_logs) ;;
    m <~ get_dict first ;;
    let original_cost := cost m in
    let savings := original_cost * Py.float_of_int (Z.of_nat count - 1) in
    let cache_savings := cache_savings + savings in
    append duplicates duplicate_prompts
           {| App.dup_prompt := prompt;
              App.dup_count := count;
              App.dup_savings := Py.round savings 2;
              App.dup_cost_per_call := Py.round original_cost 4 |} ;;;
    ret cache_savings
  else ret cache_savings.

(** The body of the second loop; its variable is [routing_savings]. *)
Definition routing_body (downgradeable_calls : ref) (log : ref)
    (routing_savings : float) : M float :=
  d <~ get_dict log ;;
  if App.downgradeable d then
    let savings := cost d * 0.9 in
    let routing_savings := routing_savings + savings in
    append downgradeables downgradeable_calls
           {| App.dg_prompt := Py.slice_to 60 (prompt d);
              App.dg_current_cost := Py.round (cost d) 4;
              App.dg_new_cost := Py.round (cost d * 0.1) 4;
              App.dg_savings := Py.round savings 4;
              App.dg_reason :=
                if (tokens d <? 100)%Z then "Simple query" else "Short prompt" |} ;;;
    ret routing_savings
  else ret routing_savings.

(** The body of the third loop, which has no variable. *)
Definition verbose_body (verbose_prompts : ref) (log : ref) (_ : unit) : M unit :=
  d <~ get_dict log ;;
  let prompt_len := Py.len (prompt d) in
  if (500 <? prompt_len)%nat then
    append verboses verbose_prompts
      {| App.vp_prompt_preview := (Py.slice_to 80 (prompt d) ++ "...")%string;
         App.vp_length := prompt_len;
         App.vp_cost := cost d;
         App.vp_timestamp := timestamp d |}
  else ret tt.

(** [analyze_data(logs)], statement by statement. *)
Definition analyze_data (logs : ref) : M App.Report :=
  l <~ get_calls logs ;;
  match l with
  | [] => ret App.empty_report
  | _ :: _ =>
      costs <~ comprehension logs cost ;;
      let total_cost_ := Py.sum costs in
      l <~ get_calls logs ;;
      let total_calls_ := List.length l in
      prompts <~ comprehension logs fingerprint ;;
      let prompt_counts := Py.Counter prompts in
      duplicate_prompts <~ new_list duplicates ;;
      cache_savings_ <~ for_each (caching_body logs duplicate_prompts) prompt_counts 0 ;;
      sort duplicates duplicate_prompts App.dup_savings ;;;
      downgradeable_calls <~ new_list downgradeables ;;
      routing_savings_ <~ for_in logs (routing_body downgradeable_calls) 0 ;;
      sort downgradeables downgradeable_calls App.dg_savings ;;;
      verbose_prompts <~ new_list verboses ;;
      for_in logs (verbose_body verbose_prompts) tt ;;;
      sort verboses verbose_prompts App.vp_cost ;;;
      vs <~ items verboses verbose_prompts ;;
      let prompt_opt_savings_ := Py.sum (map (fun v => App.vp_cost v * 0.3) vs) in
      let batch_savings_ := total_cost_ * 0.12 in
      let total_savings_ :=
        cache_savings_ + routing_savings_ + prompt_opt_savings_ + batch_savings_ in
      savings_percent_ <~
        lift (if 0 <? total_cost_ then
                q <- Py.truediv total_savings_ total_cost_ ;;
                Py.Ok (Py.round (q * 100) 1)
              else Py.Ok 0) ;;
      duplicate_prompts_ <~ slice_to duplicates 10 duplicate_prompts ;;
      downgradeable_calls_ <~ slice_to downgradeables 10 downgradeable_calls ;;
      verbose_prompts_ <~ slice_to verboses 10 verbose_prompts ;;
      ret {| App.total_cost := Py.round total_cost_ 2;
             App.total_calls := total_calls_;
             App.cache_savings := Py.round cache_savings_ 2;
             App.routing_savings := Py.round routing_savings_ 2;
             App.prompt_opt_savings := Py.round prompt_opt_savings_ 2;
             App.batch_savings := Py.round batch_savings_ 2;
             App.total_savings := Py.round total_savings_ 2;
             App.savings_percent := savings_percent_;
             App.duplicate_prompts := duplicate_prompts_;
             App.downgradeable_calls := downgradeable_calls_;
             App.verbose_prompts := verbose_prompts_;
             App.batchable_calls := [] |}
  end.

End World.

End Mem.

(** *** Runs in a store *)

(** The list at [logs] holds the sequence [records]: references to
    dictionaries with these contents, in this order. *)
Definition holds (h : list Mem.object) (logs : Mem.ref) (records : list CallRecord)
  : Prop :=
  exists refs,
    nth_error h logs = Some (Mem.Calls refs) /\
    Forall2 (fun r d => nth_error h r = Some (Mem.Dict d)) refs records.

(** [s'] is [s] with new objects: every object of [s] is in [s'] as it was,
    and the rest of the interpreter's state is the same. *)
Definition grown {World : Type} (s s' : @Mem.state World) : Prop :=
  Mem.world s' = Mem.world s /\
  exists new, Mem.heap s' = (Mem.heap s ++ new)%list.

(** A kind reads back what it holds. *)
Definition kind_ok {A : Type} (k : Mem.kind A) : Prop :=
  forall l, Mem.prj k (Mem.inj k l) = Some l.

(** *** Stores of the examples *)

(** A store in which the list at reference 2 holds the calls of
    [hello_goodbye], the three "Hello world" calls being one dictionary
    that the list refers to three times. *)
Definition shared_store : @Mem.state string :=
  {| Mem.heap :=
       [Mem.Dict (log_of "Hello world" "gpt-3.5-turbo" 150 0.01);
        Mem.Dict (log_of "Goodbye" "gpt-3.5-turbo" 150 0.02);
        Mem.Calls [0; 0; 1; 0]%nat];
     Mem.world := "monday" |}.

(** Another store, in another state of the interpreter, in which the list
    at reference 1 holds the same calls, each a dictionary of its own,
    among objects that are not calls. *)
Definition other_store : @Mem.state string :=
  {| Mem.heap :=
       [Mem.Verboses [];
        Mem.Calls [3; 2; 5; 4]%nat;
        Mem.Dict (log_of "Hello world" "gpt-3.5-turbo" 150 0.01);
        Mem.Dict (log_of "Hello world" "gpt-3.5-turbo" 150 0.01);
        Mem.Dict (log_of "Hello world" "gpt-3.5-turbo" 150 0.01);
        Mem.Dict (log_of "Goodbye" "gpt-3.5-turbo" 150 0.02);
        Mem.Duplicates []];
     Mem.world := "friday" |}.

(** * Properties *)

Local Open Scope list_scope.

(** ** Floats: sign and class of the results *)

Section FloatFacts.

Lemma shr_1_nonneg mrs : (0 <= shr_m mrs)%Z -> (0 <= shr_m (shr_1 mrs))%Z.
Proof.
  destruct mrs as [m r s]; simpl.
  destruct m as [|p|p]; simpl; try lia; destruct p; simpl; lia.
Qed.

Lemma iter_shr_1_nonneg p : forall mrs,
  (0 <= shr_m mrs)%Z -> (0 <= shr_m (iter_pos shr_1 p mrs))%Z.
Proof.
  induction p as [p IH|p IH|]; intros mrs H; simpl.
  - apply IH, IH, shr_1_nonneg, H.
  - apply IH, IH, H.
  - apply shr_1_nonneg, H.
Qed.

Lemma shr_record_of_loc_m m l : shr_m (shr_record_of_loc m l) = m.
Proof. destruct l as [|[]]; reflexivity. Qed.

Lemma shr_fexp_nonneg m e l :
  (0 <= m)%Z -> (0 <= shr_m (fst (shr_fexp prec emax m e l)))%Z.
Proof.
  intros H. unfold shr_fexp, shr.
  destruct (fexp prec emax (Zdigits2 m + e) - e)%Z; simpl;
    try (rewrite shr_record_of_loc_m; exact H).
  apply iter_shr_1_nonneg. rewrite shr_record_of_loc_m; exact H.
Qed.

Lemma round_nearest_even_nonneg m l : (0 <= m)%Z -> (0 <= round_nearest_even m l)%Z.
Proof.
  intros H. unfold round_nearest_even.
  destruct l as [|[]]; try lia. destruct (Z.even m); lia.
Qed.

(** Rounding a non-negative mantissa yields a number, a zero or an infinity
    of the sign asked for, never NaN. *)
Lemma binary_round_aux_signed s mx ex lx :
  (0 <= mx)%Z -> sf_signed s (binary_round_aux prec emax s mx ex lx).
Proof.
  intros H. unfold binary_round_aux.
  pose proof (shr_fexp_nonneg mx ex lx H) as H1.
  destruct (shr_fexp prec emax mx ex lx) as [mrs1 e1]. simpl in H1.
  pose proof (shr_fexp_nonneg _ e1 loc_Exact
                (round_nearest_even_nonneg _ (loc_of_shr_record mrs1) H1)) as H2.
  destruct (shr_fexp prec emax _ e1 loc_Exact) as [mrs2 e2]. simpl in H2.
  destruct (shr_m mrs2) as [|m|m]; simpl; try reflexivity.
  - destruct (e2 <=? _)%Z; reflexivity.
  - lia.
Qed.

Lemma sf_signed_notnan s x : sf_signed s x -> sf_notnan x = true.
Proof. destruct x; simpl; intros H; try reflexivity; contradiction. Qed.

Lemma sf_signed_nonneg x : sf_signed false x -> sf_nonneg x = true.
Proof.
  destruct x; simpl; intros H; try reflexivity; try contradiction;
    subst; reflexivity.
Qed.

Lemma sf_finite_notnan x : sf_finite x = true -> sf_notnan x = true.
Proof. destruct x; simpl; intros H; try reflexivity; discriminate. Qed.

Lemma binary_normalize_signed (z e : Z) :
  (0 <= z)%Z -> sf_signed false (binary_normalize prec emax z e false).
Proof.
  intros H. destruct z as [|p|p]; try lia; simpl; [reflexivity|].
  unfold binary_round.
  destruct (shl_align p e _) as [mz ez].
  apply binary_round_aux_signed. lia.
Qed.

(** The primitive tests, read on the specification. *)
Lemma nonneg_spec x : nonneg x = sf_nonneg (Prim2SF x).
Proof.
  unfold nonneg. rewrite leb_spec. unfold SFleb.
  change (Prim2SF 0) with (S754_zero false).
  destruct (Prim2SF x) as [s|s| |s m e]; simpl; try reflexivity;
    destruct s; reflexivity.
Qed.

Lemma SFcompare_refl x : sf_notnan x = true -> SFcompare x x = Some Eq.
Proof.
  destruct x as [s|s| |s m e]; simpl; intros H; try reflexivity; try discriminate.
  - destruct s; reflexivity.
  - rewrite Z.compare_refl.
    assert (Pos.compare_cont Eq m m = Eq) as -> by apply Pos.compare_cont_refl.
    destruct s; reflexivity.
Qed.

Lemma is_nan_spec x : is_nan x = negb (sf_notnan (Prim2SF x)).
Proof.
  unfold is_nan. rewrite eqb_spec. unfold SFeqb.
  destruct (sf_notnan (Prim2SF x)) eqn:E.
  - rewrite SFcompare_refl by exact E. reflexivity.
  - destruct (Prim2SF x); try discriminate. reflexivity.
Qed.

Lemma is_finite_spec x : is_finite x = sf_finite (Prim2SF x).
Proof.
  unfold is_finite, is_infinity. rewrite is_nan_spec, eqb_spec, abs_spec.
  unfold SFeqb. change (Prim2SF infinity) with (S754_infinity false).
  destruct (Prim2SF x) as [s|s| |s m e]; reflexivity.
Qed.

Lemma Zdigits2_nonneg m : (0 <= Zdigits2 m)%Z.
Proof. destruct m; simpl; lia. Qed.

Lemma shr_1_digits mrs :
  (0 <= shr_m mrs)%Z ->
  (Zdigits2 (shr_m (shr_1 mrs)) + 1 <= Z.max (Zdigits2 (shr_m mrs)) 1)%Z.
Proof.
  destruct mrs as [m r s]; simpl.
  destruct m as [|p|p]; simpl; try lia; destruct p; simpl; lia.
Qed.

Lemma iter_shr_1_digits p : forall mrs,
  (0 <= shr_m mrs)%Z ->
  (Zdigits2 (shr_m (iter_pos shr_1 p mrs)) + Zpos p
   <= Z.max (Zdigits2 (shr_m mrs)) (Zpos p))%Z.
Proof.
  induction p as [p IH|p IH|]; intros mrs H; simpl.
  - pose proof (shr_1_digits mrs H) as H1.
    pose proof (shr_1_nonneg mrs H) as N1.
    pose proof (IH _ N1) as H2.
    pose proof (iter_shr_1_nonneg p _ N1) as N2.
    pose proof (IH _ N2) as H3.
    pose proof (Zdigits2_nonneg (shr_m (iter_pos shr_1 p (iter_pos shr_1 p (shr_1 mrs))))).
    lia.
  - pose proof (IH _ H) as H2.
    pose proof (iter_shr_1_nonneg p _ H) as N2.
    pose proof (IH _ N2) as H3.
    lia.
  - apply shr_1_digits, H.
Qed.

Lemma shr_fexp_bounds m e l :
  (0 <= m)%Z ->
  let '(mrs, e1) := shr_fexp prec emax m e l in
  (0 <= shr_m mrs)%Z /\
  e1 = Z.max e (fexp prec emax (Zdigits2 m + e)) /\
  (Zdigits2 (shr_m mrs) + e1 <= Z.max (Zdigits2 m + e) e1)%Z.
Proof.
  intros H. unfold shr_fexp, shr.
  set (n := (fexp prec emax (Zdigits2 m + e) - e)%Z).
  destruct n as [|p|p] eqn:En; subst n.
  - rewrite shr_record_of_loc_m. lia.
  - pose proof (iter_shr_1_digits p (shr_record_of_loc m l)) as D.
    pose proof (iter_shr_1_nonneg p (shr_record_of_loc m l)) as N.
    rewrite shr_record_of_loc_m in D, N. specialize (D H). specialize (N H).
    lia.
  - rewrite shr_record_of_loc_m. lia.
Qed.

Lemma digits2_pos_succ p : (Zpos (digits2_pos (Pos.succ p)) <= Zpos (digits2_pos p) + 1)%Z.
Proof. induction p; simpl; lia. Qed.

Lemma round_nearest_even_digits m l :
  (0 <= m)%Z -> (Zdigits2 (round_nearest_even m l) <= Zdigits2 m + 1)%Z.
Proof.
  intros H.
  assert (Zdigits2 (m + 1) <= Zdigits2 m + 1)%Z as S.
  { destruct m as [|p|p]; try lia; simpl; [lia|].
    rewrite Pos.add_1_r. apply digits2_pos_succ. }
  unfold round_nearest_even. destruct l as [|[]]; try lia.
  destruct (Z.even m); lia.
Qed.

Lemma fexp_le t : (fexp prec emax t <= Z.max (t - 53) (-1074))%Z.
Proof. unfold fexp, emin, prec, emax. lia. Qed.

Lemma binary_round_aux_finite s mx ex lx :
  (0 <= mx)%Z -> (ex <= 900)%Z -> (Zdigits2 mx + ex <= 900)%Z ->
  sf_finite (binary_round_aux prec emax s mx ex lx) = true.
Proof.
  intros H He Hd. unfold binary_round_aux.
  pose proof (shr_fexp_bounds mx ex lx H) as B1.
  destruct (shr_fexp prec emax mx ex lx) as [mrs1 e1].
  destruct B1 as (N1 & E1 & D1).
  pose proof (round_nearest_even_nonneg _ (loc_of_shr_record mrs1) N1) as N1'.
  pose proof (round_nearest_even_digits _ (loc_of_shr_record mrs1) N1) as R1.
  pose proof (shr_fexp_bounds _ e1 loc_Exact N1') as B2.
  destruct (shr_fexp prec emax _ e1 loc_Exact) as [mrs2 e2].
  destruct B2 as (N2 & E2 & D2).
  pose proof (fexp_le (Zdigits2 mx + ex)).
  pose proof (fexp_le (Zdigits2 (round_nearest_even (shr_m mrs1) (loc_of_shr_record mrs1)) + e1)).
  destruct (shr_m mrs2) as [|m|m]; simpl; try reflexivity; try lia.
  assert ((e2 <=? 971)%Z = true) as -> by (apply Z.leb_le; lia).
  reflexivity.
Qed.

Lemma digits2_pos_iter_xO p d :
  Zpos (digits2_pos (Pos.iter xO p d)) = (Zpos (digits2_pos p) + Zpos d)%Z.
Proof.
  induction d using Pos.peano_ind.
  - simpl. lia.
  - rewrite Pos.iter_succ. simpl. lia.
Qed.

Lemma digits2_pos_size p : digits2_pos p = Pos.size p.
Proof. induction p; simpl; congruence. Qed.

Lemma digits2_pos_bound p k :
  (0 <= k)%Z -> (Zpos p < 2 ^ k)%Z -> (Zpos (digits2_pos p) <= k)%Z.
Proof.
  intros Hk H. rewrite digits2_pos_size.
  pose proof (Pos.size_le p) as L.
  apply Pos2Z.pos_le_pos in L. rewrite Pos2Z.inj_pow in L.
  change (Z.pos p~0) with (2 * Z.pos p)%Z in L.
  destruct (Z.le_gt_cases (Z.pos (Pos.size p)) k) as [?|G]; [assumption|].
  assert (2 ^ (k + 1) <= 2 ^ Z.pos (Pos.size p))%Z by (apply Z.pow_le_mono_r; lia).
  rewrite Z.pow_add_r in H0 by lia. lia.
Qed.

Lemma binary_normalize_int_finite z :
  (0 <= z < 2 ^ 63)%Z -> sf_finite (binary_normalize prec emax z 0 false) = true.
Proof.
  intros [H0 H]. destruct z as [|p|p]; try lia; [reflexivity|].
  simpl. unfold binary_round.
  pose proof (digits2_pos_bound p 63 ltac:(lia) H) as D.
  unfold shl_align.
  destruct (fexp prec emax (Z.pos (digits2_pos p) + 0) - 0)%Z as [|d|d] eqn:E.
  - apply binary_round_aux_finite; simpl; lia.
  - apply binary_round_aux_finite; simpl; lia.
  - apply binary_round_aux_finite; try lia.
    simpl Zdigits2. rewrite digits2_pos_iter_xO. lia.
Qed.

Lemma float_of_int_spec z :
  Prim2SF (Py.float_of_int z) = binary_normalize prec emax (z mod 2 ^ 63) 0 false.
Proof.
  unfold Py.float_of_int. rewrite of_uint63_spec, Uint63.of_Z_spec. reflexivity.
Qed.

Lemma float_of_int_finite z : sf_finite (Prim2SF (Py.float_of_int z)) = true.
Proof.
  rewrite float_of_int_spec. apply binary_normalize_int_finite.
  apply Z.mod_pos_bound. reflexivity.
Qed.

Lemma float_of_int_nonneg z : sf_nonneg (Prim2SF (Py.float_of_int z)) = true.
Proof.
  rewrite float_of_int_spec. apply sf_signed_nonneg, binary_normalize_signed.
  apply Z.mod_pos_bound. reflexivity.
Qed.

Lemma binary_round_signed s m e : sf_signed s (binary_round prec emax s m e).
Proof.
  unfold binary_round. destruct (shl_align m e _) as [mz ez].
  apply binary_round_aux_signed. lia.
Qed.

Lemma SFadd_nonneg x y :
  sf_nonneg x = true -> sf_nonneg y = true -> sf_nonneg (SF64add x y) = true.
Proof.
  destruct x as [sx|sx| |sx mx ex], y as [sy|sy| |sy my ey]; simpl;
    intros Hx Hy; try discriminate; try reflexivity; try assumption.
  - destruct sx, sy; reflexivity.
  - destruct sx, sy; try discriminate; reflexivity.
  - destruct sx, sy; try discriminate. simpl.
    apply sf_signed_nonneg, binary_round_signed.
Qed.

Lemma SFmul_signed x y :
  sf_notnan x = true -> sf_notnan y = true ->
  sf_finite x = true -> sf_finite y = true ->
  sf_notnan (SF64mul x y) = true.
Proof.
  destruct x as [sx|sx| |sx mx ex], y as [sy|sy| |sy my ey]; simpl;
    intros Nx Ny Fx Fy; try discriminate; try reflexivity.
  eapply sf_signed_notnan, binary_round_aux_signed. lia.
Qed.

Lemma SFmul_nonneg x y :
  sf_nonneg x = true -> sf_nonneg y = true ->
  sf_finite x = true -> sf_finite y = true ->
  sf_nonneg (SF64mul x y) = true.
Proof.
  destruct x as [sx|sx| |sx mx ex], y as [sy|sy| |sy my ey]; simpl;
    intros Nx Ny Fx Fy; try discriminate; try reflexivity.
  destruct sx, sy; try discriminate. simpl.
  apply sf_signed_nonneg, binary_round_aux_signed. lia.
Qed.

(** Multiplication by a positive constant *)
Lemma SFmul_pos_notnan x m e :
  sf_notnan x = true -> sf_notnan (SF64mul x (S754_finite false m e)) = true.
Proof.
  destruct x as [sx|sx| |sx mx ex]; simpl; intros Nx; try discriminate; try reflexivity.
  eapply sf_signed_notnan, binary_round_aux_signed. lia.
Qed.

Lemma SFmul_pos_nonneg x m e :
  sf_nonneg x = true -> sf_nonneg (SF64mul x (S754_finite false m e)) = true.
Proof.
  destruct x as [sx|sx| |sx mx ex]; simpl; intros Nx; try discriminate; try reflexivity.
  - destruct sx; try discriminate; reflexivity.
  - destruct sx; try discriminate. simpl.
    apply sf_signed_nonneg, binary_round_aux_signed. lia.
Qed.

Lemma SFdiv_core_nonneg mx ex my ey :
  (0 <= fst (fst (SFdiv_core_binary prec emax (Zpos mx) ex (Zpos my) ey)))%Z.
Proof.
  unfold SFdiv_core_binary.
  set (s := (ex - ey - _)%Z).
  set (m' := match s with Z0 => Zpos mx | Zpos _ => Z.shiftl (Zpos mx) s | Zneg _ => 0%Z end).
  assert (0 <= m')%Z as Hm.
  { subst m'. destruct s; try lia. apply Z.shiftl_nonneg. lia. }
  pose proof (Z.div_eucl_eq m' (Zpos my) ltac:(lia)) as Q.
  pose proof (Z.mod_pos_bound m' (Zpos my) ltac:(lia)) as R.
  unfold Z.modulo in R.
  destruct (Z.div_eucl m' (Zpos my)) as [q r]. simpl.
  nia.
Qed.

Lemma SFdiv_pos_notnan x m e :
  sf_notnan x = true -> sf_notnan (SF64div x (S754_finite false m e)) = true.
Proof.
  destruct x as [sx|sx| |sx mx ex]; simpl; intros Nx; try discriminate; try reflexivity.
  pose proof (SFdiv_core_nonneg mx ex m e) as H.
  destruct (SFdiv_core_binary prec emax (Zpos mx) ex (Zpos m) e) as [[mz ez] lz].
  eapply sf_signed_notnan, binary_round_aux_signed. exact H.
Qed.

Lemma SFdiv_pos_nonneg x m e :
  sf_nonneg x = true -> sf_nonneg (SF64div x (S754_finite false m e)) = true.
Proof.
  destruct x as [sx|sx| |sx mx ex]; simpl; intros Nx; try discriminate; try reflexivity.
  - destruct sx; try discriminate; reflexivity.
  - destruct sx; try discriminate. simpl.
    pose proof (SFdiv_core_nonneg mx ex m e) as H.
    destruct (SFdiv_core_binary prec emax (Zpos mx) ex (Zpos m) e) as [[mz ez] lz].
    apply sf_signed_nonneg, binary_round_aux_signed. exact H.
Qed.

Lemma add_nonneg x y : nonneg x = true -> nonneg y = true -> nonneg (x + y) = true.
Proof.
  rewrite !nonneg_spec, add_spec. apply SFadd_nonneg.
Qed.

Lemma pos_finite_spec c :
  pos_finite c = true -> exists m e, Prim2SF c = S754_finite false m e.
Proof.
  unfold pos_finite. destruct (Prim2SF c) as [s|s| |[] m e]; try discriminate.
  intros _. exists m, e. reflexivity.
Qed.

Lemma mul_pos_nonneg x c :
  pos_finite c = true -> nonneg x = true -> nonneg (x * c) = true.
Proof.
  intros Hc. destruct (pos_finite_spec c Hc) as (m & e & E).
  rewrite !nonneg_spec, mul_spec, E. apply SFmul_pos_nonneg.
Qed.

Lemma mul_pos_notnan x c :
  pos_finite c = true -> is_nan x = false -> is_nan (x * c) = false.
Proof.
  intros Hc. destruct (pos_finite_spec c Hc) as (m & e & E).
  rewrite !is_nan_spec, mul_spec, E, !negb_false_iff. apply SFmul_pos_notnan.
Qed.

Lemma div_pos_nonneg x c :
  pos_finite c = true -> nonneg x = true -> nonneg (x / c) = true.
Proof.
  intros Hc. destruct (pos_finite_spec c Hc) as (m & e & E).
  rewrite !nonneg_spec, div_spec, E. apply SFdiv_pos_nonneg.
Qed.

Lemma div_pos_notnan x c :
  pos_finite c = true -> is_nan x = false -> is_nan (x / c) = false.
Proof.
  intros Hc. destruct (pos_finite_spec c Hc) as (m & e & E).
  rewrite !is_nan_spec, div_spec, E, !negb_false_iff. apply SFdiv_pos_notnan.
Qed.

Lemma is_finite_notnan x : is_finite x = true -> is_nan x = false.
Proof.
  rewrite is_finite_spec, is_nan_spec, negb_false_iff. apply sf_finite_notnan.
Qed.

Lemma float_of_int_is_finite z : is_finite (Py.float_of_int z) = true.
Proof. rewrite is_finite_spec. apply float_of_int_finite. Qed.

Lemma float_of_int_is_nonneg z : nonneg (Py.float_of_int z) = true.
Proof. rewrite nonneg_spec. apply float_of_int_nonneg. Qed.

Lemma mul_finite_notnan x y :
  is_finite x = true -> is_finite y = true -> is_nan (x * y) = false.
Proof.
  rewrite !is_finite_spec, is_nan_spec, mul_spec, negb_false_iff. intros Hx Hy.
  apply SFmul_signed; auto using sf_finite_notnan.
Qed.

Lemma mul_finite_nonneg x y :
  is_finite x = true -> is_finite y = true ->
  nonneg x = true -> nonneg y = true -> nonneg (x * y) = true.
Proof.
  rewrite !is_finite_spec, !nonneg_spec, mul_spec. intros Hx Hy Nx Ny.
  apply SFmul_nonneg; assumption.
Qed.

(** A positive finite divisor: [0 < c] and [c] is finite. *)
Lemma pos_finite_intro c : (0 <? c) = true -> is_finite c = true -> pos_finite c = true.
Proof.
  rewrite ltb_spec, is_finite_spec. unfold pos_finite, SFltb.
  change (Prim2SF 0) with (S754_zero false).
  destruct (Prim2SF c) as [s|s| |[] m e]; simpl; intros; try discriminate; reflexivity.
Qed.

Lemma pos_not_zero c : (0 <? c) = true -> (c =? 0) = false.
Proof.
  rewrite ltb_spec, eqb_spec. unfold SFltb, SFeqb.
  change (Prim2SF 0) with (S754_zero false).
  destruct (Prim2SF c) as [s|s| |s m e]; simpl; try discriminate;
    destruct s; simpl; intros; try discriminate; reflexivity.
Qed.

(** [round] keeps the class of its argument. *)
Lemma round_nonneg x d :
  pos_finite (Py.float_of_int (10 ^ d)) = true ->
  nonneg x = true -> nonneg (Py.round x d) = true.
Proof.
  intros Hd Hx. unfold Py.round.
  destruct (Prim2SF x) as [s|s| |s m e] eqn:E; try exact Hx.
  destruct (_ <? _)%Z; try exact Hx.
  assert (s = false) as ->.
  { rewrite nonneg_spec, E in Hx. destruct s; [discriminate|reflexivity]. }
  apply div_pos_nonneg; [exact Hd|apply float_of_int_is_nonneg].
Qed.

Lemma opp_notnan x : is_nan x = false -> is_nan (- x) = false.
Proof.
  rewrite !is_nan_spec, opp_spec, !negb_false_iff.
  destruct (Prim2SF x); simpl; intros; try discriminate; reflexivity.
Qed.

Lemma round_notnan x d :
  pos_finite (Py.float_of_int (10 ^ d)) = true ->
  is_nan x = false -> is_nan (Py.round x d) = false.
Proof.
  intros Hd Hx. unfold Py.round.
  destruct (Prim2SF x) as [s|s| |s m e] eqn:E; try exact Hx.
  destruct (_ <? _)%Z; try exact Hx.
  assert (is_nan (Py.float_of_int (Py.scaled_round m e d) / Py.float_of_int (10 ^ d)) = false) as Q.
  { apply div_pos_notnan; [exact Hd|].
    apply is_finite_notnan, float_of_int_is_finite. }
  destruct s; [apply opp_notnan|]; exact Q.
Qed.

(** The order of floats *)
Lemma SFcompare_antisym x y :
  sf_notnan x = true -> sf_notnan y = true ->
  SFcompare y x = option_map CompOpp (SFcompare x y).
Proof.
  destruct x as [sx|sx| |sx mx ex], y as [sy|sy| |sy my ey]; simpl;
    intros Nx Ny; try discriminate; try reflexivity;
    try (destruct sx; reflexivity); try (destruct sy; reflexivity);
    try (destruct sx, sy; reflexivity).
  rewrite (Z.compare_antisym ex ey).
  change (Pos.compare_cont Eq my mx) with (Pos.compare_cont (CompOpp Eq) my mx).
  rewrite <- (Pos.compare_cont_antisym mx my Eq).
  destruct sx, sy; simpl; try reflexivity;
    destruct (ex ?= ey)%Z; reflexivity.
Qed.

Lemma ltb_leb x y : (x <? y) = true -> (x <=? y) = true.
Proof.
  rewrite ltb_spec, leb_spec. unfold SFltb, SFleb.
  destruct (SFcompare _ _) as [[]|]; intros; try discriminate; reflexivity.
Qed.

Lemma not_ltb_leb x y :
  is_nan x = false -> is_nan y = false -> (x <? y) = false -> (y <=? x) = true.
Proof.
  rewrite !is_nan_spec, !negb_false_iff, ltb_spec, leb_spec. intros Nx Ny.
  unfold SFltb, SFleb. rewrite (SFcompare_antisym _ _ Nx Ny).
  destruct (Prim2SF x), (Prim2SF y); try discriminate;
  destruct (SFcompare _ _) as [[]|] eqn:E; simpl; intros; try discriminate; try reflexivity.
Qed.

End FloatFacts.

(** ** The order of floats *)

Section OrderFacts.

Lemma SFleb_rank x y :
  sf_notnan x = true -> sf_notnan y = true ->
  (SFleb x y = true <-> rank_le (sf_rank x) (sf_rank y)).
Proof.
  unfold SFleb.
  destruct x as [sx|sx| |sx mx ex], y as [sy|sy| |sy my ey]; simpl;
    intros Nx Ny; try discriminate;
    try (destruct sx); try (destruct sy); simpl;
    try (split; [intros _; lia | reflexivity]);
    try (split; [discriminate | lia]).
  - destruct (Z.compare_spec ex ey); simpl.
    + change (Pos.compare_cont Eq mx my) with (Pos.compare mx my).
      destruct (Pos.compare_spec mx my); simpl; split; try discriminate; try lia;
        intros _; lia.
    + split; [discriminate|lia].
    + split; [intros _; lia|reflexivity].
  - destruct (Z.compare_spec ex ey); simpl.
    + change (Pos.compare_cont Eq mx my) with (Pos.compare mx my).
      destruct (Pos.compare_spec mx my); simpl; split; try discriminate; try lia;
        intros _; lia.
    + split; [intros _; lia|reflexivity].
    + split; [discriminate|lia].
Qed.

Lemma SFleb_notnan x y : SFleb x y = true -> sf_notnan x = true /\ sf_notnan y = true.
Proof.
  unfold SFleb. destruct x, y; simpl; intros H; try discriminate; split; reflexivity.
Qed.

Lemma leb_trans x y z : (x <=? y) = true -> (y <=? z) = true -> (x <=? z) = true.
Proof.
  rewrite !leb_spec. intros H1 H2.
  destruct (SFleb_notnan _ _ H1) as [Nx Ny].
  destruct (SFleb_notnan _ _ H2) as [_ Nz].
  apply (SFleb_rank _ _ Nx Ny) in H1. apply (SFleb_rank _ _ Ny Nz) in H2.
  apply (SFleb_rank _ _ Nx Nz).
  destruct (sf_rank (Prim2SF x)) as [[a1 b1] c1].
  destruct (sf_rank (Prim2SF y)) as [[a2 b2] c2].
  destruct (sf_rank (Prim2SF z)) as [[a3 b3] c3].
  unfold rank_le in *. lia.
Qed.

End OrderFacts.

(** ** Counter *)

Section CounterFacts.

Lemma occurrences_app l1 l2 k :
  occurrences (l1 ++ l2) k = (occurrences l1 k + occurrences l2 k)%nat.
Proof. unfold occurrences. rewrite filter_app, length_app. reflexivity. Qed.

Lemma occurrences_zero l k : occurrences l k = 0%nat <-> ~ In k l.
Proof.
  unfold occurrences. induction l as [|a l IH]; simpl.
  - tauto.
  - destruct (String.eqb_spec a k) as [->|N]; simpl.
    + split; [discriminate|]. intros H. exfalso. apply H. now left.
    + rewrite IH. split; intros H; [intros [E|I]; [congruence|tauto]|tauto].
Qed.

Lemma occurrences_single k k1 :
  occurrences [k] k1 = if String.eqb k k1 then 1%nat else 0%nat.
Proof. unfold occurrences. simpl. destruct (String.eqb k k1); reflexivity. Qed.

Lemma counter_add_keys k c k' :
  In k' (map fst (Py.counter_add k c)) <-> k' = k \/ In k' (map fst c).
Proof.
  induction c as [|[k0 n0] c IH]; simpl.
  - intuition congruence.
  - destruct (String.eqb_spec k0 k) as [->|N]; simpl.
    + intuition congruence.
    + rewrite IH. intuition congruence.
Qed.

Lemma counter_add_NoDup k c :
  NoDup (map fst c) -> NoDup (map fst (Py.counter_add k c)).
Proof.
  induction c as [|[k0 n0] c IH]; simpl; intros H.
  - constructor; [intros []|constructor].
  - inversion H as [|? ? Hn Hc]; subst.
    destruct (String.eqb_spec k0 k) as [->|N]; simpl.
    + constructor; assumption.
    + constructor; [|apply IH, Hc].
      rewrite counter_add_keys. intros [E|I]; [congruence|contradiction].
Qed.

Lemma counter_add_In k c k1 n :
  NoDup (map fst c) ->
  In (k1, n) (Py.counter_add k c) ->
  (k1 <> k /\ In (k1, n) c) \/
  (k1 = k /\ ((exists n0, n = S n0 /\ In (k, n0) c) \/
              (n = 1%nat /\ ~ In k (map fst c)))).
Proof.
  induction c as [|[k0 n0] c IH]; simpl; intros H I.
  - destruct I as [E|[]]. inversion E; subst. right. split; [reflexivity|].
    right. split; [reflexivity|tauto].
  - inversion H as [|? ? Hn Hc]; subst.
    destruct (String.eqb_spec k0 k) as [->|N]; simpl in I.
    + destruct I as [E|I].
      * inversion E; subst. right. split; [reflexivity|]. left. exists n0. tauto.
      * left. split; [|tauto]. intros ->. apply Hn.
        apply (in_map fst) in I. exact I.
    + destruct I as [E|I].
      * inversion E; subst. left. tauto.
      * destruct (IH Hc I) as [[D I']|[-> [(m & -> & I')|[-> Hk]]]].
        -- left. tauto.
        -- right. split; [reflexivity|]. left. exists m. tauto.
        -- right. split; [reflexivity|]. right. split; [reflexivity|].
           intros [E|I']; [congruence|contradiction].
Qed.

Lemma counts_add c l k : counts c l -> counts (Py.counter_add k c) (l ++ [k]).
Proof.
  intros (ND & Hc & Hk). split; [|split].
  - apply counter_add_NoDup, ND.
  - intros k1 n I. rewrite occurrences_app, occurrences_single.
    destruct (counter_add_In k c k1 n ND I) as [[D I']|[-> [(m & -> & I')|[-> Hn]]]].
    + destruct (Hc _ _ I') as [E ?]. split; [|assumption].
      destruct (String.eqb_spec k k1); [congruence|lia].
    + destruct (Hc _ _ I') as [E ?]. split; [|lia].
      rewrite String.eqb_refl. lia.
    + split; [|lia].
      assert (occurrences l k = 0%nat) as ->.
      { apply occurrences_zero. intros I'. apply Hn, Hk, I'. }
      rewrite String.eqb_refl. reflexivity.
  - intros k1 I. rewrite counter_add_keys. apply in_app_or in I.
    destruct I as [I|[E|[]]]; [right; apply Hk, I|left; congruence].
Qed.

Lemma counts_fold l : forall c l0,
  counts c l0 -> counts (fold_left (fun c k => Py.counter_add k c) l c) (l0 ++ l).
Proof.
  induction l as [|k l IH]; intros c l0 H; simpl.
  - rewrite app_nil_r. exact H.
  - replace (l0 ++ k :: l) with ((l0 ++ [k]) ++ l) by (rewrite <- app_assoc; reflexivity).
    apply IH, counts_add, H.
Qed.

Lemma Counter_counts l : counts (Py.Counter l) l.
Proof.
  apply (counts_fold l [] []). split; [constructor|split]; [intros ? ? []|intros ? []].
Qed.

Lemma occurrences_fingerprint logs k :
  occurrences (map fingerprint logs) k = group_count logs k.
Proof.
  unfold occurrences, group_count, group.
  induction logs as [|a logs IH]; simpl; [reflexivity|].
  destruct (String.eqb (fingerprint a) k); simpl; rewrite IH; reflexivity.
Qed.

Lemma repeated_NoDup c : NoDup (map fst c) -> NoDup (repeated c).
Proof.
  unfold repeated. induction c as [|[k n] c IH]; simpl; intros H; [constructor|].
  inversion H as [|? ? Hn Hc]; subst.
  destruct (1 <? n)%nat; simpl; [|apply IH, Hc].
  constructor; [|apply IH, Hc].
  intros I. apply Hn. apply in_map_iff in I. destruct I as ([k' n'] & E & I).
  simpl in E. subst. apply filter_In in I. destruct I as [I _].
  apply (in_map fst) in I. exact I.
Qed.

(** The repeated keys of the counter of the fingerprints are the
    fingerprints of the groups of more than one record. *)
Lemma repeated_Counter logs k :
  In k (repeated (Py.Counter (map fingerprint logs))) <-> (1 < group_count logs k)%nat.
Proof.
  destruct (Counter_counts (map fingerprint logs)) as (ND & Hc & Hk).
  unfold repeated. rewrite in_map_iff. split.
  - intros ([k' n] & E & I). simpl in E. subst k'.
    apply filter_In in I. destruct I as [I L]. simpl in L.
    destruct (Hc _ _ I) as [-> _]. rewrite occurrences_fingerprint in L.
    apply Nat.ltb_lt, L.
  - intros L.
    assert (In k (map fingerprint logs)) as I.
    { destruct (in_dec string_dec k (map fingerprint logs)) as [I|N]; [exact I|].
      apply occurrences_zero in N. rewrite occurrences_fingerprint in N. lia. }
    apply Hk, in_map_iff in I. destruct I as ([k' n] & E & I). simpl in E. subst k'.
    exists (k, n). split; [reflexivity|]. apply filter_In. split; [exact I|].
    simpl. destruct (Hc _ _ I) as [-> _]. rewrite occurrences_fingerprint.
    apply Nat.ltb_lt, L.
Qed.

End CounterFacts.

(** ** Strings and the arithmetic pattern *)

Section StringFacts.

Lemma prefix_lower a : forall b,
  prefix a b = true -> prefix (Py.lower a) (Py.lower b) = true.
Proof.
  induction a as [|c a IH]; intros b H; [destruct b; reflexivity|].
  destruct b as [|d b]; simpl in *; [discriminate|].
  destruct (ascii_dec c d) as [->|N]; [|discriminate].
  destruct (ascii_dec (Py.lower_char d) (Py.lower_char d)); [|congruence].
  apply IH, H.
Qed.

Lemma contains_lower sub s :
  Py.contains sub s = true -> Py.contains (Py.lower sub) (Py.lower s) = true.
Proof.
  induction s as [|c s IH]; simpl; intros H.
  - apply (prefix_lower sub EmptyString), H.
  - apply orb_true_iff in H. apply orb_true_iff. destruct H as [H|H].
    + left. apply (prefix_lower sub (String c s)), H.
    + right. apply IH, H.
Qed.

(** A model name that contains "gpt-4" as it stands passes the test of the
    routing loops, which ignores the case of the letters. *)
Lemma contains_gpt4_is_gpt4 log :
  Py.contains "gpt-4" (model log) = true -> is_gpt4 log = true.
Proof. intros H. apply (contains_lower "gpt-4"), H. Qed.

Lemma arith_char_class c : arith_char c = true -> Py.re_arith_class c = true.
Proof.
  destruct c as [[] [] [] [] [] [] [] []]; vm_compute; intros H;
    solve [reflexivity | discriminate H].
Qed.

Lemma arith_char_lower c : arith_char c = true -> Py.lower_char c = c.
Proof.
  destruct c as [[] [] [] [] [] [] [] []]; vm_compute; intros H;
    solve [reflexivity | discriminate H].
Qed.

Lemma all_arith_lower s : all_chars arith_char s = true -> Py.lower s = s.
Proof.
  induction s as [|c s IH]; simpl; intros H; [reflexivity|].
  apply andb_true_iff in H. destruct H as [Hc Hs].
  rewrite (arith_char_lower c Hc), (IH Hs). reflexivity.
Qed.

Lemma all_arith_class s :
  all_chars arith_char s = true -> all_chars Py.re_arith_class s = true.
Proof.
  induction s as [|c s IH]; simpl; intros H; [reflexivity|].
  apply andb_true_iff in H. destruct H as [Hc Hs].
  rewrite (arith_char_class c Hc), (IH Hs). reflexivity.
Qed.

(** The pattern matches the non-empty strings made of characters of its
    class, and no other string. *)
Lemma re_match_arith_iff s :
  Py.re_match_arith s = true <->
  s <> EmptyString /\ all_chars Py.re_arith_class s = true.
Proof.
  unfold Py.re_match_arith. induction s as [|c s IH]; simpl.
  - split; [discriminate|]. intros [H _]. contradiction.
  - rewrite andb_true_iff, orb_true_iff, IH. split.
    + intros [Hc [D|[_ Hs]]]; (split; [discriminate|]); rewrite Hc; simpl.
      * destruct s as [|d [|e s]]; simpl in *; try discriminate; [reflexivity|].
        destruct (Ascii.eqb_spec d "010"); [subst; reflexivity|discriminate].
      * exact Hs.
    + intros [_ H]. apply andb_true_iff in H. destruct H as [Hc Hs].
      split; [exact Hc|].
      destruct s as [|d s]; [left; reflexivity|right].
      split; [discriminate|exact Hs].
Qed.

Lemma should_downgrade_arith_web log :
  Py.re_match_arith (Py.lower (prompt log)) = true ->
  App.should_downgrade_to_gpt35_analysis log = true.
Proof.
  intros H. unfold App.should_downgrade_to_gpt35_analysis. rewrite H.
  repeat match goal with |- (if ?b then _ else _) = _ => destruct b; try reflexivity end.
Qed.

Lemma should_downgrade_arith_cli p t :
  Py.re_match_arith (Py.lower p) = true -> AnalyzeLocal.should_downgrade p t = true.
Proof.
  intros H. unfold AnalyzeLocal.should_downgrade. rewrite H.
  repeat match goal with |- (if ?b then _ else _) = _ => destruct b; try reflexivity end.
Qed.

End StringFacts.

(** ** Sorting *)

Section SortFacts.
Context {A K : Type} (lt : K -> K -> bool) (key : A -> K).

Lemma insert_desc_perm x l : Permutation (Py.insert_desc lt key x l) (x :: l).
Proof.
  induction l as [|y l IH]; simpl; [reflexivity|].
  destruct (lt (key x) (key y)); [|reflexivity].
  rewrite IH. apply perm_swap.
Qed.

Lemma sort_desc_perm l : Permutation (Py.sort_desc lt key l) l.
Proof.
  induction l as [|x l IH]; simpl; [reflexivity|].
  rewrite insert_desc_perm. constructor. exact IH.
Qed.

Lemma sort_desc_In l x : In x (Py.sort_desc lt key l) <-> In x l.
Proof.
  split; apply Permutation_in; [|symmetry]; apply sort_desc_perm.
Qed.

End SortFacts.

Section SortedFacts.
Context {A : Type} (key : A -> float).




Lemma In_firstn (n : nat) : forall (l : list A) (x : A), In x (firstn n l) -> In x l.
Proof.
  induction n as [|n IH]; intros l x I; [contradiction|].
  destruct l as [|y l]; [contradiction|].
  destruct I as [E|I]; [left; exact E|right; apply IH, I].
Qed.


End SortedFacts.

(** ** The passes of the web variant *)

Section WebPasses.

Lemma group_nonempty logs k : (1 <= group_count logs k)%nat -> group logs k <> [].
Proof. unfold group_count. destruct (group logs k); simpl; [lia|discriminate]. Qed.

(** The loop over the counter's items never indexes an empty list, and
    builds one entry per repeated key. *)
Lemma caching_loop logs items : forall acc,
  (forall k n, In (k, n) items -> n = group_count logs k /\ (1 <= n)%nat) ->
  Py.for_each (App.caching_body logs) items acc =
  Py.Ok (fst acc ++ map (duplicate_entry logs) (repeated items),
         fold_left PrimFloat.add (map (group_savings logs) (repeated items)) (snd acc)).
Proof.
  induction items as [|[k n] items IH]; intros [dups cache] H; simpl.
  - rewrite app_nil_r. reflexivity.
  - destruct (H k n (or_introl eq_refl)) as [E L].
    assert (forall k' n', In (k', n') items ->
              n' = group_count logs k' /\ (1 <= n')%nat) as H'
      by (intros; apply H; right; assumption).
    unfold repeated. simpl.
    destruct (1 <? n)%nat eqn:D; simpl.
    + fold (group logs k).
      pose proof (group_nonempty logs k ltac:(lia)) as NE.
      destruct (group logs k) as [|m g] eqn:G; [contradiction|]. simpl.
      assert (first_cost logs k = cost m) as FC
        by (unfold first_cost; rewrite G; reflexivity).
      assert (group_savings logs k = cost m * Py.float_of_int (Z.of_nat n - 1)) as GS
        by (unfold group_savings; rewrite FC, <- E; reflexivity).
      rewrite (IH _ H'). simpl. rewrite <- app_assoc. simpl.
      rewrite GS. unfold duplicate_entry at 2. rewrite GS, FC, <- E. reflexivity.
    + rewrite (IH _ H'). reflexivity.
Qed.

Lemma Counter_items logs k n :
  In (k, n) (Py.Counter (map fingerprint logs)) ->
  n = group_count logs k /\ (1 <= n)%nat.
Proof.
  intros I. destruct (Counter_counts (map fingerprint logs)) as (_ & Hc & _).
  rewrite <- occurrences_fingerprint. apply Hc, I.
Qed.

Lemma caching_eq logs :
  App.caching logs =
  Py.Ok (map (duplicate_entry logs) (duplicate_keys logs), cache_savings_of logs).
Proof.
  unfold App.caching. rewrite caching_loop by apply Counter_items. reflexivity.
Qed.

Lemma routing_loop logs : forall acc,
  fold_left App.routing_body logs acc =
  (fst acc ++ map downgradeable_entry (filter App.downgradeable logs),
   fold_left PrimFloat.add
     (map (fun log => cost log * 0.9) (filter App.downgradeable logs)) (snd acc)).
Proof.
  induction logs as [|log logs IH]; intros [calls savings]; simpl.
  - rewrite app_nil_r. reflexivity.
  - rewrite IH. destruct (App.downgradeable log); simpl; [|reflexivity].
    rewrite <- app_assoc. reflexivity.
Qed.

Lemma routing_eq logs :
  App.routing logs =
  (map downgradeable_entry (filter App.downgradeable logs), routing_savings_of logs).
Proof. unfold App.routing. rewrite routing_loop. reflexivity. Qed.

Lemma verbosity_loop logs : forall acc,
  fold_left App.verbose_body logs acc =
  acc ++ map verbose_entry (filter App.verbose logs).
Proof.
  induction logs as [|log logs IH]; intros acc; simpl.
  - rewrite app_nil_r. reflexivity.
  - rewrite IH. unfold App.verbose_body, App.verbose.
    destruct (500 <? Py.len (prompt log))%nat; simpl; [|reflexivity].
    rewrite <- app_assoc. reflexivity.
Qed.

Lemma verbosity_eq logs :
  App.verbosity logs = map verbose_entry (filter App.verbose logs).
Proof. unfold App.verbosity. rewrite verbosity_loop. reflexivity. Qed.

(** [analyze_data] raises on no input and returns the report of the passes. *)
Lemma analyze_data_eq logs : App.analyze_data logs = Py.Ok (report_of logs).
Proof.
  destruct logs as [|log logs]; [reflexivity|].
  unfold App.analyze_data. rewrite caching_eq. cbn [Py.bind].
  rewrite routing_eq, verbosity_eq.
  fold (sorted_verbose (log :: logs)).
  fold (prompt_opt_savings_of (log :: logs)).
  fold (total_cost_of (log :: logs)).
  fold (batch_savings_of (log :: logs)).
  fold (total_savings_of (log :: logs)).
  unfold report_of.
  destruct (0 <? total_cost_of (log :: logs)) eqn:P; cbn [Py.bind].
  - unfold Py.truediv. rewrite (pos_not_zero _ P). reflexivity.
  - reflexivity.
Qed.

End WebPasses.

(** ** The passes of the command-line variant *)

Section CliPasses.

Lemma cli_caching_loop logs items : forall acc,
  (forall k n, In (k, n) items -> n = group_count logs k /\ (1 <= n)%nat) ->
  Py.for_each (AnalyzeLocal.caching_body logs) items acc =
  Py.Ok (fold_left PrimFloat.add (map (group_savings logs) (map fst items)) acc).
Proof.
  induction items as [|[k n] items IH]; intros acc H; simpl; [reflexivity|].
  destruct (H k n (or_introl eq_refl)) as [E L].
  fold (group logs k).
  pose proof (group_nonempty logs k ltac:(lia)) as NE.
  assert (group_savings logs k =
          first_cost logs k * Py.float_of_int (Z.of_nat n - 1)) as GS
    by (unfold group_savings; rewrite <- E; reflexivity).
  unfold first_cost in GS.
  destruct (group logs k) as [|m g]; [contradiction|]. simpl.
  rewrite IH by (intros; apply H; right; assumption).
  rewrite GS. reflexivity.
Qed.

Lemma cli_routing_loop logs : forall acc,
  fold_left AnalyzeLocal.routing_body logs acc =
  (fst acc ++ map cli_downgradeable_entry (filter cli_downgradeable logs),
   fold_left PrimFloat.add
     (map (fun log => cost log * 0.9) (filter cli_downgradeable logs)) (snd acc)).
Proof.
  induction logs as [|log logs IH]; intros [calls savings].
  - simpl. rewrite app_nil_r. reflexivity.
  - cbn [fold_left filter]. rewrite IH. unfold AnalyzeLocal.routing_body.
    change (is_gpt4 log && AnalyzeLocal.should_downgrade (prompt log) (tokens log))
      with (cli_downgradeable log).
    destruct (cli_downgradeable log); simpl; [|reflexivity].
    rewrite <- app_assoc. reflexivity.
Qed.

(** [analyze_csv] prints nothing but a notice on no input, stops on a
    division by zero when the costs sum up to zero, and prints the summary
    of the passes otherwise. *)
Lemma analyze_csv_eq logs :
  AnalyzeLocal.analyze_csv logs =
  match logs with
  | [] => Py.Ok None
  | _ :: _ =>
      if total_cost_of logs =? 0 then Py.Raise Py.ZeroDivisionError
      else Py.Ok (Some (summary_of logs))
  end.
Proof.
  destruct logs as [|log logs]; [reflexivity|].
  unfold AnalyzeLocal.analyze_csv.
  rewrite cli_caching_loop
    by (intros k n I; apply filter_In in I; apply Counter_items, I).
  cbn [Py.bind]. rewrite cli_routing_loop. cbn [fst snd app].
  fold (total_cost_of (log :: logs)).
  unfold Py.truediv.
  destruct (total_cost_of (log :: logs) =? 0); reflexivity.
Qed.

End CliPasses.

(** The outcomes of [analyze_csv] in a goal about its summary: nothing is
    left to prove unless a summary is printed. *)
Ltac cli_outcomes logs :=
  rewrite analyze_csv_eq;
  destruct logs as [|? ?]; [exact I|];
  match goal with
  | |- context [total_cost_of ?l =? 0] =>
      destruct (total_cost_of l =? 0) eqn:?; [exact I|]
  end.

(** ** The keys of the rankings *)

Section KeyFacts.

Lemma ten_pow_1 : pos_finite (Py.float_of_int (10 ^ 1)) = true.
Proof. reflexivity. Qed.

Lemma ten_pow_2 : pos_finite (Py.float_of_int (10 ^ 2)) = true.
Proof. reflexivity. Qed.

Lemma ten_pow_4 : pos_finite (Py.float_of_int (10 ^ 4)) = true.
Proof. reflexivity. Qed.

Lemma group_incl logs k log : In log (group logs k) -> In log logs.
Proof. unfold group. intros I. apply filter_In in I. tauto. Qed.

(** The first cost of a group is zero or the cost of a record of the log. *)
Lemma first_cost_cases logs k :
  first_cost logs k = 0 \/ exists log, In log logs /\ first_cost logs k = cost log.
Proof.
  unfold first_cost. destruct (group logs k) as [|m g] eqn:G; [left; reflexivity|].
  right. exists m. split; [|reflexivity].
  apply (group_incl logs k). rewrite G. left. reflexivity.
Qed.

Lemma first_cost_finite logs k :
  (forall log, In log logs -> is_finite (cost log) = true) ->
  is_finite (first_cost logs k) = true.
Proof.
  intros H. destruct (first_cost_cases logs k) as [->|(log & I & ->)];
    [reflexivity|apply H, I].
Qed.

Lemma group_savings_notnan logs k :
  (forall log, In log logs -> is_finite (cost log) = true) ->
  is_nan (group_savings logs k) = false.
Proof.
  intros H. unfold group_savings.
  apply mul_finite_notnan; [apply first_cost_finite, H|apply float_of_int_is_finite].
Qed.

End KeyFacts.

(** ** The signs of the sums *)

Section SignFacts.

Lemma SFadd_finite_inv x y :
  sf_nonneg x = true -> sf_nonneg y = true ->
  sf_finite (SF64add x y) = true -> sf_finite x = true /\ sf_finite y = true.
Proof.
  destruct x as [sx|sx| |sx mx ex], y as [sy|sy| |sy my ey]; simpl;
    intros Nx Ny F; try discriminate; try (split; reflexivity);
    destruct sx; destruct sy; try discriminate.
Qed.

Lemma add_finite_inv x y :
  nonneg x = true -> nonneg y = true ->
  is_finite (x + y) = true -> is_finite x = true /\ is_finite y = true.
Proof.
  rewrite !nonneg_spec, !is_finite_spec, add_spec. apply SFadd_finite_inv.
Qed.

Lemma fold_add_nonneg l : forall a,
  nonneg a = true -> Forall (fun x => nonneg x = true) l ->
  nonneg (fold_left PrimFloat.add l a) = true.
Proof.
  induction l as [|x l IH]; intros a Na Nl; simpl; [exact Na|].
  inversion Nl; subst. apply IH; [apply add_nonneg|]; assumption.
Qed.

Lemma sum_nonneg l : Forall (fun x => nonneg x = true) l -> nonneg (Py.sum l) = true.
Proof. apply fold_add_nonneg. reflexivity. Qed.

Lemma sum_map_nonneg {A : Type} (f : A -> float) (l : list A) :
  (forall x, In x l -> nonneg (f x) = true) -> nonneg (Py.sum (map f l)) = true.
Proof.
  intros H. apply sum_nonneg, Forall_forall. intros y I.
  apply in_map_iff in I. destruct I as (x & <- & I). apply H, I.
Qed.

Lemma fold_add_finite_inv l : forall a,
  nonneg a = true -> Forall (fun x => nonneg x = true) l ->
  is_finite (fold_left PrimFloat.add l a) = true ->
  is_finite a = true /\ Forall (fun x => is_finite x = true) l.
Proof.
  induction l as [|x l IH]; intros a Na Nl F; simpl in *.
  - split; [exact F|constructor].
  - inversion Nl as [|? ? Nx Nl']; subst.
    destruct (IH (a + x) (add_nonneg _ _ Na Nx) Nl' F) as [Fa Fl].
    destruct (add_finite_inv _ _ Na Nx Fa) as [Fa' Fx].
    split; [exact Fa'|constructor; assumption].
Qed.

(** Non-negative costs with a finite sum are finite themselves. *)
Lemma costs_finite logs :
  (forall log, In log logs -> nonneg (cost log) = true) ->
  is_finite (total_cost_of logs) = true ->
  forall log, In log logs -> is_finite (cost log) = true.
Proof.
  intros N F log I.
  assert (Forall (fun x => nonneg x = true) (map cost logs)) as Nl.
  { apply Forall_forall. intros x Ix. apply in_map_iff in Ix.
    destruct Ix as (l & <- & Il). apply N, Il. }
  destruct (fold_add_finite_inv (map cost logs) 0 eq_refl Nl F) as [_ Fl].
  rewrite Forall_forall in Fl. apply Fl, in_map, I.
Qed.

Lemma first_cost_nonneg logs k :
  (forall log, In log logs -> nonneg (cost log) = true) ->
  nonneg (first_cost logs k) = true.
Proof.
  intros H. destruct (first_cost_cases logs k) as [->|(log & I & ->)];
    [reflexivity|apply H, I].
Qed.

Lemma group_savings_nonneg logs k :
  (forall log, In log logs -> nonneg (cost log) = true) ->
  (forall log, In log logs -> is_finite (cost log) = true) ->
  nonneg (group_savings logs k) = true.
Proof.
  intros N F. unfold group_savings. apply mul_finite_nonneg.
  - apply first_cost_finite, F.
  - apply float_of_int_is_finite.
  - apply first_cost_nonneg, N.
  - apply float_of_int_is_nonneg.
Qed.

Lemma nonneg_nonzero_pos c :
  nonneg c = true -> (c =? 0) = false -> (0 <? c) = true.
Proof.
  rewrite nonneg_spec, eqb_spec, ltb_spec. unfold SFeqb, SFltb.
  change (Prim2SF 0) with (S754_zero false).
  destruct (Prim2SF c) as [s|s| |s m e]; simpl; try discriminate;
    destruct s; simpl; intros; try discriminate; reflexivity.
Qed.

Section Totals.
Variable logs : list CallRecord.
Hypothesis costs_nonneg : forall log, In log logs -> nonneg (cost log) = true.
Hypothesis total_finite : is_finite (total_cost_of logs) = true.

Lemma total_cost_nonneg : nonneg (total_cost_of logs) = true.
Proof. apply sum_map_nonneg, costs_nonneg. Qed.

Lemma cache_savings_nonneg : nonneg (cache_savings_of logs) = true.
Proof.
  apply sum_map_nonneg. intros k _.
  apply group_savings_nonneg; [exact costs_nonneg|].
  apply costs_finite; assumption.
Qed.

Lemma routing_savings_nonneg : nonneg (routing_savings_of logs) = true.
Proof.
  apply sum_map_nonneg. intros log I. apply filter_In in I.
  apply mul_pos_nonneg; [reflexivity|apply costs_nonneg; tauto].
Qed.

Lemma cli_routing_savings_nonneg : nonneg (cli_routing_savings_of logs) = true.
Proof.
  apply sum_map_nonneg. intros log I. apply filter_In in I.
  apply mul_pos_nonneg; [reflexivity|apply costs_nonneg; tauto].
Qed.

Lemma prompt_opt_savings_nonneg : nonneg (prompt_opt_savings_of logs) = true.
Proof.
  apply sum_map_nonneg. intros v I. unfold sorted_verbose in I.
  apply sort_desc_In, in_map_iff in I. destruct I as (log & <- & I).
  apply filter_In in I.
  apply mul_pos_nonneg; [reflexivity|apply costs_nonneg; tauto].
Qed.

Lemma cli_prompt_savings_nonneg : nonneg (cli_prompt_savings_of logs) = true.
Proof.
  apply sum_map_nonneg. intros log I. apply filter_In in I.
  apply mul_pos_nonneg; [reflexivity|apply costs_nonneg; tauto].
Qed.

Lemma batch_savings_nonneg : nonneg (batch_savings_of logs) = true.
Proof. apply mul_pos_nonneg; [reflexivity|apply total_cost_nonneg]. Qed.

Lemma total_savings_nonneg : nonneg (total_savings_of logs) = true.
Proof.
  unfold total_savings_of.
  auto using add_nonneg, cache_savings_nonneg, routing_savings_nonneg,
    prompt_opt_savings_nonneg, batch_savings_nonneg.
Qed.

Lemma cli_total_savings_nonneg : nonneg (cli_total_savings_of logs) = true.
Proof.
  unfold cli_total_savings_of.
  auto using add_nonneg, cache_savings_nonneg, cli_routing_savings_nonneg,
    cli_prompt_savings_nonneg, batch_savings_nonneg.
Qed.

Lemma percent_nonneg ts :
  nonneg ts = true -> (0 <? total_cost_of logs) = true ->
  nonneg (ts / total_cost_of logs * 100) = true.
Proof.
  intros N P. apply mul_pos_nonneg; [reflexivity|].
  apply div_pos_nonneg; [|exact N].
  apply pos_finite_intro; assumption.
Qed.

Lemma report_numbers_nonneg :
  Forall (fun x => nonneg x = true) (report_numbers (report_of logs)).
Proof.
  unfold report_numbers, report_of; cbn -[PrimFloat.ltb].
  repeat constructor;
    try (apply round_nonneg; [exact ten_pow_2|]);
    auto using total_cost_nonneg, cache_savings_nonneg, routing_savings_nonneg,
      prompt_opt_savings_nonneg, batch_savings_nonneg, total_savings_nonneg.
  destruct (0 <? total_cost_of logs) eqn:P; [|reflexivity].
  apply round_nonneg; [exact ten_pow_1|].
  apply percent_nonneg; [apply total_savings_nonneg|exact P].
Qed.

Lemma summary_numbers_nonneg :
  (total_cost_of logs =? 0) = false ->
  Forall (fun x => nonneg x = true) (summary_numbers (summary_of logs)).
Proof.
  intros NZ. unfold summary_numbers, summary_of; cbn.
  repeat constructor;
    auto using total_cost_nonneg, cache_savings_nonneg, cli_routing_savings_nonneg,
      cli_prompt_savings_nonneg, batch_savings_nonneg, cli_total_savings_nonneg.
  apply percent_nonneg; [apply cli_total_savings_nonneg|].
  apply nonneg_nonzero_pos; [apply total_cost_nonneg|exact NZ].
Qed.

Lemma duplicate_savings_nonneg :
  Forall (fun d => nonneg (App.dup_savings d) = true)
    (App.duplicate_prompts (report_of logs)).
Proof.
  apply Forall_forall. intros d I.
  cbn [report_of App.duplicate_prompts] in I.
  apply In_firstn, sort_desc_In, in_map_iff in I. destruct I as (k & <- & _).
  cbn [duplicate_entry App.dup_savings]. apply round_nonneg; [exact ten_pow_2|].
  apply group_savings_nonneg; [exact costs_nonneg|].
  apply costs_finite; assumption.
Qed.

Lemma downgradeable_savings_nonneg :
  Forall (fun d => nonneg (App.dg_savings d) = true)
    (App.downgradeable_calls (report_of logs)).
Proof.
  apply Forall_forall. intros d I.
  cbn [report_of App.downgradeable_calls] in I.
  apply In_firstn, sort_desc_In, in_map_iff in I. destruct I as (log & <- & I).
  apply filter_In in I.
  cbn [downgradeable_entry App.dg_savings]. apply round_nonneg; [exact ten_pow_4|].
  apply mul_pos_nonneg; [reflexivity|apply costs_nonneg; tauto].
Qed.
End Totals.

End SignFacts.

(** ** Runs of [analyze_data] in a store *)

Section StoreFacts.
Context {World : Type}.

(** The state of heap [h] in the world [w]. *)
Local Notation "'st' h w" := (@Mem.Build_state World h w)
  (at level 10, h at level 9, w at level 9).

Lemma bind_value {A B : Type} (c : Mem.M A) (k : A -> Mem.M B)
    (s s' : @Mem.state World) (a : A) :
  c s = (Mem.Value a, s') -> Mem.bind c k s = k a s'.
Proof. unfold Mem.bind. intros ->. reflexivity. Qed.

Lemma bind_raised {A B : Type} (c : Mem.M A) (k : A -> Mem.M B)
    (s s' : @Mem.state World) (e : Py.exn) :
  c s = (Mem.Raised e, s') -> Mem.bind c k s = (Mem.Raised e, s').
Proof. unfold Mem.bind. intros ->. reflexivity. Qed.

(** *** Objects in a heap that has grown *)

Lemma nth_error_grown {A : Type} (h new : list A) (r : nat) (o : A) :
  nth_error h r = Some o -> nth_error (h ++ new) r = Some o.
Proof.
  intros H. rewrite nth_error_app1; [exact H|].
  apply nth_error_Some. congruence.
Qed.

Lemma nth_error_middle {A : Type} (h rest : list A) (o : A) :
  nth_error (h ++ o :: rest) (List.length h) = Some o.
Proof. induction h as [|x h IH]; simpl; [reflexivity|exact IH]. Qed.

Lemma update_middle (h rest : list Mem.object) (o o' : Mem.object) :
  Mem.update (List.length h) o' (h ++ o :: rest) = h ++ o' :: rest.
Proof. induction h as [|x h IH]; simpl; [reflexivity|]. rewrite IH. reflexivity. Qed.

Lemma dicts_grown (h new : list Mem.object) refs records :
  Forall2 (fun r d => nth_error h r = Some (Mem.Dict d)) refs records ->
  Forall2 (fun r d => nth_error (h ++ new) r = Some (Mem.Dict d)) refs records.
Proof.
  induction 1 as [|r d refs records R F IH]; constructor.
  - apply nth_error_grown, R.
  - exact IH.
Qed.

Lemma holds_grown h new logs records :
  holds h logs records -> holds (h ++ new) logs records.
Proof.
  intros (refs & L & F). exists refs.
  split; [apply nth_error_grown, L|apply dicts_grown, F].
Qed.

(** *** Reads *)

Lemma get_dict_run h w r d :
  nth_error h r = Some (Mem.Dict d) ->
  Mem.get_dict r (st h w) = (Mem.Value d, st h w).
Proof.
  intros H. unfold Mem.get_dict, Mem.bind, Mem.load. cbn [Mem.heap].
  rewrite H. reflexivity.
Qed.

Lemma get_calls_run h w logs refs :
  nth_error h logs = Some (Mem.Calls refs) ->
  Mem.get_calls logs (st h w) = (Mem.Value refs, st h w).
Proof.
  intros H. unfold Mem.get_calls, Mem.bind, Mem.load. cbn [Mem.heap].
  rewrite H. reflexivity.
Qed.

Lemma comprehension_loop {A : Type} (f : CallRecord -> A) h w refs records :
  Forall2 (fun r d => nth_error h r = Some (Mem.Dict d)) refs records ->
  forall acc,
    Mem.for_each
      (fun log acc => Mem.bind (Mem.get_dict log) (fun d => Mem.ret (acc ++ [f d])))
      refs acc (st h w)
    = (Mem.Value (acc ++ map f records), st h w).
Proof.
  induction 1 as [|r d refs records R F IH]; intros acc; simpl.
  - rewrite app_nil_r. reflexivity.
  - rewrite (bind_value _ _ _ (st h w) (acc ++ [f d])).
    + rewrite IH, <- app_assoc. reflexivity.
    + rewrite (bind_value _ _ _ _ _ (get_dict_run h w r d R)). reflexivity.
Qed.

Lemma comprehension_run {A : Type} (f : CallRecord -> A) h w logs records :
  holds h logs records ->
  Mem.comprehension logs f (st h w) = (Mem.Value (map f records), st h w).
Proof.
  intros (refs & L & F). unfold Mem.comprehension, Mem.for_in.
  rewrite (bind_value _ _ _ _ _ (get_calls_run h w logs refs L)).
  apply (comprehension_loop f h w refs records F []).
Qed.

Lemma select_loop (f : CallRecord -> bool) h w refs records :
  Forall2 (fun r d => nth_error h r = Some (Mem.Dict d)) refs records ->
  forall acc, exists chosen,
    Mem.for_each
      (fun log acc =>
         Mem.bind (Mem.get_dict log)
           (fun d => Mem.ret (if f d then acc ++ [log] else acc)))
      refs acc (st h w)
    = (Mem.Value (acc ++ chosen), st h w) /\
    Forall2 (fun r d => nth_error h r = Some (Mem.Dict d)) chosen (filter f records).
Proof.
  induction 1 as [|r d refs records R F IH]; intros acc; simpl.
  - exists []. rewrite app_nil_r. split; [reflexivity|constructor].
  - rewrite (bind_value _ _ _ (st h w) (if f d then acc ++ [r] else acc))
      by (rewrite (bind_value _ _ _ _ _ (get_dict_run h w r d R)); reflexivity).
    destruct (f d).
    + destruct (IH (acc ++ [r])) as (chosen & E & C).
      exists (r :: chosen). rewrite E, <- app_assoc.
      split; [reflexivity|constructor; assumption].
    + destruct (IH acc) as (chosen & E & C). exists chosen. split; assumption.
Qed.

Lemma select_run (f : CallRecord -> bool) h w logs records :
  holds h logs records ->
  exists chosen,
    Mem.select logs f (st h w) = (Mem.Value chosen, st h w) /\
    Forall2 (fun r d => nth_error h r = Some (Mem.Dict d)) chosen (filter f records).
Proof.
  intros (refs & L & F). unfold Mem.select, Mem.for_in.
  rewrite (bind_value _ _ _ _ _ (get_calls_run h w logs refs L)).
  apply (select_loop f h w refs records F []).
Qed.

(** *** The lists of the function *)

Lemma duplicates_ok : kind_ok Mem.duplicates.
Proof. intros l. reflexivity. Qed.

Lemma downgradeables_ok : kind_ok Mem.downgradeables.
Proof. intros l. reflexivity. Qed.

Lemma verboses_ok : kind_ok Mem.verboses.
Proof. intros l. reflexivity. Qed.

Lemma new_list_run {A : Type} (k : Mem.kind A) h w :
  Mem.new_list k (st h w) = (Mem.Value (List.length h), st (h ++ [Mem.inj k []]) w).
Proof. reflexivity. Qed.

Lemma items_run {A : Type} (k : Mem.kind A) h rest w l :
  kind_ok k ->
  Mem.items k (List.length h) (st (h ++ Mem.inj k l :: rest) w)
  = (Mem.Value l, st (h ++ Mem.inj k l :: rest) w).
Proof.
  intros K. unfold Mem.items, Mem.bind, Mem.load. cbn [Mem.heap].
  rewrite nth_error_middle, K. reflexivity.
Qed.

Lemma store_run h rest w o o' :
  Mem.store (List.length h) o' (st (h ++ o :: rest) w)
  = (Mem.Value tt, st (h ++ o' :: rest) w).
Proof.
  unfold Mem.store. cbn [Mem.heap Mem.world].
  assert ((List.length h <? List.length (h ++ o :: rest))%nat = true) as ->
    by (apply Nat.ltb_lt; rewrite length_app; simpl; lia).
  rewrite update_middle. reflexivity.
Qed.

Lemma append_run {A : Type} (k : Mem.kind A) h rest w l a :
  kind_ok k ->
  Mem.append k (List.length h) a (st (h ++ Mem.inj k l :: rest) w)
  = (Mem.Value tt, st (h ++ Mem.inj k (l ++ [a]) :: rest) w).
Proof.
  intros K. unfold Mem.append.
  rewrite (bind_value _ _ _ _ _ (items_run k h rest w l K)). apply store_run.
Qed.

Lemma sort_run {A : Type} (k : Mem.kind A) h rest w l key :
  kind_ok k ->
  Mem.sort k (List.length h) key (st (h ++ Mem.inj k l :: rest) w)
  = (Mem.Value tt, st (h ++ Mem.inj k (Py.sort_desc PrimFloat.ltb key l) :: rest) w).
Proof.
  intros K. unfold Mem.sort.
  rewrite (bind_value _ _ _ _ _ (items_run k h rest w l K)). apply store_run.
Qed.

Lemma slice_to_run {A : Type} (k : Mem.kind A) n h rest w l :
  kind_ok k ->
  Mem.slice_to k n (List.length h) (st (h ++ Mem.inj k l :: rest) w)
  = (Mem.Value (firstn n l), st (h ++ Mem.inj k l :: rest) w).
Proof.
  intros K. unfold Mem.slice_to.
  rewrite (bind_value _ _ _ _ _ (items_run k h rest w l K)). reflexivity.
Qed.

(** *** The loops *)

(** A turn of the first loop does what [App.caching_body] does to the
    loop's variables, on the list at the end of the heap. *)
Lemma caching_body_run h w logs records item dups acc :
  holds h logs records ->
  match App.caching_body records item (dups, acc) with
  | Py.Ok (dups', acc') =>
      Mem.caching_body logs (List.length h) item acc (st (h ++ [Mem.Duplicates dups]) w)
      = (Mem.Value acc', st (h ++ [Mem.Duplicates dups']) w)
  | Py.Raise e =>
      exists s',
        Mem.caching_body logs (List.length h) item acc
          (st (h ++ [Mem.Duplicates dups]) w)
        = (Mem.Raised e, s')
  end.
Proof.
  intros H. destruct item as [k n]. unfold App.caching_body, Mem.caching_body.
  destruct (1 <? n)%nat; [|reflexivity].
  destruct (select_run (fun log => String.eqb (fingerprint log) k)
              (h ++ [Mem.Duplicates dups]) w logs records (holds_grown _ _ _ _ H))
    as (chosen & E & C).
  rewrite (bind_value _ _ _ _ _ E).
  destruct C as [|r m chosen matching R C]; cbn [Py.index0 Py.bind].
  - eexists. reflexivity.
  - rewrite (bind_value _ _ _ (st (h ++ [Mem.Duplicates dups]) w) r) by reflexivity.
    rewrite (bind_value _ _ _ _ _ (get_dict_run _ w r m R)).
    cbv zeta.
    rewrite (bind_value _ _ _ _ _
               (append_run Mem.duplicates h [] w dups _ duplicates_ok)).
    reflexivity.
Qed.

Lemma caching_loop_run h w logs records items :
  holds h logs records ->
  forall dups acc,
    match Py.for_each (App.caching_body records) items (dups, acc) with
    | Py.Ok (dups', acc') =>
        Mem.for_each (Mem.caching_body logs (List.length h)) items acc
          (st (h ++ [Mem.Duplicates dups]) w)
        = (Mem.Value acc', st (h ++ [Mem.Duplicates dups']) w)
    | Py.Raise e =>
        exists s',
          Mem.for_each (Mem.caching_body logs (List.length h)) items acc
            (st (h ++ [Mem.Duplicates dups]) w)
          = (Mem.Raised e, s')
    end.
Proof.
  intros H. induction items as [|item items IH]; intros dups acc;
    cbn [Py.for_each Mem.for_each]; [reflexivity|].
  pose proof (caching_body_run h w logs records item dups acc H) as B.
  destruct (App.caching_body records item (dups, acc)) as [[dups1 acc1]|e];
    cbn [Py.bind].
  - rewrite (bind_value _ _ _ _ _ B). apply IH.
  - destruct B as (s' & B). exists s'. apply (bind_raised _ _ _ _ _ B).
Qed.

(** The second loop is [App.routing_body] folded over the records. *)
Lemma routing_loop_run h w refs records :
  Forall2 (fun r d => nth_error h r = Some (Mem.Dict d)) refs records ->
  forall calls acc,
    Mem.for_each (Mem.routing_body (List.length h)) refs acc
      (st (h ++ [Mem.Downgradeables calls]) w)
    = (Mem.Value (snd (fold_left App.routing_body records (calls, acc))),
       st (h ++ [Mem.Downgradeables
                   (fst (fold_left App.routing_body records (calls, acc)))]) w).
Proof.
  induction 1 as [|r d refs records R F IH]; intros calls acc;
    cbn [Mem.for_each fold_left]; [reflexivity|].
  assert (Mem.routing_body (List.length h) r acc
            (st (h ++ [Mem.Downgradeables calls]) w)
          = (Mem.Value (snd (App.routing_body (calls, acc) d)),
             st (h ++ [Mem.Downgradeables (fst (App.routing_body (calls, acc) d))]) w))
    as B.
  { unfold Mem.routing_body, App.routing_body.
    rewrite (bind_value _ _ _ _ _
               (get_dict_run _ w r d (nth_error_grown _ _ _ _ R))).
    destruct (App.downgradeable d); [|reflexivity].
    cbv zeta.
    rewrite (bind_value _ _ _ _ _
               (append_run Mem.downgradeables h [] w calls _ downgradeables_ok)).
    reflexivity. }
  rewrite (bind_value _ _ _ _ _ B), IH.
  destruct (App.routing_body (calls, acc) d). reflexivity.
Qed.

(** The third loop is [App.verbose_body] folded over the records. *)
Lemma verbose_loop_run h w refs records :
  Forall2 (fun r d => nth_error h r = Some (Mem.Dict d)) refs records ->
  forall found,
    Mem.for_each (Mem.verbose_body (List.length h)) refs tt
      (st (h ++ [Mem.Verboses found]) w)
    = (Mem.Value tt,
       st (h ++ [Mem.Verboses (fold_left App.verbose_body records found)]) w).
Proof.
  induction 1 as [|r d refs records R F IH]; intros found;
    cbn [Mem.for_each fold_left]; [reflexivity|].
  assert (Mem.verbose_body (List.length h) r tt (st (h ++ [Mem.Verboses found]) w)
          = (Mem.Value tt, st (h ++ [Mem.Verboses (App.verbose_body found d)]) w))
    as B.
  { unfold Mem.verbose_body, App.verbose_body.
    rewrite (bind_value _ _ _ _ _
               (get_dict_run _ w r d (nth_error_grown _ _ _ _ R))).
    cbv zeta. destruct (500 <? Py.len (prompt d))%nat; [|reflexivity].
    apply (append_run Mem.verboses h [] w found _ verboses_ok). }
  rewrite (bind_value _ _ _ _ _ B). apply IH.
Qed.

Lemma for_in_run {S : Type} (body : Mem.ref -> S -> Mem.M S) h w logs refs acc :
  nth_error h logs = Some (Mem.Calls refs) ->
  Mem.for_in logs body acc (st h w) = Mem.for_each body refs acc (st h w).
Proof.
  intros L. unfold Mem.for_in.
  rewrite (bind_value _ _ _ _ _ (get_calls_run h w logs refs L)). reflexivity.
Qed.

(** *** The run *)

(** In a store where the list at [logs] holds [records], a run returns the
    report of [records] and leaves the store with new objects and nothing
    else changed. *)
Lemma analyze_data_run h w logs records :
  holds h logs records ->
  exists new,
    Mem.analyze_data logs (st h w) = (Mem.Value (report_of records), st (h ++ new) w).
Proof.
  intros H. pose proof H as (refs & L & F).
  unfold Mem.analyze_data.
  rewrite (bind_value _ _ _ _ _ (get_calls_run h w logs refs L)).
  destruct F as [|r0 d0 refs0 records0 R0 F0].
  { exists []. rewrite app_nil_r. reflexivity. }
  remember (r0 :: refs0) as refs eqn:Er.
  remember (d0 :: records0) as records eqn:Ed.
  assert (Forall2 (fun r d => nth_error h r = Some (Mem.Dict d)) refs records) as F
    by (subst; constructor; assumption).

  (* total_cost and total_calls *)
  rewrite (bind_value _ _ _ _ _ (comprehension_run cost h w logs records H)).
  rewrite (bind_value _ _ _ _ _ (get_calls_run h w logs refs L)).
  (* section 1 *)
  rewrite (bind_value _ _ _ _ _ (comprehension_run fingerprint h w logs records H)).
  rewrite (bind_value _ _ _ _ _ (new_list_run Mem.duplicates h w)).
  pose proof (caching_loop_run h w logs records
                (Py.Counter (map fingerprint records)) H [] 0) as C.
  fold (App.caching records) in C. rewrite caching_eq in C.
  rewrite (bind_value _ _ _ _ _ C).
  rewrite (bind_value _ _ _ _ _
             (sort_run Mem.duplicates h [] w _ App.dup_savings duplicates_ok)).
  (* section 2 *)
  set (h1 := h ++ [Mem.inj Mem.duplicates
                     (Py.sort_desc PrimFloat.ltb App.dup_savings
                        (map (duplicate_entry records) (duplicate_keys records)))]).
  assert (holds h1 logs records) as H1 by apply holds_grown, H.
  assert (Forall2 (fun r d => nth_error h1 r = Some (Mem.Dict d)) refs records) as F1
    by apply dicts_grown, F.
  rewrite (bind_value _ _ _ _ _ (new_list_run Mem.downgradeables h1 w)).
  rewrite (bind_value _ _ _ _ _
             (eq_trans
                (for_in_run _ _ w logs refs 0
                   (nth_error_grown _ _ _ _ (nth_error_grown _ _ _ _ L)))
                (routing_loop_run h1 w refs records F1 [] 0))).
  fold (App.routing records). rewrite routing_eq. cbn [fst snd].
  rewrite (bind_value _ _ _ _ _
             (sort_run Mem.downgradeables h1 [] w _ App.dg_savings downgradeables_ok)).
  (* section 3 *)
  set (h2 := h1 ++ [Mem.inj Mem.downgradeables
                      (Py.sort_desc PrimFloat.ltb App.dg_savings
                         (map downgradeable_entry (filter App.downgradeable records)))]).
  assert (Forall2 (fun r d => nth_error h2 r = Some (Mem.Dict d)) refs records) as F2
    by apply dicts_grown, F1.
  rewrite (bind_value _ _ _ _ _ (new_list_run Mem.verboses h2 w)).
  rewrite (bind_value _ _ _ _ _
             (eq_trans
                (for_in_run _ _ w logs refs tt
                   (nth_error_grown _ _ _ _
                      (nth_error_grown _ _ _ _ (nth_error_grown _ _ _ _ L))))
                (verbose_loop_run h2 w refs records F2 []))).
  fold (App.verbosity records). rewrite verbosity_eq.
  rewrite (bind_value _ _ _ _ _
             (sort_run Mem.verboses h2 [] w _ App.vp_cost verboses_ok)).
  fold (sorted_verbose records).
  rewrite (bind_value _ _ _ _ _
             (items_run Mem.verboses h2 [] w _ verboses_ok)).
  (* the percentage *)
  cbv zeta.
  fold (prompt_opt_savings_of records). fold (total_cost_of records).
  fold (batch_savings_of records). fold (total_savings_of records).
  assert ((if 0 <? total_cost_of records
           then q <- Py.truediv (total_savings_of records) (total_cost_of records) ;;
                Py.Ok (Py.round (q * 100) 1)
           else Py.Ok 0)
          = Py.Ok (if 0 <? total_cost_of records
                   then Py.round (total_savings_of records / total_cost_of records * 100) 1
                   else 0)) as ->.
  { destruct (0 <? total_cost_of records) eqn:P; [|reflexivity].
    unfold Py.truediv. rewrite (pos_not_zero _ P). reflexivity. }
  cbn [Mem.lift].
  match goal with
  | |- context [Mem.bind (Mem.lift (Py.Ok ?v)) ?k ?s] =>
      rewrite (bind_value (Mem.lift (Py.Ok v)) k s s v eq_refl)
  end.
  (* the slices *)
  exists [Mem.Duplicates
            (Py.sort_desc PrimFloat.ltb App.dup_savings
               (map (duplicate_entry records) (duplicate_keys records)));
          Mem.Downgradeables
            (Py.sort_desc PrimFloat.ltb App.dg_savings
               (map downgradeable_entry (filter App.downgradeable records)));
          Mem.Verboses (sorted_verbose records)].
  assert (forall v : Mem.object,
            h2 ++ [v]
            = h ++ Mem.inj Mem.duplicates
                     (Py.sort_desc PrimFloat.ltb App.dup_savings
                        (map (duplicate_entry records) (duplicate_keys records)))
                :: [Mem.Downgradeables
                      (Py.sort_desc PrimFloat.ltb App.dg_savings
                         (map downgradeable_entry (filter App.downgradeable records)));
                    v]) as E0
    by (intros v; unfold h2, h1; rewrite <- !app_assoc; reflexivity).
  assert (forall v : Mem.object,
            h2 ++ [v]
            = h1 ++ Mem.inj Mem.downgradeables
                      (Py.sort_desc PrimFloat.ltb App.dg_savings
                         (map downgradeable_entry (filter App.downgradeable records)))
                 :: [v]) as E1
    by (intros v; unfold h2; rewrite <- !app_assoc; reflexivity).
  rewrite E0.
  rewrite (bind_value _ _ _ _ _
             (slice_to_run Mem.duplicates 10 h _ w _ duplicates_ok)).
  rewrite <- E0, E1.
  rewrite (bind_value _ _ _ _ _
             (slice_to_run Mem.downgradeables 10 h1 _ w _ downgradeables_ok)).
  rewrite <- E1.
  rewrite (bind_value _ _ _ _ _
             (slice_to_run Mem.verboses 10 h2 [] w _ verboses_ok)).
  rewrite E0. unfold Mem.ret, report_of. cbn [Mem.inj Mem.duplicates].
  assert (@List.length Mem.ref refs = List.length records) as ->
    by (clear -F; induction F; simpl; congruence).
  reflexivity.
Qed.

End StoreFacts.

(** ** The claims *)

(** *** C1: the total and the four categories *)

(** C1 as stated fails: for one short GPT-4 call of 13 cents the report shows
    routing savings 0.12, batch savings 0.02 and total savings 0.13, and
    0.12 + 0.02 is not 0.13: every field is rounded on its own. *)
Lemma C1_rounded_fields_do_not_add_up :
  exists r, App.analyze_data thirteen_cents = Py.Ok r /\
    App.routing_savings r = 0.12 /\ App.batch_savings r = 0.02 /\
    App.total_savings r = 0.13 /\
    (App.total_savings r =? sum_of_categories r) = false.
Proof.
  eexists. split; [vm_compute; reflexivity|].
  repeat split; vm_compute; reflexivity.
Qed.

(** C1, amended: for every input, each category field of the web report is
    the 2-decimal rounding of its unrounded sum, the batch sum is
    total cost x 0.12, and [total_savings] is the 2-decimal rounding of the
    sum of the four unrounded sums; in the command-line variant, which does
    not round, the total is exactly the sum of the four categories. *)
Theorem C1_total_is_rounded_sum_of_unrounded (logs : list CallRecord) :
  exists dups cache r,
    App.caching logs = Py.Ok (dups, cache) /\
    App.analyze_data logs = Py.Ok r /\
    let routing := snd (App.routing logs) in
    let prompt_opt :=
      Py.sum (map (fun v => App.vp_cost v * 0.3)
                (Py.sort_desc PrimFloat.ltb App.vp_cost (App.verbosity logs))) in
    let batch := Py.sum (map cost logs) * 0.12 in
    App.cache_savings r = Py.round cache 2 /\
    App.routing_savings r = Py.round routing 2 /\
    App.prompt_opt_savings r = Py.round prompt_opt 2 /\
    App.batch_savings r = Py.round batch 2 /\
    App.total_savings r = Py.round (cache + routing + prompt_opt + batch) 2 /\
    match AnalyzeLocal.analyze_csv logs with
    | Py.Ok (Some s) =>
        AnalyzeLocal.batch_savings s = AnalyzeLocal.total_cost s * 0.12 /\
        AnalyzeLocal.total_savings s =
          AnalyzeLocal.cache_savings s + AnalyzeLocal.routing_savings s
          + AnalyzeLocal.prompt_savings s + AnalyzeLocal.batch_savings s
    | _ => True
    end.
Proof.
  exists (map (duplicate_entry logs) (duplicate_keys logs)), (cache_savings_of logs),
    (report_of logs).
  split; [apply caching_eq|]. split; [apply analyze_data_eq|].
  rewrite routing_eq, verbosity_eq. cbn [snd].
  repeat split.
  cli_outcomes logs. split; reflexivity.
Qed.

(** *** C2: the percentage and the division by zero *)

(** C2 holds in the web variant and fails in the command-line variant.  For
    every input the web variant returns a report; its percentage is
    (total savings / total cost) x 100 rounded to 1 decimal when the total
    cost is above zero, and 0 otherwise, so that it never divides by zero.
    The command-line variant divides without a test: it stops on
    ZeroDivisionError whenever the log is not empty and its costs add up to
    zero, as for the one call of cost zero, for which the web variant
    reports 0 percent. *)
Theorem C2_percent_guarded_in_web_only :
  (forall logs, exists r, App.analyze_data logs = Py.Ok r /\
     App.savings_percent r =
       if 0 <? Py.sum (map cost logs)
       then Py.round (total_savings_of logs / Py.sum (map cost logs) * 100) 1
       else 0) /\
  (forall logs, AnalyzeLocal.analyze_csv logs =
     match logs with
     | [] => Py.Ok None
     | _ :: _ =>
         if Py.sum (map cost logs) =? 0 then Py.Raise Py.ZeroDivisionError
         else Py.Ok (Some (summary_of logs))
     end) /\
  (exists r, App.analyze_data free_call = Py.Ok r /\ App.savings_percent r = 0) /\
  AnalyzeLocal.analyze_csv free_call = Py.Raise Py.ZeroDivisionError.
Proof.
  split; [|split; [|split]].
  - intros logs. exists (report_of logs). split; [apply analyze_data_eq|reflexivity].
  - apply analyze_csv_eq.
  - eexists. split; vm_compute; reflexivity.
  - vm_compute. reflexivity.
Qed.

(** *** C3: the empty input *)

(** C3 as stated fails for the command-line variant: on no input it returns
    without any summary. *)
Lemma C3_cli_returns_no_report :
  ~ exists s, AnalyzeLocal.analyze_csv [] = Py.Ok (Some s).
Proof. intros [s H]. discriminate H. Qed.

(** C3, amended: on no input the web variant returns the report whose
    numbers are all zero and whose lists are all empty; the command-line
    variant says that no data was found and returns without a summary;
    neither raises. *)
Theorem C3_empty_input :
  (exists r, App.analyze_data [] = Py.Ok r /\
     App.total_cost r = 0 /\ App.total_calls r = 0%nat /\
     App.cache_savings r = 0 /\ App.routing_savings r = 0 /\
     App.prompt_opt_savings r = 0 /\ App.batch_savings r = 0 /\
     App.total_savings r = 0 /\ App.savings_percent r = 0 /\
     App.duplicate_prompts r = [] /\ App.downgradeable_calls r = [] /\
     App.verbose_prompts r = [] /\ App.batchable_calls r = []) /\
  AnalyzeLocal.analyze_csv [] = Py.Ok None.
Proof.
  split; [|reflexivity].
  exists App.empty_report. repeat split.
Qed.

(** *** C4: duplicate prompts *)

(** C4 as stated fails: for the same prompt twice at 0.4 cent the one group
    has count 2 and its entry carries savings 0, not 0.004 x 1, and the
    report's [cache_savings] is 0: both are rounded to 2 decimals. *)
Lemma C4_group_savings_is_rounded :
  exists r d, App.analyze_data sub_cent_pair = Py.Ok r /\
    App.duplicate_prompts r = [d] /\
    App.dup_count d = 2%nat /\
    App.dup_savings d = 0 /\
    (App.dup_savings d =? 0.004 * 1) = false /\
    App.cache_savings r = 0.
Proof. do 2 eexists. repeat split; vm_compute; reflexivity. Qed.

(** C4, amended: the records are grouped by the first 50 characters of the
    prompt.  There is one entry for every group of more than one record; the
    estimated savings of the group are the cost of its first record times
    (count - 1); the unrounded cache savings are the sum of these over the
    groups, in both variants.  The web report carries the savings of each
    group and the cache savings rounded to 2 decimals, and the cost per call
    rounded to 4.  For "Hello world" three times at 0.01 and "Goodbye" once
    at 0.02 there is one group, of count 3 and savings 0.02. *)
Theorem C4_duplicate_groups (logs : list CallRecord) :
  exists keys,
    NoDup keys /\
    (forall k, In k keys <-> (1 < group_count logs k)%nat) /\
    App.caching logs =
      Py.Ok (map (duplicate_entry logs) keys, Py.sum (map (group_savings logs) keys)) /\
    (forall k,
       App.dup_count (duplicate_entry logs k) = group_count logs k /\
       App.dup_savings (duplicate_entry logs k) =
         Py.round (first_cost logs k
                   * Py.float_of_int (Z.of_nat (group_count logs k) - 1)) 2 /\
       App.dup_cost_per_call (duplicate_entry logs k) =
         Py.round (first_cost logs k) 4) /\
    (exists r, App.analyze_data logs = Py.Ok r /\
       App.cache_savings r = Py.round (Py.sum (map (group_savings logs) keys)) 2) /\
    match AnalyzeLocal.analyze_csv logs with
    | Py.Ok (Some s) =>
        AnalyzeLocal.cache_savings s = Py.sum (map (group_savings logs) keys)
    | _ => True
    end /\
    App.caching hello_goodbye =
      Py.Ok ([{| App.dup_prompt := "Hello world";
                 App.dup_count := 3;
                 App.dup_savings := 0.02;
                 App.dup_cost_per_call := 0.01 |}], 0.02) /\
    App.caching long_pair =
      Py.Ok ([{| App.dup_prompt := prompt_of_length 50;
                 App.dup_count := 2;
                 App.dup_savings := 0.01;
                 App.dup_cost_per_call := 0.01 |}], 0.01).
Proof.
  exists (duplicate_keys logs).
  split; [|split; [|split; [|split; [|split; [|split; [|split]]]]]].
  - apply repeated_NoDup.
    destruct (Counter_counts (map fingerprint logs)) as (ND & _). exact ND.
  - intros k. apply repeated_Counter.
  - apply caching_eq.
  - intros k. repeat split.
  - exists (report_of logs). split; [apply analyze_data_eq|reflexivity].
  - cli_outcomes logs. reflexivity.
  - vm_compute. reflexivity.
  - vm_compute. reflexivity.
Qed.

(** The duplicate group of "Hello world". *)
Lemma C4_duplicate_groups_witness :
  exists keys, In "Hello world"%string keys /\
    App.caching hello_goodbye =
      Py.Ok (map (duplicate_entry hello_goodbye) keys,
             Py.sum (map (group_savings hello_goodbye) keys)).
Proof.
  destruct (C4_duplicate_groups hello_goodbye) as (keys & _ & H & E & _).
  exists keys. split; [|exact E].
  apply H. vm_compute. lia.
Defined.

(** *** C5: downgradeable calls *)

(** C5 as stated fails: the entry of a flagged call of 0.004 cent carries
    savings 0 and new cost 0, not cost x 0.9 and cost x 0.1: the entries of
    the web report are rounded to 4 decimals. *)
Lemma C5_entry_is_rounded :
  exists d, fst (App.routing [tiny_call]) = [d] /\
    App.dg_savings d = 0 /\ App.dg_new_cost d = 0 /\
    (App.dg_savings d =? cost tiny_call * 0.9) = false /\
    (App.dg_new_cost d =? cost tiny_call * 0.1) = false.
Proof. eexists. repeat split; vm_compute; reflexivity. Qed.

(** C5, amended: the downgradeable calls of the web variant are the entries
    of the calls whose model name contains "gpt-4" in any letter case and
    for which the downgrade predicate holds; such a call adds cost x 0.9 to
    the routing savings, and its entry carries that amount and the new cost
    cost x 0.1, each rounded to 4 decimals: for the GPT-4 call of 5 cents,
    0.045 and 0.005.  A "gpt-3.5-turbo" call is never flagged.  The
    command-line variant keeps the savings of its entries unrounded. *)
Theorem C5_downgradeable_calls (logs : list CallRecord) :
  (forall d, In d (fst (App.routing logs)) <->
     exists log, In log logs /\ is_gpt4 log = true /\
       App.should_downgrade_to_gpt35_analysis log = true /\
       d = downgradeable_entry log) /\
  snd (App.routing logs) =
    Py.sum (map (fun log => cost log * 0.9) (filter App.downgradeable logs)) /\
  (forall log,
     App.dg_savings (downgradeable_entry log) = Py.round (cost log * 0.9) 4 /\
     App.dg_new_cost (downgradeable_entry log) = Py.round (cost log * 0.1) 4) /\
  App.routing [capital_of_france] =
    ([{| App.dg_prompt := "What is the capital of France?";
         App.dg_current_cost := 0.05;
         App.dg_new_cost := 0.005;
         App.dg_savings := 0.045;
         App.dg_reason := "Simple query" |}], 0.05 * 0.9) /\
  (forall log, model log = "gpt-3.5-turbo" ->
     App.downgradeable log = false /\ cli_downgradeable log = false) /\
  fold_left AnalyzeLocal.routing_body logs ([], 0) =
    (map cli_downgradeable_entry (filter cli_downgradeable logs),
     Py.sum (map (fun log => cost log * 0.9) (filter cli_downgradeable logs))) /\
  (forall log,
     AnalyzeLocal.dg_savings (cli_downgradeable_entry log) = cost log * 0.9).
Proof.
  split; [|split; [|split; [|split; [|split; [|split]]]]].
  - intros d. rewrite routing_eq. cbn [fst]. rewrite in_map_iff. split.
    + intros (log & <- & I). apply filter_In in I. destruct I as [I D].
      unfold App.downgradeable in D. apply andb_true_iff in D.
      exists log. tauto.
    + intros (log & I & G & P & ->). exists log. split; [reflexivity|].
      apply filter_In. split; [exact I|].
      unfold App.downgradeable. rewrite G, P. reflexivity.
  - rewrite routing_eq. reflexivity.
  - intros log. split; reflexivity.
  - vm_compute. reflexivity.
  - intros log E. unfold App.downgradeable, cli_downgradeable, is_gpt4.
    rewrite E. split; reflexivity.
  - rewrite cli_routing_loop. reflexivity.
  - reflexivity.
Qed.

(** The call of the specification is flagged, and is not when its model is
    "gpt-3.5-turbo". *)
Lemma C5_downgradeable_calls_witness :
  In (downgradeable_entry capital_of_france) (fst (App.routing [capital_of_france])) /\
  App.downgradeable (log_of "What is the capital of France?" "gpt-3.5-turbo" 50 0.05)
  = false.
Proof.
  destruct (C5_downgradeable_calls [capital_of_france])
    as (H & _ & _ & _ & N & _).
  split.
  - apply H. exists capital_of_france.
    split; [left; reflexivity|]. repeat split; reflexivity.
  - apply (N (log_of "What is the capital of France?" "gpt-3.5-turbo" 50 0.05)).
    reflexivity.
Defined.

(** *** C6: arithmetic prompts *)

(** C6 as stated fails on the empty prompt: it consists of nothing but
    digits, operators and whitespace, and with 100 tokens the GPT-4 call is
    not flagged, in either variant: the pattern asks for one character at
    least. *)
Lemma C6_empty_prompt_not_flagged :
  Py.contains "gpt-4" (model empty_prompt_call) = true /\
  all_chars arith_char (prompt empty_prompt_call) = true /\
  App.downgradeable empty_prompt_call = false /\
  cli_downgradeable empty_prompt_call = false /\
  fst (App.routing [empty_prompt_call]) = [].
Proof. repeat split; vm_compute; reflexivity. Qed.

(** C6, amended: a call whose model name contains "gpt-4" (in any letter
    case) and whose prompt is not empty and consists only of digits,
    [+ - * /] and whitespace is flagged downgradeable whatever its token
    count, in both variants, and enters the list of downgradeable calls. *)
Theorem C6_arithmetic_prompt_flagged (logs : list CallRecord) (log : CallRecord) :
  In log logs ->
  is_gpt4 log = true ->
  prompt log <> EmptyString ->
  all_chars arith_char (prompt log) = true ->
  App.downgradeable log = true /\
  cli_downgradeable log = true /\
  In (downgradeable_entry log) (fst (App.routing logs)).
Proof.
  intros I G NE A.
  assert (Py.re_match_arith (Py.lower (prompt log)) = true) as M.
  { rewrite (all_arith_lower _ A). apply re_match_arith_iff.
    split; [exact NE|apply all_arith_class, A]. }
  assert (App.downgradeable log = true) as D.
  { unfold App.downgradeable. rewrite G. apply should_downgrade_arith_web, M. }
  split; [exact D|]. split.
  - unfold cli_downgradeable. rewrite G. apply should_downgrade_arith_cli, M.
  - rewrite routing_eq. cbn [fst]. apply in_map, filter_In. split; assumption.
Qed.

(** "2 + 2" with 100000 tokens is flagged. *)
Lemma C6_arithmetic_prompt_flagged_witness :
  App.downgradeable (two_plus_two 100000) = true /\
  cli_downgradeable (two_plus_two 100000) = true /\
  In (downgradeable_entry (two_plus_two 100000))
     (fst (App.routing [two_plus_two 100000])).
Proof.
  apply (C6_arithmetic_prompt_flagged [two_plus_two 100000] (two_plus_two 100000)).
  - left. reflexivity.
  - apply contains_gpt4_is_gpt4. reflexivity.
  - discriminate.
  - reflexivity.
Defined.

(** *** C7: verbose prompts *)

(** C7: a call is flagged verbose exactly when its prompt is longer than 500
    characters (one of 501 is, one of 500 is not); the verbose prompts of
    the web variant are the entries of the verbose calls, its
    [prompt_opt_savings] is the sum (rounded to 2 decimals in the report) of
    cost x 0.3 over these entries, taken in their sorted order; the
    command-line variant sums cost x 0.3 over the verbose calls. *)
Theorem C7_verbose_prompts (logs : list CallRecord) :
  (forall log, App.verbose log = (500 <? String.length (prompt log))%nat) /\
  App.verbose (call_of_length 501) = true /\
  App.verbose (call_of_length 500) = false /\
  App.verbosity [call_of_length 501; call_of_length 500] =
    [verbose_entry (call_of_length 501)] /\
  App.verbosity logs = map verbose_entry (filter App.verbose logs) /\
  (forall log, App.vp_cost (verbose_entry log) = cost log) /\
  (exists r, App.analyze_data logs = Py.Ok r /\
     let sorted := Py.sort_desc PrimFloat.ltb App.vp_cost (App.verbosity logs) in
     Permutation sorted (App.verbosity logs) /\
     App.prompt_opt_savings r =
       Py.round (Py.sum (map (fun v => App.vp_cost v * 0.3) sorted)) 2) /\
  match AnalyzeLocal.analyze_csv logs with
  | Py.Ok (Some s) =>
      AnalyzeLocal.verbose s = filter App.verbose logs /\
      AnalyzeLocal.prompt_savings s =
        Py.sum (map (fun log => cost log * 0.3) (AnalyzeLocal.verbose s))
  | _ => True
  end.
Proof.
  split; [reflexivity|].
  split; [vm_compute; reflexivity|].
  split; [vm_compute; reflexivity|].
  split; [vm_compute; reflexivity|].
  split; [apply verbosity_eq|].
  split; [reflexivity|].
  split.
  - exists (report_of logs). split; [apply analyze_data_eq|].
    split; [apply sort_desc_perm|].
    rewrite verbosity_eq. reflexivity.
  - cli_outcomes logs. split; reflexivity.
Qed.

(** *** C8: the rankings of the web report *)



(** *** C9: determinism *)

(** C9: the report is a function of the input sequence alone.  Take the
    model of [analyze_data] that runs in a store: in any two states of the
    interpreter in which the list handed over holds the same sequence of
    records, whatever else the two states hold, the runs return the same
    report, never an exception; a run changes no object that was there
    before it and nothing else of the state, so that the list still holds
    the same sequence, and a second run in the state that the first one
    left returns the same report again.  That report is the one of the
    function of the records that the other properties are about. *)
Theorem C9_deterministic {World : Type} (s1 s2 : @Mem.state World)
    (logs1 logs2 : Mem.ref) (records : list CallRecord) :
  holds (Mem.heap s1) logs1 records ->
  holds (Mem.heap s2) logs2 records ->
  exists (r : App.Report) (s1' s2' s1'' : Mem.state),
    Mem.analyze_data logs1 s1 = (Mem.Value r, s1') /\
    Mem.analyze_data logs2 s2 = (Mem.Value r, s2') /\
    grown s1 s1' /\
    holds (Mem.heap s1') logs1 records /\
    Mem.analyze_data logs1 s1' = (Mem.Value r, s1'') /\
    App.analyze_data records = Py.Ok r.
Proof.
  destruct s1 as [h1 w1], s2 as [h2 w2]. cbn [Mem.heap]. intros H1 H2.
  destruct (analyze_data_run h1 w1 logs1 records H1) as (new1 & E1).
  destruct (analyze_data_run h2 w2 logs2 records H2) as (new2 & E2).
  pose proof (holds_grown h1 new1 logs1 records H1) as H1'.
  destruct (analyze_data_run (h1 ++ new1) w1 logs1 records H1') as (new1' & E1').
  exists (report_of records). do 3 eexists.
  split; [exact E1|]. split; [exact E2|]. split; [|split; [|split]].
  - split; [reflexivity|]. exists new1. reflexivity.
  - exact H1'.
  - exact E1'.
  - apply analyze_data_eq.
Qed.

(** Two runs in two stores that hold "Hello world" three times and
    "Goodbye" once. *)
Lemma C9_deterministic_witness :
  exists r s1' s2',
    Mem.analyze_data 2%nat shared_store = (Mem.Value r, s1') /\
    Mem.analyze_data 1%nat other_store = (Mem.Value r, s2') /\
    App.duplicate_prompts r <> [].
Proof.
  destruct (C9_deterministic shared_store other_store 2%nat 1%nat hello_goodbye)
    as (r & s1' & s2' & _ & E1 & E2 & _ & _ & _ & R).
  - exists [0; 0; 1; 0]%nat. split; [reflexivity|]. repeat constructor.
  - exists [3; 2; 5; 4]%nat. split; [reflexivity|]. repeat constructor.
  - exists r, s1', s2'. split; [exact E1|]. split; [exact E2|].
    rewrite analyze_data_eq in R. injection R as <-. vm_compute. discriminate.
Defined.

(** *** C10: no negative number in the report *)

(** C10 as stated fails: the costs 1e308 and 1e308 are not negative, their
    sum overflows to infinity, and the percentage of the report is
    infinity / infinity, which is NaN and not at least zero. *)
Lemma C10_overflow_gives_nan_percent :
  (forall log, In log two_huge -> nonneg (cost log) = true) /\
  exists r, App.analyze_data two_huge = Py.Ok r /\
    is_nan (App.savings_percent r) = true /\
    nonneg (App.savings_percent r) = false.
Proof.
  split.
  - intros log I. repeat (destruct I as [<-|I]; [reflexivity|]). contradiction.
  - eexists. repeat split; vm_compute; reflexivity.
Qed.

(** C10, amended: for a log whose costs are not negative and add up to a
    finite total, every number of the web report is at least zero (total
    cost, the four category savings, total savings and the percentage) and
    so are the savings of every duplicate prompt and of every downgradeable
    call of the report; so is every such number that the command-line
    variant prints. *)
Theorem C10_nonnegative_report (logs : list CallRecord) :
  (forall log, In log logs -> nonneg (cost log) = true) ->
  is_finite (Py.sum (map cost logs)) = true ->
  (exists r, App.analyze_data logs = Py.Ok r /\
     Forall (fun x => nonneg x = true) (report_numbers r) /\
     Forall (fun d => nonneg (App.dup_savings d) = true) (App.duplicate_prompts r) /\
     Forall (fun d => nonneg (App.dg_savings d) = true) (App.downgradeable_calls r)) /\
  match AnalyzeLocal.analyze_csv logs with
  | Py.Ok (Some s) =>
      Forall (fun x => nonneg x = true) (summary_numbers s) /\
      Forall (fun d => nonneg (AnalyzeLocal.dg_savings d) = true)
        (AnalyzeLocal.downgradeable s)
  | _ => True
  end.
Proof.
  intros N F. split.
  - exists (report_of logs). split; [apply analyze_data_eq|].
    split; [apply report_numbers_nonneg; assumption|].
    split; [apply duplicate_savings_nonneg|apply downgradeable_savings_nonneg];
      assumption.
  - cli_outcomes logs.
    split; [apply summary_numbers_nonneg; assumption|].
    apply Forall_forall. intros d Id.
    cbn [summary_of AnalyzeLocal.downgradeable] in Id.
    apply in_map_iff in Id. destruct Id as (l & <- & Il). apply filter_In in Il.
    cbn [cli_downgradeable_entry AnalyzeLocal.dg_savings].
    apply mul_pos_nonneg; [reflexivity|apply N; tauto].
Qed.

(** The report of the call of 13 cents. *)
Lemma C10_nonnegative_report_witness :
  exists r, App.analyze_data thirteen_cents = Py.Ok r /\
    Forall (fun x => nonneg x = true) (report_numbers r).
Proof.
  destruct (C10_nonnegative_report thirteen_cents) as [(r & E & H & _) _].
  - intros log I. destruct I as [<-|[]]. reflexivity.
  - reflexivity.
  - exists r. split; assumption.
Defined.

(** * Further properties of the code *)

(** ** The downgrade predicates of the two variants *)

Section PredicateFacts.

Lemma lower_char_class c : Py.re_arith_class (Py.lower_char c) = Py.re_arith_class c.
Proof. destruct c as [[] [] [] [] [] [] [] []]; reflexivity. Qed.

Lemma lower_all_class s :
  all_chars Py.re_arith_class (Py.lower s) = all_chars Py.re_arith_class s.
Proof.
  induction s as [|c s IH]; simpl; [reflexivity|].
  rewrite lower_char_class, IH. reflexivity.
Qed.

Lemma lower_empty s : String.eqb (Py.lower s) "" = String.eqb s "".
Proof. destruct s; reflexivity. Qed.

(** The pattern on the lower-cased prompt, read on the prompt itself. *)
Lemma re_match_arith_lower p : Py.re_match_arith (Py.lower p) = arithmetic p.
Proof.
  unfold arithmetic. rewrite <- lower_all_class, <- lower_empty.
  destruct (Py.re_match_arith (Py.lower p)) eqn:M.
  - apply re_match_arith_iff in M. destruct M as [NE A]. rewrite A.
    destruct (String.eqb_spec (Py.lower p) ""); [contradiction|reflexivity].
  - destruct (String.eqb_spec (Py.lower p) "") as [E|NE]; [reflexivity|].
    destruct (all_chars Py.re_arith_class (Py.lower p)) eqn:A; [|reflexivity].
    assert (Py.re_match_arith (Py.lower p) = true) as T
      by (apply re_match_arith_iff; split; assumption).
    congruence.
Qed.

End PredicateFacts.

(** The predicates as disjunctions of their rules: by cases on the token
    count, on each prefix and on the two other tests. *)
Ltac rule_cases p :=
  rewrite re_match_arith_lower; cbn [Py.any existsb];
  match goal with
  | |- context [(?t <? 100)%Z] => destruct (t <? 100)%Z; [reflexivity|]
  end;
  repeat match goal with
         | |- context [Py.startswith ?a ?b] => destruct (Py.startswith a b)
         end;
  cbn [orb]; try reflexivity;
  destruct (Py.contains "translate" _ || Py.contains "translation" _);
  try reflexivity; destruct (arithmetic p); reflexivity.

Lemma web_rules log :
  App.should_downgrade_to_gpt35_analysis log =
    ((tokens log <? 100)%Z || question_web (prompt log)
     || translation (prompt log) || arithmetic (prompt log)).
Proof.
  unfold App.should_downgrade_to_gpt35_analysis, question_web, translation.
  rule_cases (prompt log).
Qed.

Lemma cli_rules p t :
  AnalyzeLocal.should_downgrade p t =
    ((t <? 100)%Z || question_web p
     || Py.startswith (Py.lower p) "what are"
     || translation p || arithmetic p).
Proof.
  unfold AnalyzeLocal.should_downgrade, question_web, translation.
  rule_cases p.
Qed.

(** The rules of the web variant are rules of the command-line variant. *)
Lemma downgradeable_web_cli log :
  App.downgradeable log = true -> cli_downgradeable log = true.
Proof.
  unfold App.downgradeable, cli_downgradeable. rewrite web_rules, cli_rules.
  destruct (is_gpt4 log); [|discriminate]. cbn [andb].
  destruct (tokens log <? 100)%Z, (question_web (prompt log)),
    (Py.startswith (Py.lower (prompt log)) "what are"),
    (translation (prompt log)), (arithmetic (prompt log)); cbn;
    intros H; try reflexivity; discriminate H.
Qed.


(** X1: the predicate of the web variant holds exactly when the call has
    fewer than 100 tokens, or its prompt begins with one of "what is",
    "how do", "why", "when", "who", "where", or contains "translate" or
    "translation" (all three letter case apart), or is a non-empty string of
    digits, [+ - * /] and whitespace; the predicate of the command-line
    variant holds in these cases and when the prompt begins with
    "what are". *)
Theorem X1_downgrade_rules (log : CallRecord) :
  App.should_downgrade_to_gpt35_analysis log =
    ((tokens log <? 100)%Z || question_web (prompt log)
     || translation (prompt log) || arithmetic (prompt log)) /\
  AnalyzeLocal.should_downgrade (prompt log) (tokens log) =
    ((tokens log <? 100)%Z || question_web (prompt log)
     || Py.startswith (Py.lower (prompt log)) "what are"
     || translation (prompt log) || arithmetic (prompt log)).
Proof.
  unfold App.should_downgrade_to_gpt35_analysis, AnalyzeLocal.should_downgrade,
    question_web, translation.
  split; rule_cases (prompt log).
Qed.

(** X2: every call that the web variant flags as downgradeable is flagged by
    the command-line variant too. *)
Theorem X2_web_flag_implies_cli_flag (log : CallRecord) :
  App.downgradeable log = true -> cli_downgradeable log = true.
Proof.
  unfold App.downgradeable, cli_downgradeable. rewrite web_rules, cli_rules.
  destruct (is_gpt4 log); [|discriminate]. cbn [andb].
  intros H. apply orb_true_iff in H. destruct H as [H| ->]; [|apply orb_true_r].
  apply orb_true_iff in H. destruct H as [H| ->];
    [|rewrite orb_true_r; reflexivity].
  apply orb_true_iff in H. destruct H as [->| ->]; [reflexivity|].
  rewrite orb_true_r. reflexivity.
Qed.

Lemma X2_web_flag_implies_cli_flag_witness :
  cli_downgradeable capital_of_france = true.
Proof. apply X2_web_flag_implies_cli_flag. reflexivity. Defined.

(** X3: a call that the command-line variant flags and the web variant does
    not has 100 tokens or more and a prompt that begins, letter case apart,
    with "what are". *)
Theorem X3_variants_differ_on_what_are (log : CallRecord) :
  cli_downgradeable log = true -> App.downgradeable log = false ->
  (100 <= tokens log)%Z /\ Py.startswith (Py.lower (prompt log)) "what are" = true.
Proof.
  unfold App.downgradeable, cli_downgradeable. rewrite web_rules, cli_rules.
  destruct (is_gpt4 log); [|discriminate]. cbn [andb].
  destruct (Z.ltb_spec (tokens log) 100); [discriminate|].
  destruct (question_web (prompt log)),
    (Py.startswith (Py.lower (prompt log)) "what are"),
    (translation (prompt log)), (arithmetic (prompt log)); cbn;
    intros H1 H2; try discriminate; split; try assumption; reflexivity.
Qed.

Lemma X3_variants_differ_on_what_are_witness :
  (100 <= tokens what_are_call)%Z /\
  Py.startswith (Py.lower (prompt what_are_call)) "what are" = true.
Proof. apply X3_variants_differ_on_what_are; reflexivity. Defined.

(** ** Slices, groups and the entries of the report *)

Section EntryFacts.

Lemma slice_to_length n : forall s,
  String.length (Py.slice_to n s) = Nat.min n (String.length s).
Proof.
  unfold Py.slice_to. induction n as [|n IH]; intros s.
  - destruct s; reflexivity.
  - destruct s as [|c s]; [reflexivity|]. simpl. rewrite IH. reflexivity.
Qed.




Lemma NoDup_firstn {A : Type} (n : nat) (l : list A) : NoDup l -> NoDup (firstn n l).
Proof.
  intros H. rewrite <- (firstn_skipn n l) in H. apply NoDup_app_remove_r in H. exact H.
Qed.

Lemma duplicate_keys_NoDup logs : NoDup (duplicate_keys logs).
Proof.
  apply repeated_NoDup.
  destruct (Counter_counts (map fingerprint logs)) as (ND & _). exact ND.
Qed.

(** The prompts of the duplicate entries of the report, as keys. *)
Lemma reported_duplicates logs :
  exists keys,
    App.duplicate_prompts (report_of logs) = map (duplicate_entry logs) keys /\
    NoDup keys /\ incl keys (duplicate_keys logs).
Proof.
  cbn [report_of App.duplicate_prompts].
  set (sorted := Py.sort_desc PrimFloat.ltb App.dup_savings
                   (map (duplicate_entry logs) (duplicate_keys logs))).
  exists (map App.dup_prompt (firstn 10 sorted)).
  assert (Permutation (map App.dup_prompt sorted) (duplicate_keys logs)) as P.
  { unfold sorted. rewrite (Permutation_map _ (sort_desc_perm _ _ _)).
    rewrite map_map. cbn [duplicate_entry App.dup_prompt]. rewrite map_id. reflexivity. }
  split; [|split].
  - rewrite map_map. rewrite <- (map_id (firstn 10 sorted)) at 1.
    apply map_ext_in. intros d I.
    apply In_firstn in I. unfold sorted in I.
    apply sort_desc_In, in_map_iff in I. destruct I as (k & <- & _). reflexivity.
  - rewrite <- firstn_map. apply NoDup_firstn.
    apply (Permutation_NoDup (Permutation_sym P)), duplicate_keys_NoDup.
  - intros k I. rewrite <- firstn_map in I. apply In_firstn in I.
    apply (Permutation_in _ P), I.
Qed.

(** The counts of distinct groups add up to no more than the log holds. *)
Lemma group_counts_sum logs : forall keys,
  NoDup keys -> (sum_nat (map (group_count logs) keys) <= List.length logs)%nat.
Proof.
  induction logs as [|log logs IH]; intros keys ND.
  - induction keys as [|k keys IHk]; simpl; [lia|].
    inversion ND; subst. specialize (IHk ltac:(assumption)). cbn in *. lia.
  - specialize (IH keys ND).
    assert (sum_nat (map (group_count (log :: logs)) keys)
            <= 1 + sum_nat (map (group_count logs) keys))%nat as S; [|simpl; lia].
    clear IH. induction keys as [|k keys IHk]; simpl; [lia|].
    inversion ND as [|? ? Nk ND']; subst. specialize (IHk ND').
    unfold group_count at 1, group. cbn [filter].
    destruct (String.eqb_spec (fingerprint log) k) as [E|N]; cbn [List.length].
    + fold (group logs k). fold (group_count logs k).
      assert (sum_nat (map (group_count (log :: logs)) keys)
              = sum_nat (map (group_count logs) keys)) as ->; [|lia].
      f_equal. apply map_ext_in. intros k' I.
      unfold group_count, group. cbn [filter].
      destruct (String.eqb_spec (fingerprint log) k'); [|reflexivity].
      exfalso. apply Nk. congruence.
    + fold (group logs k). fold (group_count logs k). lia.
Qed.

End EntryFacts.



(** X5: the duplicate entries of the report stand for disjoint groups of
    calls: their counts add up to no more than [total_calls]. *)
Theorem X5_duplicate_counts_within_total (logs : list CallRecord) :
  exists r, App.analyze_data logs = Py.Ok r /\
    (sum_nat (map App.dup_count (App.duplicate_prompts r)) <= App.total_calls r)%nat.
Proof.
  exists (report_of logs). split; [apply analyze_data_eq|].
  destruct (reported_duplicates logs) as (keys & E & ND & _).
  rewrite E, map_map. cbn [duplicate_entry App.dup_count report_of App.total_calls].
  apply group_counts_sum, ND.
Qed.

(** ** Rankings: what the cut keeps *)

Section TopFacts.
Context {A K : Type} (lt : K -> K -> bool) (le : K -> K -> Prop) (good : K -> Prop).
Context (key : A -> K).
Hypothesis lt_le : forall a b, lt a b = true -> le a b.
Hypothesis not_lt_le : forall a b, good a -> good b -> lt a b = false -> le b a.
Hypothesis le_trans : forall a b c, le a b -> le b c -> le a c.

Lemma insert_desc_HdRel_gen a x l :
  le (key x) (key a) -> HdRel (fun a b => le (key b) (key a)) a l ->
  HdRel (fun a b => le (key b) (key a)) a (Py.insert_desc lt key x l).
Proof.
  intros Hx Hl. destruct l as [|y l]; simpl; [constructor; exact Hx|].
  destruct (lt (key x) (key y)); constructor; [|exact Hx].
  inversion Hl; assumption.
Qed.

Lemma insert_desc_Sorted_gen x l :
  good (key x) -> Forall (fun y => good (key y)) l ->
  Sorted (fun a b => le (key b) (key a)) l ->
  Sorted (fun a b => le (key b) (key a)) (Py.insert_desc lt key x l).
Proof.
  intros Gx. induction l as [|y l IH]; intros Gl S; simpl.
  - constructor; constructor.
  - inversion Gl as [|? ? Gy Gl']; subst. inversion S as [|? ? S' Hd]; subst.
    destruct (lt (key x) (key y)) eqn:C.
    + constructor; [apply IH; assumption|].
      apply insert_desc_HdRel_gen; [apply lt_le, C|exact Hd].
    + constructor; [exact S|]. constructor. apply not_lt_le; assumption.
Qed.

Lemma sort_desc_StronglySorted_gen l :
  Forall (fun y => good (key y)) l ->
  StronglySorted (fun a b => le (key b) (key a)) (Py.sort_desc lt key l).
Proof.
  intros G. apply Sorted_StronglySorted.
  - intros a b c Hab Hbc. eapply le_trans; eassumption.
  - induction l as [|x l IH]; simpl; [constructor|].
    inversion G as [|? ? Gx Gl]; subst.
    apply insert_desc_Sorted_gen; [exact Gx| |apply IH, Gl].
    apply Forall_forall. intros y I. apply sort_desc_In in I.
    revert y I. apply Forall_forall, Gl.
Qed.

Lemma StronglySorted_split (R : A -> A -> Prop) n : forall l,
  StronglySorted R l ->
  forall x y, In x (firstn n l) -> In y (skipn n l) -> R x y.
Proof.
  induction n as [|n IH]; intros l S x y Ix Iy; [contradiction|].
  destruct l as [|a l]; [contradiction|].
  inversion S as [|? ? S' F]; subst. simpl in Ix, Iy.
  destruct Ix as [<-|Ix]; [|apply (IH l S' x y Ix Iy)].
  rewrite Forall_forall in F. apply F.
  rewrite <- (firstn_skipn n l). apply in_or_app. right. exact Iy.
Qed.

Lemma skipn_nil_or_full (n : nat) (l : list A) :
  skipn n l = [] \/ List.length (firstn n l) = n.
Proof.
  destruct (Nat.le_gt_cases (List.length l) n) as [L|L].
  - left. apply skipn_all2, L.
  - right. apply firstn_length_le. lia.
Qed.

(** The first [n] items of a sort in descending order are the top [n]. *)
Lemma firstn_sort_desc_top n l :
  Forall (fun y => good (key y)) l ->
  top_of le key n l (firstn n (Py.sort_desc lt key l)).
Proof.
  intros G. exists (skipn n (Py.sort_desc lt key l)). split; [|split].
  - rewrite firstn_skipn. apply sort_desc_perm.
  - apply skipn_nil_or_full.
  - intros x y Ix Iy.
    apply (StronglySorted_split _ n _ (sort_desc_StronglySorted_gen l G) y x Iy Ix).
Qed.

End TopFacts.

Section FloatTop.
Context {A : Type} (key : A -> float).

Lemma firstn_sort_desc_top_float n l :
  Forall (fun y => is_nan (key y) = false) l ->
  top_of float_le key n l (firstn n (Py.sort_desc PrimFloat.ltb key l)).
Proof.
  apply (firstn_sort_desc_top PrimFloat.ltb float_le (fun k => is_nan k = false)).
  - intros a b. apply ltb_leb.
  - intros a b. apply not_ltb_leb.
  - intros a b c. apply leb_trans.
Qed.
End FloatTop.

(** X6: for a log whose costs are finite numbers, the ten entries of each
    list of the web report are the ten findings of greatest key (savings for
    the duplicate prompts and the downgradeable calls, cost for the verbose
    prompts): the findings left out have keys no greater than those kept,
    and nothing is left out when there are ten findings or fewer. *)
Theorem X6_report_keeps_the_top_ten (logs : list CallRecord) :
  (forall log, In log logs -> is_finite (cost log) = true) ->
  exists dups cache r,
    App.caching logs = Py.Ok (dups, cache) /\
    App.analyze_data logs = Py.Ok r /\
    top_of float_le App.dup_savings 10 dups (App.duplicate_prompts r) /\
    top_of float_le App.dg_savings 10 (fst (App.routing logs)) (App.downgradeable_calls r) /\
    top_of float_le App.vp_cost 10 (App.verbosity logs) (App.verbose_prompts r).
Proof.
  intros F.
  exists (map (duplicate_entry logs) (duplicate_keys logs)), (cache_savings_of logs),
    (report_of logs).
  split; [apply caching_eq|]. split; [apply analyze_data_eq|].
  rewrite routing_eq, verbosity_eq.
  cbn [fst report_of App.duplicate_prompts App.downgradeable_calls App.verbose_prompts].
  unfold sorted_verbose.
  split; [|split]; apply firstn_sort_desc_top_float, Forall_forall.
  - intros d I. apply in_map_iff in I. destruct I as (k & <- & _).
    cbn [duplicate_entry App.dup_savings].
    apply round_notnan; [exact ten_pow_2|apply group_savings_notnan, F].
  - intros d I. apply in_map_iff in I. destruct I as (log & <- & I).
    apply filter_In in I. destruct I as [I _].
    cbn [downgradeable_entry App.dg_savings].
    apply round_notnan; [exact ten_pow_4|].
    apply mul_pos_notnan; [reflexivity|apply is_finite_notnan, F, I].
  - intros v I. apply in_map_iff in I. destruct I as (log & <- & I).
    apply filter_In in I. destruct I as [I _].
    cbn [verbose_entry App.vp_cost]. apply is_finite_notnan, F, I.
Qed.

Lemma X6_report_keeps_the_top_ten_witness :
  exists r, App.analyze_data twelve_calls = Py.Ok r /\
    top_of float_le App.dg_savings 10 (fst (App.routing twelve_calls))
      (App.downgradeable_calls r).
Proof.
  destruct (X6_report_keeps_the_top_ten twelve_calls) as (_ & _ & r & _ & E & _ & T & _).
  - intros log I. repeat (destruct I as [<-|I]; [reflexivity|]). contradiction.
  - exists r. split; assumption.
Defined.



(** ** The loaders *)

Section LoaderFacts.
Context {cell : Type}.
Variable py_str : cell -> string.
Variable py_int : cell -> option Z.
Variable py_float : cell -> option float.

Lemma load_rows_Forall2 rows : forall logs,
  Loader.load_rows py_str py_int py_float rows = Some logs ->
  Forall2 (fun row log => Loader.load_row py_str py_int py_float row = Some log) rows logs.
Proof.
  induction rows as [|row rows IH]; intros logs H; simpl in H.
  - injection H as <-. constructor.
  - destruct (Loader.load_row py_str py_int py_float row) as [log|] eqn:R; [|discriminate].
    destruct (Loader.load_rows py_str py_int py_float rows) as [logs'|]; [|discriminate].
    injection H as <-. constructor; [exact R|apply IH; reflexivity].
Qed.

Lemma load_rows_In rows logs log :
  Loader.load_rows py_str py_int py_float rows = Some logs -> In log logs ->
  exists row, In row rows /\ Loader.load_row py_str py_int py_float row = Some log.
Proof.
  intros H. apply load_rows_Forall2 in H.
  induction H as [|row log' rows logs R F IH]; intros I; [contradiction|].
  destruct I as [<-|I].
  - exists row. split; [left; reflexivity|exact R].
  - destruct (IH I) as (row' & I' & R'). exists row'. split; [right; exact I'|exact R'].
Qed.

Lemma load_row_fields row log :
  Loader.load_row py_str py_int py_float row = Some log ->
  prompt log = Py.slice_to 200 (Loader.get_str py_str row "prompt" "") /\
  model log = Loader.get_str py_str row "model" "gpt-3.5-turbo" /\
  Loader.get_float py_float row "cost" = Some (cost log).
Proof.
  unfold Loader.load_row.
  destruct (Loader.get_int py_int row "n_context_tokens_total"); [|discriminate].
  destruct (Loader.get_int py_int row "n_generated_tokens_total"); [|discriminate].
  destruct (Loader.get_float py_float row "cost"); [|discriminate].
  intros H. injection H as <-. repeat split.
Qed.

End LoaderFacts.

Section ZeroFacts.






End ZeroFacts.

(** ** The entry points *)

Section EntryPointFacts.
Context {cell content : Type}.
Variable py_str : cell -> string.
Variable py_int : cell -> option Z.
Variable py_float : cell -> option float.
Variable read_csv : content -> option (list (@Loader.Row cell)).
Variable analyze_json : content -> option App.Report.
Variable read_csv_file : string -> option (list (@Loader.Row cell)).

Lemma load_rows_length rows logs :
  Loader.load_rows py_str py_int py_float rows = Some logs ->
  List.length logs = List.length rows.
Proof.
  intros H. apply load_rows_Forall2 in H.
  induction H; simpl; [reflexivity|]. rewrite IHForall2. reflexivity.
Qed.

Lemma load_rows_None rows :
  Loader.load_rows py_str py_int py_float rows = None ->
  exists row, In row rows /\ Loader.load_row py_str py_int py_float row = None.
Proof.
  induction rows as [|row rows IH]; simpl; [discriminate|].
  destruct (Loader.load_row py_str py_int py_float row) eqn:R.
  - destruct (Loader.load_rows py_str py_int py_float rows); [discriminate|].
    intros _. destruct (IH eq_refl) as (row' & I & R').
    exists row'. split; [right; exact I|exact R'].
  - intros _. exists row. split; [left; reflexivity|exact R].
Qed.

(** The report of an upload that is not a ".json" file is the report of
    logs that the loader made: of the rows of the file for a ".csv" file, of
    no row otherwise. *)
Lemma analyze_upload_report filename body r :
  Loader.analyze_upload py_str py_int py_float read_csv analyze_json filename body
    = Some r ->
  Loader.endswith filename ".json" = false ->
  exists rows logs,
    (Loader.endswith filename ".csv" = true -> read_csv body = Some rows) /\
    Loader.load_rows py_str py_int py_float rows = Some logs /\
    r = report_of logs.
Proof.
  unfold Loader.analyze_upload. intros H J.
  destruct (Loader.endswith filename ".csv").
  - destruct (read_csv body) as [rows|]; [|discriminate].
    destruct (Loader.load_rows py_str py_int py_float rows) as [logs|] eqn:L;
      [|discriminate].
    rewrite analyze_data_eq in H. injection H as <-.
    exists rows, logs. split; [reflexivity|]. split; [exact L|reflexivity].
  - rewrite J in H. injection H as <-.
    exists [], []. split; [discriminate|]. split; reflexivity.
Qed.

(** A printed summary is the summary of the logs of the rows of the file
    named by the first argument, which are not empty and whose total cost
    is not zero. *)
Lemma main_printed argv s :
  Loader.main py_str py_int py_float read_csv_file argv = Loader.Printed s ->
  exists script filename more rows logs,
    argv = script :: filename :: more /\
    read_csv_file filename = Some rows /\
    Loader.load_rows py_str py_int py_float rows = Some logs /\
    logs <> [] /\ (total_cost_of logs =? 0) = false /\
    s = summary_of logs.
Proof.
  unfold Loader.main, Loader.analyze_csv_file.
  destruct argv as [|script [|filename more]]; try discriminate.
  destruct (read_csv_file filename) as [rows|] eqn:RD; [|discriminate].
  destruct (Loader.load_rows py_str py_int py_float rows) as [logs|] eqn:L;
    [|discriminate].
  rewrite analyze_csv_eq. destruct logs as [|log logs]; [discriminate|].
  destruct (total_cost_of (log :: logs) =? 0) eqn:T; [discriminate|].
  intros H. injection H as <-.
  exists script, filename, more, rows, (log :: logs).
  split; [reflexivity|]. split; [exact RD|]. split; [exact L|].
  split; [discriminate|]. split; [exact T|reflexivity].
Qed.

(** The loader cuts the prompts to 200 characters. *)
Lemma loaded_prompt_length rows logs log :
  Loader.load_rows py_str py_int py_float rows = Some logs -> In log logs ->
  (Py.len (prompt log) <= 200)%nat.
Proof.
  intros L I. destruct (load_rows_In py_str py_int py_float rows logs log L I)
    as (row & _ & R).
  apply load_row_fields in R. destruct R as (-> & _).
  unfold Py.len. rewrite slice_to_length. lia.
Qed.

Lemma loaded_not_verbose rows logs :
  Loader.load_rows py_str py_int py_float rows = Some logs ->
  filter App.verbose logs = [].
Proof.
  intros L.
  assert (forall log, In log logs -> App.verbose log = false) as H.
  { intros log I. unfold App.verbose. apply Nat.ltb_ge.
    pose proof (loaded_prompt_length rows logs log L I). lia. }
  clear L. induction logs as [|log logs IH]; [reflexivity|].
  simpl. rewrite (H log) by (left; reflexivity).
  apply IH. intros log' I. apply H. right. exact I.
Qed.


(** Without a model column no call is a GPT-4 call. *)
Lemma loaded_not_gpt4 rows logs log :
  (forall row, In row rows -> row "model" = None) ->
  Loader.load_rows py_str py_int py_float rows = Some logs -> In log logs ->
  is_gpt4 log = false.
Proof.
  intros C L I. destruct (load_rows_In py_str py_int py_float rows logs log L I)
    as (row & Ir & R).
  apply load_row_fields in R. destruct R as (_ & M & _).
  unfold Loader.get_str in M. rewrite (C row Ir) in M.
  unfold is_gpt4. rewrite M. reflexivity.
Qed.

End EntryPointFacts.

Lemma filter_none {A : Type} (f : A -> bool) (l : list A) :
  (forall x, In x l -> f x = false) -> filter f l = [].
Proof.
  induction l as [|x l IH]; intros H; [reflexivity|].
  simpl. rewrite (H x) by (left; reflexivity).
  apply IH. intros y I. apply H. right. exact I.
Qed.

(** X8: the loaders cut every prompt to 200 characters, so no prompt that
    comes from a ".csv" file is verbose: the report of an upload that is not
    a ".json" file has no verbose prompt and prompt optimization savings of
    0, and so has every summary that the script prints. *)
Theorem X8_loaded_prompts_are_never_verbose {cell content : Type}
    (py_str : cell -> string) (py_int : cell -> option Z)
    (py_float : cell -> option float)
    (read_csv : content -> option (list Loader.Row))
    (analyze_json : content -> option App.Report)
    (read_csv_file : string -> option (list Loader.Row))
    (filename : string) (body : content) (argv : list string) :
  (forall r,
     Loader.analyze_upload py_str py_int py_float read_csv analyze_json filename body
       = Some r ->
     Loader.endswith filename ".json" = false ->
     App.verbose_prompts r = [] /\ App.prompt_opt_savings r = 0) /\
  (forall s,
     Loader.main py_str py_int py_float read_csv_file argv = Loader.Printed s ->
     AnalyzeLocal.verbose s = [] /\ AnalyzeLocal.prompt_savings s = 0).
Proof.
  split.
  - intros r H J.
    destruct (analyze_upload_report _ _ _ _ _ _ _ _ H J) as (rows & logs & _ & L & ->).
    apply loaded_not_verbose in L.
    cbn [report_of App.verbose_prompts App.prompt_opt_savings].
    unfold prompt_opt_savings_of, sorted_verbose. rewrite L.
    split; reflexivity.
  - intros s H.
    destruct (main_printed _ _ _ _ _ _ H)
      as (script & file & more & rows & logs & _ & _ & L & _ & _ & ->).
    apply loaded_not_verbose in L.
    cbn [summary_of AnalyzeLocal.verbose AnalyzeLocal.prompt_savings].
    unfold cli_prompt_savings_of. rewrite L.
    split; reflexivity.
Qed.

Lemma X8_loaded_prompts_are_never_verbose_witness :
  (exists r,
     Loader.analyze_upload (fun s => s) text_int text_float (file_of [long_row])
       no_json "usage.csv" "usage.csv" = Some r /\
     App.verbose_prompts r = [] /\ App.prompt_opt_savings r = 0) /\
  (exists s,
     Loader.main (fun s => s) text_int text_float (file_of [long_row])
       ["analyze_local.py"; "usage.csv"] = Loader.Printed s /\
     AnalyzeLocal.verbose s = [] /\ AnalyzeLocal.prompt_savings s = 0).
Proof.
  destruct (X8_loaded_prompts_are_never_verbose (fun s => s) text_int text_float
              (file_of [long_row]) no_json (file_of [long_row])
              "usage.csv" "usage.csv" ["analyze_local.py"; "usage.csv"]) as [W C].
  split.
  - eexists. split; [vm_compute; reflexivity|]. apply W; vm_compute; reflexivity.
  - eexists. split; [vm_compute; reflexivity|]. apply C; vm_compute; reflexivity.
Defined.



(** X10: for a file without a model column every model defaults to
    "gpt-3.5-turbo": the report of the upload has no downgradeable call and
    routing savings of 0, and so has the summary that the script prints. *)
Theorem X10_file_without_model_column {cell content : Type}
    (py_str : cell -> string) (py_int : cell -> option Z)
    (py_float : cell -> option float)
    (read_csv : content -> option (list Loader.Row))
    (analyze_json : content -> option App.Report)
    (read_csv_file : string -> option (list Loader.Row))
    (filename : string) (body : content) (script : string) (more : list string)
    (rows : list Loader.Row) :
  (forall row, In row rows -> row "model" = None) ->
  (Loader.endswith filename ".csv" = true -> read_csv body = Some rows ->
   forall r,
     Loader.analyze_upload py_str py_int py_float read_csv analyze_json filename body
       = Some r ->
     App.downgradeable_calls r = [] /\ App.routing_savings r = 0) /\
  (read_csv_file filename = Some rows ->
   forall s,
     Loader.main py_str py_int py_float read_csv_file (script :: filename :: more)
       = Loader.Printed s ->
     AnalyzeLocal.downgradeable s = [] /\ AnalyzeLocal.sorted_down s = [] /\
     AnalyzeLocal.routing_savings s = 0).
Proof.
  intros C. split.
  - intros E RD r H. unfold Loader.analyze_upload in H. rewrite E, RD in H.
    destruct (Loader.load_rows py_str py_int py_float rows) as [logs|] eqn:L;
      [|discriminate].
    rewrite analyze_data_eq in H. injection H as <-.
    assert (filter App.downgradeable logs = []) as F.
    { apply filter_none. intros log I. unfold App.downgradeable.
      rewrite (loaded_not_gpt4 py_str py_int py_float rows logs log C L I).
      reflexivity. }
    cbn [report_of App.downgradeable_calls App.routing_savings].
    unfold routing_savings_of. rewrite F. split; reflexivity.
  - intros RD s H. unfold Loader.main, Loader.analyze_csv_file in H. rewrite RD in H.
    destruct (Loader.load_rows py_str py_int py_float rows) as [logs|] eqn:L;
      [|discriminate].
    rewrite analyze_csv_eq in H. destruct logs as [|log logs]; [discriminate|].
    destruct (total_cost_of (log :: logs) =? 0); [discriminate|].
    injection H as <-.
    assert (filter cli_downgradeable (log :: logs) = []) as F.
    { apply filter_none. intros log' I. unfold cli_downgradeable.
      rewrite (loaded_not_gpt4 py_str py_int py_float rows _ log' C L I).
      reflexivity. }
    cbn [summary_of AnalyzeLocal.downgradeable AnalyzeLocal.sorted_down
           AnalyzeLocal.routing_savings].
    unfold cli_routing_savings_of. rewrite F. repeat split; reflexivity.
Qed.

Lemma X10_file_without_model_column_witness :
  (exists r,
     Loader.analyze_upload (fun s => s) text_int text_float (file_of [long_row])
       no_json "usage.csv" "usage.csv" = Some r /\
     App.downgradeable_calls r = [] /\ App.routing_savings r = 0) /\
  (exists s,
     Loader.main (fun s => s) text_int text_float (file_of [long_row])
       ["analyze_local.py"; "usage.csv"] = Loader.Printed s /\
     AnalyzeLocal.downgradeable s = [] /\ AnalyzeLocal.routing_savings s = 0).
Proof.
  assert (forall row : Loader.Row, In row [long_row] -> row "model" = None) as C.
  { intros row [<-|[]]. reflexivity. }
  destruct (X10_file_without_model_column (fun s => s) text_int text_float
              (file_of [long_row]) no_json (file_of [long_row])
              "usage.csv" "usage.csv" "analyze_local.py" [] [long_row] C) as [W M].
  split.
  - eexists. split; [vm_compute; reflexivity|].
    apply W; vm_compute; reflexivity.
  - eexists. split; [vm_compute; reflexivity|].
    destruct (M eq_refl _ eq_refl) as (D & _ & R). split; [exact D|exact R].
Defined.

(** X11: for an upload of a ".csv" file whose frame is read,
    [analyze_upload] builds a report, of as many calls as the frame has
    rows, unless the conversion of a row raises, and then it builds none;
    for an upload of a file that is neither a ".csv" nor a ".json" file it
    builds the report of no call, whatever the body. *)
Theorem X11_upload_outcomes {cell content : Type}
    (py_str : cell -> string) (py_int : cell -> option Z)
    (py_float : cell -> option float)
    (read_csv : content -> option (list Loader.Row))
    (analyze_json : content -> option App.Report)
    (filename : string) (body : content) :
  (Loader.endswith filename ".csv" = true ->
   forall rows, read_csv body = Some rows ->
     match Loader.analyze_upload py_str py_int py_float read_csv analyze_json
             filename body with
     | Some r =>
         App.total_calls r = List.length rows /\
         forall row, In row rows ->
           Loader.load_row py_str py_int py_float row <> None
     | None =>
         exists row, In row rows /\
           Loader.load_row py_str py_int py_float row = None
     end) /\
  (Loader.endswith filename ".csv" = false ->
   Loader.endswith filename ".json" = false ->
   Loader.analyze_upload py_str py_int py_float read_csv analyze_json filename body
     = Some App.empty_report).
Proof.
  unfold Loader.analyze_upload. split.
  - intros E rows RD. rewrite E, RD.
    destruct (Loader.load_rows py_str py_int py_float rows) as [logs|] eqn:L.
    + rewrite analyze_data_eq. cbn [Loader.returned report_of App.total_calls].
      split; [apply (load_rows_length py_str py_int py_float), L|].
      intros row I R. apply load_rows_Forall2 in L.
      clear RD. induction L as [|row' log rows logs R' F IH]; [contradiction|].
      destruct I as [->|I]; [congruence|apply IH, I].
    + apply load_rows_None, L.
  - intros E J. rewrite E, J. reflexivity.
Qed.

Lemma X11_upload_outcomes_witness :
  (exists r,
     Loader.analyze_upload (fun s => s) text_int text_float
       (file_of [long_row; bare_row]) no_json "usage.csv" "usage.csv" = Some r /\
     App.total_calls r = 2%nat) /\
  Loader.analyze_upload (fun s => s) text_int text_float
    (file_of [long_row; broken_row]) no_json "usage.csv" "usage.csv" = None /\
  Loader.analyze_upload (fun s => s) text_int text_float
    (file_of [long_row]) no_json "usage.txt" "usage.csv" = Some App.empty_report.
Proof.
  split; [|split].
  - destruct (X11_upload_outcomes (fun s => s) text_int text_float
                (file_of [long_row; bare_row]) no_json "usage.csv" "usage.csv")
      as [W _].
    specialize (W eq_refl _ eq_refl).
    destruct (Loader.analyze_upload (fun s => s) text_int text_float
                (file_of [long_row; bare_row]) no_json "usage.csv" "usage.csv")
      as [r|] eqn:E.
    + exists r. split; [reflexivity|apply W].
    + vm_compute in E. discriminate.
  - vm_compute. reflexivity.
  - apply (X11_upload_outcomes (fun s => s) text_int text_float
             (file_of [long_row]) no_json "usage.txt" "usage.csv"); reflexivity.
Defined.

(** X12: the script ends with status 1 in these cases and no other: it is
    given no file name; or the file is read and the conversion of one of its
    rows raises; or the file is read, has a row, and its costs add up to
    zero.  In particular a file that cannot be read ends it with status 0,
    and so does a file without rows. *)
Theorem X12_script_exit_status {cell : Type}
    (py_str : cell -> string) (py_int : cell -> option Z)
    (py_float : cell -> option float)
    (read_csv_file : string -> option (list Loader.Row))
    (argv : list string) :
  Loader.exit_status (Loader.main py_str py_int py_float read_csv_file argv) = 1%Z
  <->
  (List.length argv < 2)%nat \/
  exists script filename more rows,
    argv = script :: filename :: more /\
    read_csv_file filename = Some rows /\
    (Loader.load_rows py_str py_int py_float rows = None \/
     exists logs,
       Loader.load_rows py_str py_int py_float rows = Some logs /\
       logs <> [] /\ (total_cost_of logs =? 0) = true).
Proof.
  unfold Loader.main, Loader.analyze_csv_file.
  destruct argv as [|script [|filename more]].
  - split; [intros _; left; simpl; lia|reflexivity].
  - split; [intros _; left; simpl; lia|reflexivity].
  - destruct (read_csv_file filename) as [rows|] eqn:RD.
    + destruct (Loader.load_rows py_str py_int py_float rows) as [logs|] eqn:L.
      * rewrite analyze_csv_eq. destruct logs as [|log logs].
        { split; [discriminate|]. intros [H|H]; [simpl in H; lia|].
          destruct H as (? & ? & ? & rows' & E & RD' & [N|(logs' & L' & NE & _)]);
            injection E as -> -> ->; rewrite RD in RD'; injection RD' as <-;
            congruence. }
        destruct (total_cost_of (log :: logs) =? 0) eqn:T.
        { split; [|reflexivity]. intros _. right.
          exists script, filename, more, rows.
          split; [reflexivity|]. split; [exact RD|]. right.
          exists (log :: logs). split; [exact L|]. split; [discriminate|exact T]. }
        { split; [discriminate|]. intros [H|H]; [simpl in H; lia|].
          destruct H as (? & ? & ? & rows' & E & RD' & [N|(logs' & L' & NE & T')]);
            injection E as -> -> ->; rewrite RD in RD'; injection RD' as <-;
            congruence. }
      * split; [|reflexivity]. intros _. right.
        exists script, filename, more, rows.
        split; [reflexivity|]. split; [exact RD|]. left. exact L.
    + split; [discriminate|]. intros [H|H]; [simpl in H; lia|].
      destruct H as (? & ? & ? & rows' & E & RD' & _).
      injection E as -> -> ->. congruence.
Qed.

(** X13: the duplicate entries and the cache savings depend on the cut
    prompts and the costs of the records only: two logs whose records have,
    one by one, the same first 50 characters of the prompt and the same
    cost, give the same duplicate prompts and the same cache savings,
    whatever their models, token counts, times and longer prompts. *)
Theorem X13_caching_reads_fingerprints_and_costs (logs logs' : list CallRecord) :
  map fingerprint_cost logs = map fingerprint_cost logs' ->
  App.caching logs = App.caching logs' /\
  exists r r',
    App.analyze_data logs = Py.Ok r /\ App.analyze_data logs' = Py.Ok r' /\
    App.duplicate_prompts r = App.duplicate_prompts r' /\
    App.cache_savings r = App.cache_savings r'.
Proof.
  intros E.
  assert (map fingerprint logs = map fingerprint logs') as EF.
  { apply (f_equal (map fst)) in E. rewrite !map_map in E. exact E. }
  assert (forall k, group_count logs k = group_count logs' k) as EC.
  { intros k. rewrite <- !occurrences_fingerprint, EF. reflexivity. }
  assert (forall k, first_cost logs k = first_cost logs' k) as EK.
  { intros k. unfold first_cost, group. clear EF EC. revert logs' E.
    induction logs as [|a logs IH]; intros [|b logs'] E; try discriminate;
      [reflexivity|].
    simpl in E. injection E as Ea Ec E. unfold fingerprint_cost in Ea.
    simpl. rewrite <- Ea.
    destruct (String.eqb (fingerprint a) k); [exact Ec|apply IH, E]. }
  assert (forall k, group_savings logs k = group_savings logs' k) as ES
    by (intros k; unfold group_savings; rewrite EC, EK; reflexivity).
  assert (duplicate_keys logs = duplicate_keys logs') as ED
    by (unfold duplicate_keys; rewrite EF; reflexivity).
  assert (forall k, duplicate_entry logs k = duplicate_entry logs' k) as EE
    by (intros k; unfold duplicate_entry; rewrite EC, EK, ES; reflexivity).
  assert (cache_savings_of logs = cache_savings_of logs') as ECS.
  { unfold cache_savings_of. rewrite ED. f_equal. apply map_ext, ES. }
  assert (map (duplicate_entry logs) (duplicate_keys logs)
          = map (duplicate_entry logs') (duplicate_keys logs')) as EM
    by (rewrite ED; apply map_ext, EE).
  split.
  - rewrite !caching_eq, EM, ECS. reflexivity.
  - exists (report_of logs), (report_of logs').
    split; [apply analyze_data_eq|]. split; [apply analyze_data_eq|].
    cbn [report_of App.duplicate_prompts App.cache_savings].
    rewrite EM, ECS. split; reflexivity.
Qed.

Lemma X13_caching_reads_fingerprints_and_costs_witness :
  App.caching long_pair = App.caching long_pair'.
Proof.
  apply (X13_caching_reads_fingerprints_and_costs long_pair long_pair').
  reflexivity.
Defined.

(** X14: on a log for which the script prints its summary, the report of
    the web variant agrees with it: the same number of calls, and the total
    cost, the cache savings and the batch savings of the summary rounded to
    2 decimals; every duplicate entry of the report is a duplicate of the
    summary with the same count; every downgradeable call of the report is
    one of the summary, with its cost and its savings rounded to
    4 decimals; every verbose prompt of the report is the entry of a
    verbose record of the summary. *)
Theorem X14_report_agrees_with_summary (logs : list CallRecord)
    (r : App.Report) (s : AnalyzeLocal.Summary) :
  App.analyze_data logs = Py.Ok r ->
  AnalyzeLocal.analyze_csv logs = Py.Ok (Some s) ->
  App.total_calls r = AnalyzeLocal.total_calls s /\
  App.total_cost r = Py.round (AnalyzeLocal.total_cost s) 2 /\
  App.cache_savings r = Py.round (AnalyzeLocal.cache_savings s) 2 /\
  App.batch_savings r = Py.round (AnalyzeLocal.batch_savings s) 2 /\
  (forall d, In d (App.duplicate_prompts r) ->
     In (App.dup_prompt d, App.dup_count d) (AnalyzeLocal.duplicates s)) /\
  (forall c, In c (App.downgradeable_calls r) ->
     exists c', In c' (AnalyzeLocal.downgradeable s) /\
       App.dg_prompt c = AnalyzeLocal.dg_prompt c' /\
       App.dg_current_cost c = Py.round (AnalyzeLocal.dg_cost c') 4 /\
       App.dg_savings c = Py.round (AnalyzeLocal.dg_savings c') 4) /\
  (forall v, In v (App.verbose_prompts r) ->
     exists log, In log (AnalyzeLocal.verbose s) /\ v = verbose_entry log).
Proof.
  rewrite analyze_data_eq, analyze_csv_eq. intros R S. injection R as <-.
  destruct logs as [|log0 logs0]; [discriminate|].
  destruct (total_cost_of (log0 :: logs0) =? 0); [discriminate|].
  injection S as <-. remember (log0 :: logs0) as logs eqn:E. clear E.
  cbn [report_of summary_of App.total_calls App.total_cost App.cache_savings
         App.batch_savings App.duplicate_prompts App.downgradeable_calls
         App.verbose_prompts AnalyzeLocal.total_calls AnalyzeLocal.total_cost
         AnalyzeLocal.cache_savings AnalyzeLocal.batch_savings
         AnalyzeLocal.duplicates AnalyzeLocal.downgradeable AnalyzeLocal.verbose].
  repeat (split; [reflexivity|]). split; [|split].
  - intros d I. apply In_firstn, sort_desc_In, in_map_iff in I.
    destruct I as (k & <- & I). cbn [duplicate_entry App.dup_prompt App.dup_count].
    unfold duplicate_keys, repeated in I. apply in_map_iff in I.
    destruct I as ([k' n] & Ek & I). simpl in Ek. subst k'.
    assert (In (k, n) (Py.Counter (map fingerprint logs))) as I'
      by (apply filter_In in I; apply I).
    apply Counter_items in I'. destruct I' as [-> _]. exact I.
  - intros c I. apply In_firstn, sort_desc_In, in_map_iff in I.
    destruct I as (log & <- & I). exists (cli_downgradeable_entry log).
    split; [|repeat split].
    apply in_map, filter_In. apply filter_In in I. destruct I as [I D].
    split; [exact I|]. apply downgradeable_web_cli, D.
  - intros v I. unfold sorted_verbose in I.
    apply In_firstn, sort_desc_In, in_map_iff in I.
    destruct I as (log & <- & I). exists log. split; [exact I|reflexivity].
Qed.

Lemma X14_report_agrees_with_summary_witness :
  App.total_cost (report_of twelve_calls)
  = Py.round (AnalyzeLocal.total_cost (summary_of twelve_calls)) 2 /\
  forall d, In d (App.duplicate_prompts (report_of twelve_calls)) ->
    In (App.dup_prompt d, App.dup_count d)
       (AnalyzeLocal.duplicates (summary_of twelve_calls)).
Proof.
  destruct (X14_report_agrees_with_summary twelve_calls (report_of twelve_calls)
              (summary_of twelve_calls)) as (_ & T & _ & _ & D & _).
  - apply analyze_data_eq.
  - rewrite analyze_csv_eq. reflexivity.
  - split; [exact T|exact D].
Defined.
